(** * secure-chat-sdk: peer sessions, key exchange and the message codec

    A shallow embedding of [src/services/EncryptionService.ts],
    [src/services/WebRTCManager.ts] and [src/providers/SecureChatProvider.tsx].

    Conventions of the embedding:
    - a JavaScript [Map<string, V>] is a [gmap string V];
    - a method is a computation in the state-and-exception monad [Eff]:
      a [throw] leaves the mutations done so far in place, as in JavaScript;
    - the program runs on one event loop; every handler is embedded as one
      transition, a platform promise being taken as settled when awaited;
    - the platform primitives (WebCrypto, RTCPeerConnection, the CSPRNG and
      the clock) are interfaces: type classes for the primitives, explicit
      arguments for the random bytes and the time;
    - the nullable callback fields of the manager ([onPeerDisconnected] and
      the like) are one function [cb] receiving the event, the manager as it
      is at the moment of the call, and the state of the application; a
      callback is code of the application and may throw;
    - a [string] holds the UTF-8 bytes of a JavaScript string, whose own
      unit of length is the UTF-16 code unit. *)

From Stdlib Require Import NArith Ascii String List.
From Stdlib.Strings Require Import Byte.
From stdpp Require Import gmap strings list fin_maps.

Abbreviation bytes := (list byte).

(** ** Exceptions and the monad of the methods *)

(** The source throws plain [Error] objects; the constructors name them by
    the message or the platform call they come from. *)
Inductive Error : Type :=
| NotInitializedError            (* 'Encryption service not initialized' *)
| KeyGenerationError             (* crypto.subtle.generateKey rejected *)
| NoKeyError (peerId : string)   (* `No shared key found for peer ${peerId}` *)
| KeyImportError                 (* crypto.subtle.importKey rejected the bytes *)
| EncryptionError                (* crypto.subtle.encrypt rejected *)
| DecryptionError                (* crypto.subtle.decrypt rejected: tag mismatch *)
| ChannelError (peerId : string) (* `Data channel not available for ${peerId}` *)
| NoPeerSelectedError            (* 'No peer selected or WebRTC manager not initialized' *)
| NegotiationError               (* a description or a candidate was rejected *)
| InvalidStateError              (* RTCDataChannel.send on a channel that is not open *)
| SyntaxError                    (* JSON.parse threw *)
| TypeError.                     (* what is called is not a function *)

Inductive Result (A : Type) : Type :=
| Ok (a : A)
| Throw (e : Error).
Arguments Ok {A} a.
Arguments Throw {A} e.

Definition Eff (S A : Type) : Type := S -> Result A * S.

Definition ret {S A} (a : A) : Eff S A := fun s => (Ok a, s).

Definition throw {S A} (e : Error) : Eff S A := fun s => (Throw e, s).

Definition bind {S A B} (m : Eff S A) (k : A -> Eff S B) : Eff S B :=
  fun s =>
    match m s with
    | (Ok a, s') => k a s'
    | (Throw e, s') => (Throw e, s')
    end.

(** [try { body } catch (error) { handler }] *)
Definition tryCatch {S A} (body : Eff S A) (handler : Error -> Eff S A) : Eff S A :=
  fun s =>
    match body s with
    | (Ok a, s') => (Ok a, s')
    | (Throw e, s') => handler e s'
    end.

Definition gets {S A} (f : S -> A) : Eff S A := fun s => (Ok (f s), s).

Definition modify {S} (f : S -> S) : Eff S unit := fun s => (Ok tt, f s).

(** [catch (error) { console.error(...); throw error; }] *)
Definition logAndRethrow {S A} (body : Eff S A) : Eff S A :=
  tryCatch body (fun e => throw e).

(** [catch (error) { console.error(...); }] *)
Definition logAndSwallow {S} (body : Eff S unit) : Eff S unit :=
  tryCatch body (fun _ => ret tt).

Declare Scope eff_scope.
Delimit Scope eff_scope with eff.
Notation "x <- m ;; k" := (bind m (fun x => k))
  (at level 100, m at next level, right associativity) : eff_scope.
Notation "m ;; k" := (bind m (fun _ => k))
  (at level 100, right associativity) : eff_scope.
Open Scope eff_scope.

Definition state_of {S A} (r : Result A * S) : S := snd r.
Definition result_of {S A} (r : Result A * S) : Result A := fst r.

(** ** The platform's cryptography (WebCrypto), as an interface *)

Class SubtleCrypto : Type := {
  PrivateKey : Type;
  PublicKey : Type;
  CryptoKey : Type;                                   (* an AES-GCM key *)
  exportKey : PublicKey -> bytes;                     (* exportKey('raw', _) *)
  importKey : bytes -> option PublicKey;              (* None: the promise rejects *)
  deriveKey : PublicKey -> PrivateKey -> CryptoKey;   (* ECDH, then AES-GCM 256 *)
  aesGcmEncrypt : CryptoKey -> bytes -> bytes -> option bytes;  (* key, iv, data *)
  aesGcmDecrypt : CryptoKey -> bytes -> bytes -> option bytes
}.

(** What the platform promises about its primitives. *)
Definition import_export_law (C : SubtleCrypto) : Prop :=
  forall pk : PublicKey, importKey (exportKey pk) = Some pk.

Definition aead_correct (C : SubtleCrypto) : Prop :=
  forall (k : CryptoKey) (iv m c : bytes),
    aesGcmEncrypt k iv m = Some c -> aesGcmDecrypt k iv c = Some m.

(** ** EncryptionService.ts *)

Module EncryptionService.
Section WithCrypto.
Context {C : SubtleCrypto}.

Record CryptoKeyPair : Type := {
  privateKey : PrivateKey;
  publicKey : PublicKey
}.

Record t : Type := {
  keyPair : option CryptoKeyPair;
  sharedKeys : gmap string CryptoKey
}.

Definition set_keyPair (v : option CryptoKeyPair) (s : t) : t :=
  {| keyPair := v; sharedKeys := sharedKeys s |}.

Definition set_sharedKeys (f : gmap string CryptoKey -> gmap string CryptoKey) (s : t) : t :=
  {| keyPair := keyPair s; sharedKeys := f (sharedKeys s) |}.

(** [new EncryptionService()] *)
Definition new : t := {| keyPair := None; sharedKeys := ∅ |}.

(** [initialize]: [generated] is what [generateKey] resolves to, [None]
    when it rejects. *)
Definition initialize (generated : option CryptoKeyPair) : Eff t unit :=
  logAndRethrow
    match generated with
    | Some kp => modify (set_keyPair (Some kp))
    | None => throw KeyGenerationError
    end.

Definition getPublicKey : Eff t bytes :=
  kp <- gets keyPair ;;
  match kp with
  | None => throw NotInitializedError
  | Some kp => ret (exportKey (publicKey kp))
  end.

Definition hasSharedKey (peerId : string) (s : t) : bool :=
  bool_decide (is_Some (sharedKeys s !! peerId)).

Definition establishSharedKey (peerId : string) (peerPublicKey : bytes) : Eff t unit :=
  kp <- gets keyPair ;;
  match kp with
  | None => throw NotInitializedError
  | Some kp =>
      has <- gets (hasSharedKey peerId) ;;
      if (has : bool) then ret tt
      else
        logAndRethrow
          match importKey peerPublicKey with
          | None => throw KeyImportError
          | Some importedPeerKey =>
              let sharedKey := deriveKey importedPeerKey (privateKey kp) in
              modify (set_sharedKeys (insert peerId sharedKey))
          end
  end.

(** [encrypt]: [iv] is the 12 bytes [getRandomValues] returns. The result
    is the pair [{ ciphertext, iv }]. *)
Definition encrypt (iv : bytes) (plaintext : bytes) (peerId : string)
  : Eff t (bytes * bytes) :=
  k <- gets (fun s => sharedKeys s !! peerId) ;;
  match k with
  | None => throw (NoKeyError peerId)
  | Some sharedKey =>
      logAndRethrow
        match aesGcmEncrypt sharedKey iv plaintext with
        | Some ciphertext => ret (ciphertext, iv)
        | None => throw EncryptionError
        end
  end.

Definition decrypt (ciphertext iv : bytes) (peerId : string) : Eff t bytes :=
  k <- gets (fun s => sharedKeys s !! peerId) ;;
  match k with
  | None => throw (NoKeyError peerId)
  | Some sharedKey =>
      logAndRethrow
        match aesGcmDecrypt sharedKey iv ciphertext with
        | Some decrypted => ret decrypted
        | None => throw DecryptionError
        end
  end.

Definition removeSharedKey (peerId : string) : Eff t unit :=
  modify (set_sharedKeys (delete peerId)).

Definition rotateKey (peerId : string) : Eff t unit :=
  removeSharedKey peerId.

Definition cleanup : Eff t unit :=
  modify (fun _ => {| keyPair := None; sharedKeys := ∅ |}).

End WithCrypto.
End EncryptionService.

(** ** The platform's transport: RTCPeerConnection, RTCDataChannel, WebSocket *)

Inductive RTCSdpType : Type := SdpOffer | SdpAnswer.

Record RTCSessionDescriptionInit : Type := {
  sdpType : RTCSdpType;
  sdp : string
}.

Record RTCIceCandidateInit : Type := {
  candidate : string;
  sdpMLineIndex : N
}.

Inductive RTCPeerConnectionState : Type :=
| PcNew | PcConnecting | PcConnected | PcDisconnected | PcFailed | PcClosed.

Inductive RTCIceConnectionState : Type :=
| IceNew | IceChecking | IceConnected | IceCompleted | IceFailed
| IceDisconnected | IceClosed.

Inductive RTCSignalingState : Type :=
| Stable | HaveLocalOffer | HaveRemoteOffer | SignalingClosed.

Inductive RTCDataChannelState : Type :=
| DcConnecting | DcOpen | DcClosing | DcClosed.

Inductive WebSocketState : Type :=
| WsConnecting | WsOpen | WsClosing | WsClosed.

#[global] Instance RTCPeerConnectionState_eq_dec : EqDecision RTCPeerConnectionState.
Proof. solve_decision. Defined.
#[global] Instance RTCIceConnectionState_eq_dec : EqDecision RTCIceConnectionState.
Proof. solve_decision. Defined.
#[global] Instance RTCSignalingState_eq_dec : EqDecision RTCSignalingState.
Proof. solve_decision. Defined.
#[global] Instance RTCDataChannelState_eq_dec : EqDecision RTCDataChannelState.
Proof. solve_decision. Defined.
#[global] Instance WebSocketState_eq_dec : EqDecision WebSocketState.
Proof. solve_decision. Defined.
#[global] Instance RTCSdpType_eq_dec : EqDecision RTCSdpType.
Proof. solve_decision. Defined.

(** What the platform decides about the values it is handed. *)
Class RTCPlatform : Type := {
  descriptionOk : RTCSessionDescriptionInit -> bool;  (* the description parses *)
  candidateOk : RTCIceCandidateInit -> bool           (* the candidate parses *)
}.

(** The frames of the session channel, as [JSON.parse] reads them. *)
Inductive Frame : Type :=
| key_exchange (publicKey : bytes) (sender : string) (isResponse : bool) (timestamp : N)
| encrypted_message (ciphertext iv : bytes) (sender : string)
| typing_indicator (typing : bool) (sender : string)
| unknown_frame (type : string).

(** The envelopes the relay delivers. *)
Inductive SignalingMessage : Type :=
| peer_discovered (peerId : string) (username : string)
| peer_disconnected (peerId : string)
| discovery_ping (nodeId username : string) (timestamp : N)
| discovery_pong (nodeId username targetNode : string) (timestamp : N)
| offer (senderId : string) (payload : RTCSessionDescriptionInit)
| answer (senderId : string) (payload : RTCSessionDescriptionInit)
| ice_candidate (senderId : string) (payload : RTCIceCandidateInit)
| unknown_message (type : string).

(** The envelopes the manager sends to the relay. *)
Inductive Outbound : Type :=
| out_join (nodeId username : string)
| out_discovery_ping (nodeId username : string) (timestamp : N)
| out_discovery_pong (nodeId username targetNode : string) (timestamp : N)
| out_offer (targetPeer : string) (payload : RTCSessionDescriptionInit)
| out_answer (targetPeer : string) (payload : RTCSessionDescriptionInit)
| out_ice_candidate (targetPeer : string) (payload : RTCIceCandidateInit).

(** The plaintext of an application message: [{ content, timestamp, sender }]. *)
Record MessageData : Type := {
  md_content : string;
  md_timestamp : N;
  md_sender : string
}.

(** [TextEncoder().encode(JSON.stringify(_))] and
    [JSON.parse(new TextDecoder().decode(_))]. *)
Class MessageCodec : Type := {
  encodeMessageData : MessageData -> bytes;
  decodeMessageData : bytes -> option MessageData     (* None: JSON.parse throws *)
}.

Module RTCPeerConnection.
Record t : Type := {
  connectionState : RTCPeerConnectionState;
  iceConnectionState : RTCIceConnectionState;
  signalingState : RTCSignalingState;
  localDescription : option RTCSessionDescriptionInit;
  remoteDescription : option RTCSessionDescriptionInit;
  (* every call of addIceCandidate, in call order, with whether the
     platform took the candidate *)
  iceCandidates : list (RTCIceCandidateInit * bool)
}.

(** [new RTCPeerConnection(configuration)] *)
Definition new : t := {|
  connectionState := PcNew;
  iceConnectionState := IceNew;
  signalingState := Stable;
  localDescription := None;
  remoteDescription := None;
  iceCandidates := []
|}.

Section WithPlatform.
Context {P : RTCPlatform}.

(** An offer is taken in [stable], an answer in [have-local-offer]. *)
Definition setRemoteDescription (d : RTCSessionDescriptionInit) : Eff t unit :=
  fun pc =>
    if descriptionOk d then
      match sdpType d, signalingState pc with
      | SdpOffer, Stable =>
          (Ok tt, {| connectionState := connectionState pc;
                     iceConnectionState := iceConnectionState pc;
                     signalingState := HaveRemoteOffer;
                     localDescription := localDescription pc;
                     remoteDescription := Some d;
                     iceCandidates := iceCandidates pc |})
      | SdpAnswer, HaveLocalOffer =>
          (Ok tt, {| connectionState := connectionState pc;
                     iceConnectionState := iceConnectionState pc;
                     signalingState := Stable;
                     localDescription := localDescription pc;
                     remoteDescription := Some d;
                     iceCandidates := iceCandidates pc |})
      | _, _ => (Throw NegotiationError, pc)
      end
    else (Throw NegotiationError, pc).

(** An offer is taken in [stable], an answer in [have-remote-offer]. *)
Definition setLocalDescription (d : RTCSessionDescriptionInit) : Eff t unit :=
  fun pc =>
    if descriptionOk d then
      match sdpType d, signalingState pc with
      | SdpOffer, Stable =>
          (Ok tt, {| connectionState := connectionState pc;
                     iceConnectionState := iceConnectionState pc;
                     signalingState := HaveLocalOffer;
                     localDescription := Some d;
                     remoteDescription := remoteDescription pc;
                     iceCandidates := iceCandidates pc |})
      | SdpAnswer, HaveRemoteOffer =>
          (Ok tt, {| connectionState := connectionState pc;
                     iceConnectionState := iceConnectionState pc;
                     signalingState := Stable;
                     localDescription := Some d;
                     remoteDescription := remoteDescription pc;
                     iceCandidates := iceCandidates pc |})
      | _, _ => (Throw NegotiationError, pc)
      end
    else (Throw NegotiationError, pc).

(** The platform rejects a candidate while there is no remote description,
    and a candidate it cannot parse. *)
Definition addIceCandidate (c : RTCIceCandidateInit) : Eff t unit :=
  fun pc =>
    let taken := bool_decide (is_Some (remoteDescription pc)) && candidateOk c in
    (if taken then Ok tt else Throw NegotiationError,
     {| connectionState := connectionState pc;
        iceConnectionState := iceConnectionState pc;
        signalingState := signalingState pc;
        localDescription := localDescription pc;
        remoteDescription := remoteDescription pc;
        iceCandidates := iceCandidates pc ++ [(c, taken)] |}).

(** The connection after [addIceCandidate] was called on each of [cs] in
    turn, a remote description being in place. *)
Definition afterCandidates (cs : list RTCIceCandidateInit) (pc : t) : t :=
  {| connectionState := connectionState pc;
     iceConnectionState := iceConnectionState pc;
     signalingState := signalingState pc;
     localDescription := localDescription pc;
     remoteDescription := remoteDescription pc;
     iceCandidates := iceCandidates pc ++ map (fun c => (c, candidateOk c)) cs |}.

End WithPlatform.

Definition close : Eff t unit :=
  modify (fun pc =>
    {| connectionState := PcClosed;
       iceConnectionState := IceClosed;
       signalingState := SignalingClosed;
       localDescription := localDescription pc;
       remoteDescription := remoteDescription pc;
       iceCandidates := iceCandidates pc |}).

End RTCPeerConnection.

Module RTCDataChannel.
Record t : Type := {
  readyState : RTCDataChannelState;
  (* the frames handed to [send] and not yet delivered to the other end *)
  sent : list Frame
}.

(** [peerConnection.createDataChannel('messages', { ordered: true })] *)
Definition new : t := {| readyState := DcConnecting; sent := [] |}.

Definition send (f : Frame) : Eff t unit :=
  fun dc =>
    match readyState dc with
    | DcOpen => (Ok tt, {| readyState := DcOpen; sent := sent dc ++ [f] |})
    | _ => (Throw InvalidStateError, dc)
    end.

Definition isOpen (dc : t) : bool := bool_decide (readyState dc = DcOpen).
End RTCDataChannel.

Module WebSocket.
Record t : Type := {
  readyState : WebSocketState;
  sent : list Outbound
}.
Definition new : t := {| readyState := WsConnecting; sent := [] |}.
End WebSocket.

(** ** JavaScript strings

    JavaScript counts a string in UTF-16 code units. In the UTF-8 bytes a
    [string] holds, a sequence of one, two or three bytes is one code unit
    and a sequence of four bytes is a surrogate pair, two code units. A pair
    cut in the middle leaves its high surrogate, which is written here in
    the three bytes of its generalized UTF-8 form. *)

Module JsString.

(** The high surrogate of the code point encoded by four bytes. *)
Definition highSurrogate (b0 b1 b2 b3 : ascii) : string :=
  let cp := (N.shiftl (N.land (N_of_ascii b0) 7) 18 +
             N.shiftl (N.land (N_of_ascii b1) 63) 12 +
             N.shiftl (N.land (N_of_ascii b2) 63) 6 +
             N.land (N_of_ascii b3) 63)%N in
  let hs := (55296 + N.shiftr (cp - 65536) 10)%N in
  String (ascii_of_N 237)
    (String (ascii_of_N (128 + N.land (N.shiftr hs 6) 63))
       (String (ascii_of_N (128 + N.land hs 63)) EmptyString)).

(** [s.substring(0, n)]: the first [n] code units of [s]. *)
Fixpoint prefix (n : nat) (s : string) : string :=
  match n, s with
  | 0, _ => EmptyString
  | _, EmptyString => EmptyString
  | S n', String b0 s0 =>
      let lead := N_of_ascii b0 in
      if (lead <? 192)%N then String b0 (prefix n' s0)
      else if (lead <? 224)%N then
        match s0 with
        | String b1 s1 => String b0 (String b1 (prefix n' s1))
        | EmptyString => String b0 EmptyString
        end
      else if (lead <? 240)%N then
        match s0 with
        | String b1 (String b2 s2) => String b0 (String b1 (String b2 (prefix n' s2)))
        | _ => String b0 s0
        end
      else
        match s0 with
        | String b1 (String b2 (String b3 s3)) =>
            match n' with
            | S n'' => String b0 (String b1 (String b2 (String b3 (prefix n'' s3))))
            | 0 => highSurrogate b0 b1 b2 b3
            end
        | _ => String b0 s0
        end
  end.

End JsString.

(** ** WebRTCManager.ts *)

Inductive ConnectionStatus : Type := disconnected | connecting | connected.

(** The callbacks of the manager, as the events they report. *)
Inductive Event : Type :=
| PeerDiscovered (peerId username : string)
| PeerDisconnected (peerId : string)
| MessageReceived (content sender : string) (encrypted : bool)
| ConnectionEstablished (peerId : string)
| EncryptionEstablished (peerId : string)
| ConnectionStatusChanged (status : ConnectionStatus)
| TypingIndicator (peerId : string) (typing : bool)
| RemoteAudioStream (peerId : string)
| PeerConnectionStateChanged (peerId : string) (state : RTCPeerConnectionState).

Module WebRTCManager.
Section WithPlatform.
Context {C : SubtleCrypto} {P : RTCPlatform} {J : MessageCodec}.

Record t : Type := {
  nodeId : string;
  username : string;
  encryptionService : EncryptionService.t;
  signalingSocket : option WebSocket.t;
  peerConnections : gmap string RTCPeerConnection.t;
  dataChannels : gmap string RTCDataChannel.t;
  pendingIceCandidates : gmap string (list RTCIceCandidateInit);
  connectionStates : gmap string RTCPeerConnectionState;
  discoveryInterval : bool      (* whether the discovery timer is armed *)
}.

Definition set_encryptionService (f : EncryptionService.t -> EncryptionService.t) (m : t) : t :=
  {| nodeId := nodeId m; username := username m;
     encryptionService := f (encryptionService m);
     signalingSocket := signalingSocket m;
     peerConnections := peerConnections m;
     dataChannels := dataChannels m;
     pendingIceCandidates := pendingIceCandidates m;
     connectionStates := connectionStates m;
     discoveryInterval := discoveryInterval m |}.

Definition set_signalingSocket (f : option WebSocket.t -> option WebSocket.t) (m : t) : t :=
  {| nodeId := nodeId m; username := username m;
     encryptionService := encryptionService m;
     signalingSocket := f (signalingSocket m);
     peerConnections := peerConnections m;
     dataChannels := dataChannels m;
     pendingIceCandidates := pendingIceCandidates m;
     connectionStates := connectionStates m;
     discoveryInterval := discoveryInterval m |}.

Definition set_peerConnections
    (f : gmap string RTCPeerConnection.t -> gmap string RTCPeerConnection.t) (m : t) : t :=
  {| nodeId := nodeId m; username := username m;
     encryptionService := encryptionService m;
     signalingSocket := signalingSocket m;
     peerConnections := f (peerConnections m);
     dataChannels := dataChannels m;
     pendingIceCandidates := pendingIceCandidates m;
     connectionStates := connectionStates m;
     discoveryInterval := discoveryInterval m |}.

Definition set_dataChannels
    (f : gmap string RTCDataChannel.t -> gmap string RTCDataChannel.t) (m : t) : t :=
  {| nodeId := nodeId m; username := username m;
     encryptionService := encryptionService m;
     signalingSocket := signalingSocket m;
     peerConnections := peerConnections m;
     dataChannels := f (dataChannels m);
     pendingIceCandidates := pendingIceCandidates m;
     connectionStates := connectionStates m;
     discoveryInterval := discoveryInterval m |}.

Definition set_pendingIceCandidates
    (f : gmap string (list RTCIceCandidateInit) -> gmap string (list RTCIceCandidateInit))
    (m : t) : t :=
  {| nodeId := nodeId m; username := username m;
     encryptionService := encryptionService m;
     signalingSocket := signalingSocket m;
     peerConnections := peerConnections m;
     dataChannels := dataChannels m;
     pendingIceCandidates := f (pendingIceCandidates m);
     connectionStates := connectionStates m;
     discoveryInterval := discoveryInterval m |}.

Definition set_connectionStates
    (f : gmap string RTCPeerConnectionState -> gmap string RTCPeerConnectionState)
    (m : t) : t :=
  {| nodeId := nodeId m; username := username m;
     encryptionService := encryptionService m;
     signalingSocket := signalingSocket m;
     peerConnections := peerConnections m;
     dataChannels := dataChannels m;
     pendingIceCandidates := pendingIceCandidates m;
     connectionStates := f (connectionStates m);
     discoveryInterval := discoveryInterval m |}.

Definition set_discoveryInterval (v : bool) (m : t) : t :=
  {| nodeId := nodeId m; username := username m;
     encryptionService := encryptionService m;
     signalingSocket := signalingSocket m;
     peerConnections := peerConnections m;
     dataChannels := dataChannels m;
     pendingIceCandidates := pendingIceCandidates m;
     connectionStates := connectionStates m;
     discoveryInterval := v |}.

(** [new WebRTCManager(nodeId, username, encryptionService)] *)
Definition new (nodeId username : string) (es : EncryptionService.t) : t :=
  {| nodeId := nodeId; username := username;
     encryptionService := es;
     signalingSocket := None;
     peerConnections := ∅;
     dataChannels := ∅;
     pendingIceCandidates := ∅;
     connectionStates := ∅;
     discoveryInterval := false |}.

(** The manager once every per-peer entry of [peerId] is removed. *)
Definition teardown (peerId : string) (m : t) : t :=
  {| nodeId := nodeId m; username := username m;
     encryptionService :=
       EncryptionService.set_sharedKeys (delete peerId) (encryptionService m);
     signalingSocket := signalingSocket m;
     peerConnections := delete peerId (peerConnections m);
     dataChannels := delete peerId (dataChannels m);
     pendingIceCandidates := delete peerId (pendingIceCandidates m);
     connectionStates := delete peerId (connectionStates m);
     discoveryInterval := discoveryInterval m |}.

(** No tracking structure has an entry for [peerId]. *)
Definition absent (peerId : string) (m : t) : Prop :=
  peerConnections m !! peerId = None /\
  dataChannels m !! peerId = None /\
  pendingIceCandidates m !! peerId = None /\
  connectionStates m !! peerId = None /\
  EncryptionService.sharedKeys (encryptionService m) !! peerId = None.

(** The two managers hold the same session for [peerId]. *)
Definition sameSession (peerId : string) (m m' : t) : Prop :=
  peerConnections m !! peerId = peerConnections m' !! peerId /\
  dataChannels m !! peerId = dataChannels m' !! peerId /\
  pendingIceCandidates m !! peerId = pendingIceCandidates m' !! peerId /\
  connectionStates m !! peerId = connectionStates m' !! peerId /\
  EncryptionService.sharedKeys (encryptionService m) !! peerId =
    EncryptionService.sharedKeys (encryptionService m') !! peerId.

(** The candidates waiting for [peerId]. *)
Definition queued (peerId : string) (m : t) : list RTCIceCandidateInit :=
  default [] (pendingIceCandidates m !! peerId).

(** The manager together with the state its callbacks act on. *)
Record World (App : Type) : Type := {
  mgr : t;
  app : App
}.
Arguments mgr {App} w.
Arguments app {App} w.

Section WithCallbacks.
Context {App : Type}.
(** The callbacks installed on the manager: the event, the manager at the
    moment of the call, and what the callback does to the state of the
    application; like any call, it returns or throws. *)
Variable cb : Event -> t -> Eff App unit.

Abbreviation W := (Eff (World App)).

Definition onMgr (f : t -> t) : W unit :=
  modify (fun w => {| mgr := f (mgr w); app := app w |}).

(** [this.onX?.(...)] *)
Definition emit (e : Event) : W unit :=
  fun w =>
    let '(r, a) := cb e (mgr w) (app w) in
    (r, {| mgr := mgr w; app := a |}).

(** A method of [this.encryptionService]. *)
Definition liftES {A} (m : Eff EncryptionService.t A) : W A :=
  fun w =>
    let '(r, es) := m (encryptionService (mgr w)) in
    (r, {| mgr := set_encryptionService (fun _ => es) (mgr w); app := app w |}).

(** A method of the connection object stored for [peerId]. *)
Definition onPc {A} (peerId : string) (m : Eff RTCPeerConnection.t A) : W A :=
  fun w =>
    match peerConnections (mgr w) !! peerId with
    | Some pc =>
        let '(r, pc') := m pc in
        (r, {| mgr := set_peerConnections (insert peerId pc') (mgr w); app := app w |})
    | None => (Throw InvalidStateError, w)
    end.

(** A method of the channel object stored for [peerId]. *)
Definition onDc {A} (peerId : string) (m : Eff RTCDataChannel.t A) : W A :=
  fun w =>
    match dataChannels (mgr w) !! peerId with
    | Some dc =>
        let '(r, dc') := m dc in
        (r, {| mgr := set_dataChannels (insert peerId dc') (mgr w); app := app w |})
    | None => (Throw InvalidStateError, w)
    end.

Fixpoint forEach {A} (l : list A) (body : A -> W unit) : W unit :=
  match l with
  | [] => ret tt
  | x :: l' => body x ;; forEach l' body
  end.

Definition sendToSignalingServer (message : Outbound) : W unit :=
  onMgr (set_signalingSocket (fun so =>
    match so with
    | Some ws =>
        match WebSocket.readyState ws with
        | WsOpen => Some {| WebSocket.readyState := WsOpen;
                            WebSocket.sent := WebSocket.sent ws ++ [message] |}
        | _ => Some ws
        end
    | None => None
    end)).

Definition handlePeerDisconnected (peerId : string) : W unit :=
  peerConnection <- gets (fun w => peerConnections (mgr w) !! peerId) ;;
  match peerConnection with
  | Some _ =>
      onPc peerId RTCPeerConnection.close ;;
      onMgr (set_peerConnections (delete peerId))
  | None => ret tt
  end ;;
  onMgr (set_dataChannels (delete peerId)) ;;
  onMgr (set_pendingIceCandidates (delete peerId)) ;;
  onMgr (set_connectionStates (delete peerId)) ;;
  liftES (EncryptionService.removeSharedKey peerId) ;;
  emit (PeerDisconnected peerId).

Definition disconnectFromPeer (peerId : string) : W unit :=
  handlePeerDisconnected peerId.

Definition disconnect : W unit :=
  iv <- gets (fun w => discoveryInterval (mgr w)) ;;
  (if (iv : bool) then onMgr (set_discoveryInterval false) else ret tt) ;;
  onMgr (set_peerConnections (fmap (fun pc => state_of (RTCPeerConnection.close pc)))) ;;
  onMgr (set_peerConnections (fun _ => ∅)) ;;
  onMgr (set_dataChannels (fun _ => ∅)) ;;
  onMgr (set_pendingIceCandidates (fun _ => ∅)) ;;
  onMgr (set_connectionStates (fun _ => ∅)) ;;
  so <- gets (fun w => signalingSocket (mgr w)) ;;
  match so with
  | Some _ => onMgr (set_signalingSocket (fun _ => None))
  | None => ret tt
  end.

(** [createPeerConnection]: a fresh connection object; its handlers are the
    definitions [onconnectionstatechange], [oniceconnectionstatechange] and
    [setupDataChannel] below. *)
Definition createPeerConnection (peerId : string) : W RTCPeerConnection.t :=
  ret RTCPeerConnection.new.

(** [setupDataChannel]: the handlers it installs are [channel_onopen_timer],
    [handleDataChannelMessage] and [channel_onclose] below. *)
Definition setupDataChannel (dataChannel : RTCDataChannel.t) (peerId : string) : W unit :=
  onMgr (set_dataChannels (insert peerId dataChannel)).

Definition channelIsOpen (peerId : string) (w : World App) : bool :=
  match dataChannels (mgr w) !! peerId with
  | Some dc => RTCDataChannel.isOpen dc
  | None => false
  end.

(** [performKeyExchange], run 1500 ms after the channel opened. *)
Definition performKeyExchange (now : N) (peerId : string) : W unit :=
  logAndSwallow (
    ready <- gets (channelIsOpen peerId) ;;
    if negb ready then ret tt
    else
      has <- gets (fun w => EncryptionService.hasSharedKey peerId (encryptionService (mgr w))) ;;
      if (has : bool) then emit (EncryptionEstablished peerId)
      else
        publicKey <- liftES EncryptionService.getPublicKey ;;
        me <- gets (fun w => nodeId (mgr w)) ;;
        onDc peerId (RTCDataChannel.send (key_exchange publicKey me false now))).

Definition handleKeyExchange (now : N) (publicKey : bytes) (isResponse : bool)
    (peerId : string) : W unit :=
  logAndSwallow (
    has <- gets (fun w => EncryptionService.hasSharedKey peerId (encryptionService (mgr w))) ;;
    if (has : bool) then emit (EncryptionEstablished peerId)
    else
      liftES (EncryptionService.establishSharedKey peerId publicKey) ;;
      ready <- gets (channelIsOpen peerId) ;;
      (if ready && negb isResponse then
         publicKey <- liftES EncryptionService.getPublicKey ;;
         me <- gets (fun w => nodeId (mgr w)) ;;
         onDc peerId (RTCDataChannel.send (key_exchange publicKey me true now))
       else ret tt) ;;
      emit (EncryptionEstablished peerId)).

Definition handleEncryptedMessage (ciphertext iv : bytes) (peerId : string) : W unit :=
  logAndSwallow (
    decryptedContent <- liftES (EncryptionService.decrypt ciphertext iv peerId) ;;
    match decodeMessageData decryptedContent with
    | None => throw SyntaxError
    | Some messageData => emit (MessageReceived (md_content messageData) peerId true)
    end).

(** [data] is [None] when [JSON.parse] throws. *)
Definition handleDataChannelMessage (now : N) (data : option Frame) (peerId : string) : W unit :=
  logAndSwallow
    match data with
    | None => throw SyntaxError
    | Some (key_exchange publicKey _ isResponse _) =>
        handleKeyExchange now publicKey isResponse peerId
    | Some (encrypted_message ciphertext iv _) =>
        handleEncryptedMessage ciphertext iv peerId
    | Some (typing_indicator typing _) => emit (TypingIndicator peerId typing)
    | Some (unknown_frame _) => ret tt
    end.

(** [sendMessage]: [iv] is what the CSPRNG returns inside [encrypt]. *)
Definition sendMessage (now : N) (iv : bytes) (peerId content : string) : W unit :=
  logAndRethrow (
    ready <- gets (channelIsOpen peerId) ;;
    if negb ready then throw (ChannelError peerId)
    else
      me <- gets (fun w => nodeId (mgr w)) ;;
      let messageData := {| md_content := content; md_timestamp := now; md_sender := me |} in
      let plaintext := encodeMessageData messageData in
      enc <- liftES (EncryptionService.encrypt iv plaintext peerId) ;;
      onDc peerId (RTCDataChannel.send (encrypted_message (fst enc) (snd enc) me))).

Definition sendTypingIndicator (peerId : string) (typing : bool) : W unit :=
  ready <- gets (channelIsOpen peerId) ;;
  if (ready : bool) then
    me <- gets (fun w => nodeId (mgr w)) ;;
    onDc peerId (RTCDataChannel.send (typing_indicator typing me))
  else ret tt.

Definition processPendingIceCandidates (peerId : string) : W unit :=
  pendingCandidates <- gets (fun w => pendingIceCandidates (mgr w) !! peerId) ;;
  match pendingCandidates with
  | Some cs =>
      if (0 <? length cs)%nat then
        forEach cs (fun c =>
          logAndSwallow (onPc peerId (RTCPeerConnection.addIceCandidate c))) ;;
        onMgr (set_pendingIceCandidates (delete peerId))
      else ret tt
  | None => ret tt
  end.

Definition handleIceCandidate (senderId : string) (c : RTCIceCandidateInit) : W unit :=
  logAndSwallow (
    peerConnection <- gets (fun w => peerConnections (mgr w) !! senderId) ;;
    match peerConnection with
    | Some pc =>
        match RTCPeerConnection.remoteDescription pc with
        | Some _ => onPc senderId (RTCPeerConnection.addIceCandidate c)
        | None =>
            has <- gets (fun w =>
              bool_decide (is_Some (pendingIceCandidates (mgr w) !! senderId))) ;;
            (if (has : bool) then ret tt
             else onMgr (set_pendingIceCandidates (insert senderId []))) ;;
            onMgr (set_pendingIceCandidates (alter (fun q => q ++ [c]) senderId))
        end
    | None => ret tt
    end).

(** [handleOffer]: [created] is what [createAnswer] resolves to, [None]
    when it rejects. *)
Definition handleOffer (created : option RTCSessionDescriptionInit)
    (senderId : string) (o : RTCSessionDescriptionInit) : W unit :=
  tryCatch (
    peerConnection <- createPeerConnection senderId ;;
    onMgr (set_peerConnections (insert senderId peerConnection)) ;;
    onPc senderId (RTCPeerConnection.setRemoteDescription o) ;;
    processPendingIceCandidates senderId ;;
    match created with
    | None => throw NegotiationError
    | Some a =>
        onPc senderId (RTCPeerConnection.setLocalDescription a) ;;
        sendToSignalingServer (out_answer senderId a)
    end)
  (fun _ => handlePeerDisconnected senderId).

Definition handleAnswer (senderId : string) (a : RTCSessionDescriptionInit) : W unit :=
  tryCatch (
    peerConnection <- gets (fun w => peerConnections (mgr w) !! senderId) ;;
    match peerConnection with
    | Some pc =>
        if bool_decide (RTCPeerConnection.signalingState pc = HaveLocalOffer) then
          onPc senderId (RTCPeerConnection.setRemoteDescription a) ;;
          processPendingIceCandidates senderId
        else ret tt
    | None => ret tt
    end)
  (fun _ => handlePeerDisconnected senderId).

(** [connectToPeer]: [created] is what [createOffer] resolves to. *)
Definition connectToPeer (created : option RTCSessionDescriptionInit) (peerId : string)
  : W unit :=
  existingConnection <- gets (fun w => peerConnections (mgr w) !! peerId) ;;
  match existingConnection with
  | Some {| RTCPeerConnection.connectionState := PcConnected |} => ret tt
  | _ =>
      tryCatch (
        peerConnection <- createPeerConnection peerId ;;
        onMgr (set_peerConnections (insert peerId peerConnection)) ;;
        setupDataChannel RTCDataChannel.new peerId ;;
        match created with
        | None => throw NegotiationError
        | Some o =>
            onPc peerId (RTCPeerConnection.setLocalDescription o) ;;
            sendToSignalingServer (out_offer peerId o)
        end)
      (fun _ => handlePeerDisconnected peerId)
  end.

(** [a || b] on strings: the empty string is falsy. *)
Definition orElse (a b : string) : string :=
  match a with
  | EmptyString => b
  | _ => a
  end.

Definition handleSignalingMessage (created : option RTCSessionDescriptionInit) (now : N)
    (message : SignalingMessage) : W unit :=
  match message with
  | peer_discovered peerId name =>
      emit (PeerDiscovered peerId (orElse name (JsString.prefix 12 peerId)))
  | peer_disconnected peerId => handlePeerDisconnected peerId
  | discovery_ping other name _ =>
      me <- gets (fun w => nodeId (mgr w)) ;;
      if bool_decide (other <> me) then
        myName <- gets (fun w => username (mgr w)) ;;
        sendToSignalingServer (out_discovery_pong me myName other now) ;;
        emit (PeerDiscovered other (orElse name (JsString.prefix 12 other)))
      else ret tt
  | discovery_pong other name targetNode _ =>
      me <- gets (fun w => nodeId (mgr w)) ;;
      if bool_decide (targetNode = me) && bool_decide (other <> me) then
        emit (PeerDiscovered other (orElse name (JsString.prefix 12 other)))
      else ret tt
  | offer senderId payload => handleOffer created senderId payload
  | answer senderId payload => handleAnswer senderId payload
  | ice_candidate senderId payload => handleIceCandidate senderId payload
  | unknown_message _ => ret tt
  end.

(** The handlers [createPeerConnection] installs on the connection. *)

(** The connection stored for the peer turns [state], then its
    [onconnectionstatechange] runs and reads that state. *)
Definition onconnectionstatechange (peerId : string) (state : RTCPeerConnectionState)
  : W unit :=
  onMgr (set_peerConnections (alter (fun pc =>
    {| RTCPeerConnection.connectionState := state;
       RTCPeerConnection.iceConnectionState := RTCPeerConnection.iceConnectionState pc;
       RTCPeerConnection.signalingState := RTCPeerConnection.signalingState pc;
       RTCPeerConnection.localDescription := RTCPeerConnection.localDescription pc;
       RTCPeerConnection.remoteDescription := RTCPeerConnection.remoteDescription pc;
       RTCPeerConnection.iceCandidates := RTCPeerConnection.iceCandidates pc |}) peerId)) ;;
  onMgr (set_connectionStates (insert peerId state)) ;;
  emit (PeerConnectionStateChanged peerId state) ;;
  match state with
  | PcFailed => handlePeerDisconnected peerId
  | _ => ret tt
  end.

(** The body of the 10 s timer armed when the ICE state turns
    [disconnected]; [state] is the ICE state the timer finds. *)
Definition ice_disconnected_timer (peerId : string) (state : RTCIceConnectionState)
  : W unit :=
  match state with
  | IceDisconnected => handlePeerDisconnected peerId
  | _ => ret tt
  end.

(** [peerConnection.ondatachannel]: the channel the peer opened. *)
Definition ondatachannel (channel : RTCDataChannel.t) (peerId : string) : W unit :=
  setupDataChannel channel peerId.

(** The channel turns [open]; [onopen] only arms the key-exchange timer. *)
Definition channel_opens (peerId : string) : W unit :=
  onMgr (set_dataChannels (alter (fun dc =>
    {| RTCDataChannel.readyState := DcOpen;
       RTCDataChannel.sent := RTCDataChannel.sent dc |}) peerId)).

Definition channel_onclose (peerId : string) : W unit :=
  onMgr (set_dataChannels (delete peerId)).

Definition socketIsOpen (w : World App) : bool :=
  match signalingSocket (mgr w) with
  | Some ws => bool_decide (WebSocket.readyState ws = WsOpen)
  | None => false
  end.

Definition sendDiscoveryPing (now : N) : W unit :=
  ready <- gets socketIsOpen ;;
  if (ready : bool) then
    me <- gets (fun w => nodeId (mgr w)) ;;
    myName <- gets (fun w => username (mgr w)) ;;
    sendToSignalingServer (out_discovery_ping me myName now)
  else ret tt.

(** [startAutoDiscovery]: the timer is cleared if armed, a ping goes out,
    the timer is armed; every tick of the timer is [sendDiscoveryPing]. *)
Definition startAutoDiscovery (now : N) : W unit :=
  armed <- gets (fun w => discoveryInterval (mgr w)) ;;
  (if (armed : bool) then onMgr (set_discoveryInterval false) else ret tt) ;;
  sendDiscoveryPing now ;;
  onMgr (set_discoveryInterval true).

(** [connect]: [constructed] is false when [new WebSocket(_)] throws. The
    handlers it installs are [socket_onopen], [handleSignalingMessage] and
    [socket_onclose]. *)
Definition connect (constructed : bool) : W unit :=
  tryCatch (
    (if constructed then onMgr (set_signalingSocket (fun _ => Some WebSocket.new))
     else throw SyntaxError) ;;
    emit (ConnectionStatusChanged connecting))
  (fun _ => emit (ConnectionStatusChanged disconnected)).

(** The socket turns [open], then [onopen] runs. *)
Definition socket_onopen (now : N) : W unit :=
  onMgr (set_signalingSocket (option_map (fun ws =>
    {| WebSocket.readyState := WsOpen; WebSocket.sent := WebSocket.sent ws |}))) ;;
  emit (ConnectionStatusChanged connected) ;;
  me <- gets (fun w => nodeId (mgr w)) ;;
  myName <- gets (fun w => username (mgr w)) ;;
  sendToSignalingServer (out_join me myName) ;;
  startAutoDiscovery now.

(** The socket turns [closed], then [onclose] runs. *)
Definition socket_onclose : W unit :=
  onMgr (set_signalingSocket (option_map (fun ws =>
    {| WebSocket.readyState := WsClosed; WebSocket.sent := WebSocket.sent ws |}))) ;;
  emit (ConnectionStatusChanged disconnected).

End WithCallbacks.

(** Callbacks that return normally, given by what they do to the state of
    the application. *)
Definition returning {App : Type} (f : Event -> t -> App -> App)
  : Event -> t -> Eff App unit :=
  fun e m a => (Ok tt, f e m a).

End WithPlatform.
Arguments mgr {C App} w.
Arguments app {C App} w.
End WebRTCManager.

(** ** SecureChatProvider.tsx *)

Module Peer.
Record t : Type := {
  id : string;
  name : string;
  online : bool;
  connectionState : RTCPeerConnectionState;
  encryptionEstablished : bool
}.
End Peer.

Module Message.
Record t : Type := {
  id : string;
  content : string;
  sender : string;
  senderName : string;
  timestamp : N;
  encrypted : bool;
  isOwn : bool
}.
End Message.

Module SecureChatProvider.

(** The [logLevel] prop. *)
Inductive LogLevel : Type := LogSilent | LogError | LogWarn | LogInfo | LogVerbose.

#[global] Instance LogLevel_eq_dec : EqDecision LogLevel.
Proof. solve_decision. Defined.

Record t : Type := {
  (* React state *)
  peers : list Peer.t;
  selectedPeer : option Peer.t;
  messages : list Message.t;
  connectionStatus : ConnectionStatus;
  isTyping : bool;
  (* refs and props *)
  webrtcManagerRef : bool;       (* whether [webrtcManagerRef.current] is set *)
  nodeIdRef : string;
  username : string;
  debug : bool;
  logLevel : LogLevel;
  (* what the closures of the effect captured at the render that ran it *)
  effectPeers : list Peer.t;
  effectSelectedPeer : option Peer.t;
  (* the platform: the ids [createSecureId] is going to return, the clock *)
  secureIds : list string;
  clock : N
}.

Definition setPeers (f : list Peer.t -> list Peer.t) (s : t) : t :=
  {| peers := f (peers s); selectedPeer := selectedPeer s; messages := messages s;
     connectionStatus := connectionStatus s; isTyping := isTyping s;
     webrtcManagerRef := webrtcManagerRef s; nodeIdRef := nodeIdRef s;
     username := username s; debug := debug s; logLevel := logLevel s;
     effectPeers := effectPeers s; effectSelectedPeer := effectSelectedPeer s;
     secureIds := secureIds s; clock := clock s |}.

Definition setSelectedPeer (v : option Peer.t) (s : t) : t :=
  {| peers := peers s; selectedPeer := v; messages := messages s;
     connectionStatus := connectionStatus s; isTyping := isTyping s;
     webrtcManagerRef := webrtcManagerRef s; nodeIdRef := nodeIdRef s;
     username := username s; debug := debug s; logLevel := logLevel s;
     effectPeers := effectPeers s; effectSelectedPeer := effectSelectedPeer s;
     secureIds := secureIds s; clock := clock s |}.

Definition setMessages (f : list Message.t -> list Message.t) (s : t) : t :=
  {| peers := peers s; selectedPeer := selectedPeer s; messages := f (messages s);
     connectionStatus := connectionStatus s; isTyping := isTyping s;
     webrtcManagerRef := webrtcManagerRef s; nodeIdRef := nodeIdRef s;
     username := username s; debug := debug s; logLevel := logLevel s;
     effectPeers := effectPeers s; effectSelectedPeer := effectSelectedPeer s;
     secureIds := secureIds s; clock := clock s |}.

Definition setConnectionStatus (v : ConnectionStatus) (s : t) : t :=
  {| peers := peers s; selectedPeer := selectedPeer s; messages := messages s;
     connectionStatus := v; isTyping := isTyping s;
     webrtcManagerRef := webrtcManagerRef s; nodeIdRef := nodeIdRef s;
     username := username s; debug := debug s; logLevel := logLevel s;
     effectPeers := effectPeers s; effectSelectedPeer := effectSelectedPeer s;
     secureIds := secureIds s; clock := clock s |}.

Definition setIsTyping (v : bool) (s : t) : t :=
  {| peers := peers s; selectedPeer := selectedPeer s; messages := messages s;
     connectionStatus := connectionStatus s; isTyping := v;
     webrtcManagerRef := webrtcManagerRef s; nodeIdRef := nodeIdRef s;
     username := username s; debug := debug s; logLevel := logLevel s;
     effectPeers := effectPeers s; effectSelectedPeer := effectSelectedPeer s;
     secureIds := secureIds s; clock := clock s |}.

Definition set_secureIds (v : list string) (s : t) : t :=
  {| peers := peers s; selectedPeer := selectedPeer s; messages := messages s;
     connectionStatus := connectionStatus s; isTyping := isTyping s;
     webrtcManagerRef := webrtcManagerRef s; nodeIdRef := nodeIdRef s;
     username := username s; debug := debug s; logLevel := logLevel s;
     effectPeers := effectPeers s; effectSelectedPeer := effectSelectedPeer s;
     secureIds := v; clock := clock s |}.

(** The state at mount, once [initializeServices] has set the manager. *)
Definition mounted (nodeId username : string) (debug : bool) (logLevel : LogLevel)
    (ids : list string) (now : N) : t :=
  {| peers := []; selectedPeer := None; messages := [];
     connectionStatus := disconnected; isTyping := false;
     webrtcManagerRef := true; nodeIdRef := nodeId; username := username;
     debug := debug; logLevel := logLevel;
     effectPeers := []; effectSelectedPeer := None;
     secureIds := ids; clock := now |}.

(** [levels.indexOf(_)] in [['silent', 'error', 'warn', 'info', 'verbose']] *)
Definition levelIndex (level : LogLevel) : nat :=
  match level with
  | LogSilent => 0
  | LogError => 1
  | LogWarn => 2
  | LogInfo => 3
  | LogVerbose => 4
  end.

(** [console[level](...)]: the console has the methods [error], [warn] and
    [info]; it has no [silent] and no [verbose], and calling what is
    undefined throws. *)
Definition console (level : LogLevel) : Eff t unit :=
  match level with
  | LogError | LogWarn | LogInfo => ret tt
  | LogSilent | LogVerbose => throw TypeError
  end.

(** The logging utility [log(level, message)]. *)
Definition log (level : LogLevel) : Eff t unit :=
  dbg <- gets debug ;;
  if negb dbg then ret tt
  else
    current <- gets logLevel ;;
    if levelIndex level <=? levelIndex current then console level
    else ret tt.

Definition hasId (peerId : string) (p : Peer.t) : bool :=
  bool_decide (Peer.id p = peerId).

(** [prev.map(p => p.id === peerId ? f(p) : p)] *)
Definition mapPeer (peerId : string) (f : Peer.t -> Peer.t) (prev : list Peer.t)
  : list Peer.t :=
  map (fun p => if hasId peerId p then f p else p) prev.

(** [createSecureId()], as a draw from the supply. *)
Definition createSecureId (s : t) : string * t :=
  match secureIds s with
  | i :: rest => (i, set_secureIds rest s)
  | [] => (EmptyString, s)
  end.

(** The callbacks [initializeServices] installs on the manager. The props
    [onPeerConnected], [onPeerDisconnected] and [onMessageReceived] belong to
    the embedding application and are left out. *)
Definition callbacks {M : Type} (e : Event) (_ : M) : Eff t unit :=
  match e with
  | PeerDiscovered peerId peerUsername =>
      log LogInfo ;;
      modify (setPeers (fun prev =>
        if existsb (hasId peerId) prev then
          mapPeer peerId (fun p =>
            {| Peer.id := Peer.id p; Peer.name := peerUsername; Peer.online := true;
               Peer.connectionState := Peer.connectionState p;
               Peer.encryptionEstablished := Peer.encryptionEstablished p |}) prev
        else
          prev ++ [{| Peer.id := peerId; Peer.name := peerUsername; Peer.online := true;
                      Peer.connectionState := PcDisconnected;
                      Peer.encryptionEstablished := false |}]))
  | PeerDisconnected peerId =>
      log LogInfo ;;
      modify (setPeers (mapPeer peerId (fun p =>
        {| Peer.id := Peer.id p; Peer.name := Peer.name p; Peer.online := false;
           Peer.connectionState := PcDisconnected;
           Peer.encryptionEstablished := false |})))
  | MessageReceived content sender encrypted =>
      log LogInfo ;;
      modify (fun s =>
        let senderPeer := find (hasId sender) (effectPeers s) in
        let '(newId, s1) := createSecureId s in
        let newMessage :=
          {| Message.id := newId;
             Message.content := content;
             Message.sender := sender;
             Message.senderName :=
               match senderPeer with
               | Some p => WebRTCManager.orElse (Peer.name p) (JsString.prefix 12 sender)
               | None => JsString.prefix 12 sender
               end;
             Message.timestamp := clock s;
             Message.encrypted := encrypted;
             Message.isOwn := false |} in
        setMessages (fun prev => prev ++ [newMessage]) s1)
  | ConnectionStatusChanged status =>
      log LogInfo ;;
      modify (setConnectionStatus status)
  | EncryptionEstablished peerId =>
      log LogInfo ;;
      modify (setPeers (mapPeer peerId (fun p =>
        {| Peer.id := Peer.id p; Peer.name := Peer.name p; Peer.online := Peer.online p;
           Peer.connectionState := Peer.connectionState p;
           Peer.encryptionEstablished := true |})))
  | PeerConnectionStateChanged peerId state =>
      log LogVerbose ;;
      modify (setPeers (mapPeer peerId (fun p =>
        {| Peer.id := Peer.id p; Peer.name := Peer.name p; Peer.online := Peer.online p;
           Peer.connectionState := state;
           Peer.encryptionEstablished := Peer.encryptionEstablished p |})))
  | TypingIndicator peerId typing =>
      sp <- gets effectSelectedPeer ;;
      match sp with
      | Some p => if hasId peerId p then modify (setIsTyping typing) else ret tt
      | None => ret tt
      end
  | RemoteAudioStream _ => ret tt       (* the audio manager is outside the model *)
  | ConnectionEstablished _ => ret tt   (* no handler is installed *)
  end.

Section WithPlatform.
Context {C : SubtleCrypto} {P : RTCPlatform} {J : MessageCodec}.

Abbreviation W := (Eff (WebRTCManager.World t)).

(** Code of the provider that acts on its own state only. *)
Definition liftApp {A} (m : Eff t A) : W A :=
  fun w =>
    let '(r, a) := m (WebRTCManager.app w) in
    (r, {| WebRTCManager.mgr := WebRTCManager.mgr w; WebRTCManager.app := a |}).

Definition onApp (f : t -> t) : W unit :=
  modify (fun w => {| WebRTCManager.mgr := WebRTCManager.mgr w;
                      WebRTCManager.app := f (WebRTCManager.app w) |}).

(** [sendMessage]: [iv] is what the CSPRNG returns inside [encrypt]. *)
Definition sendMessage (iv : bytes) (content : string) : W unit :=
  sp <- gets (fun w => selectedPeer (WebRTCManager.app w)) ;;
  ref <- gets (fun w => webrtcManagerRef (WebRTCManager.app w)) ;;
  match sp, ref with
  | Some peer, true =>
      liftApp (log LogInfo) ;;
      me <- gets (fun w => nodeIdRef (WebRTCManager.app w)) ;;
      myName <- gets (fun w => username (WebRTCManager.app w)) ;;
      now <- gets (fun w => clock (WebRTCManager.app w)) ;;
      newId <- (fun w =>
        let '(i, a) := createSecureId (WebRTCManager.app w) in
        (Ok i, {| WebRTCManager.mgr := WebRTCManager.mgr w; WebRTCManager.app := a |})) ;;
      let message :=
        {| Message.id := newId;
           Message.content := content;
           Message.sender := me;
           Message.senderName := myName;
           Message.timestamp := now;
           Message.encrypted := true;
           Message.isOwn := true |} in
      onApp (setMessages (fun prev => prev ++ [message])) ;;
      WebRTCManager.sendMessage now iv (Peer.id peer) content
  | _, _ => throw NoPeerSelectedError
  end.

(** [selectPeer]: [created] is what [createOffer] resolves to inside
    [connectToPeer]. *)
Definition selectPeer (created : option RTCSessionDescriptionInit) (peer : Peer.t) : W unit :=
  liftApp (log LogInfo) ;;
  onApp (setSelectedPeer (Some peer)) ;;
  onApp (setMessages (fun _ => [])) ;;
  onApp (setIsTyping false) ;;
  ref <- gets (fun w => webrtcManagerRef (WebRTCManager.app w)) ;;
  if (ref : bool) then WebRTCManager.connectToPeer callbacks created (Peer.id peer)
  else ret tt.

Definition disconnectPeer (peerId : string) : W unit :=
  liftApp (log LogInfo) ;;
  ref <- gets (fun w => webrtcManagerRef (WebRTCManager.app w)) ;;
  (if (ref : bool) then WebRTCManager.disconnectFromPeer callbacks peerId else ret tt) ;;
  onApp (setPeers (filter (fun p => Peer.id p ≠ peerId))) ;;
  sp <- gets (fun w => selectedPeer (WebRTCManager.app w)) ;;
  match sp with
  | Some p =>
      if hasId peerId p then
        onApp (setSelectedPeer None) ;;
        onApp (setMessages (fun _ => []))
      else ret tt
  | None => ret tt
  end.

Definition sendTypingIndicator (typing : bool) : W unit :=
  sp <- gets (fun w => selectedPeer (WebRTCManager.app w)) ;;
  ref <- gets (fun w => webrtcManagerRef (WebRTCManager.app w)) ;;
  match sp, ref with
  | Some peer, true => WebRTCManager.sendTypingIndicator (Peer.id peer) typing
  | _, _ => ret tt
  end.

End WithPlatform.
End SecureChatProvider.

(** ** The event loop of a mounted provider *)

Module EventLoop.

(** What the event loop dispatches: the platform's events on the relay
    socket, on the connections and on the channels, the timers, and the
    calls of the application. The platform's answers ride along. *)
Inductive Input : Type :=
| call_connect (constructed : bool)
| relay_opens (now : N)
| relay_closes
| relay_message (created : option RTCSessionDescriptionInit) (now : N)
    (message : SignalingMessage)
| discovery_timer (now : N)
| connection_state_changes (peerId : string) (state : RTCPeerConnectionState)
| ice_timer (peerId : string) (state : RTCIceConnectionState)
| channel_arrives (channel : RTCDataChannel.t) (peerId : string)
| channel_opens (peerId : string)
| channel_closes (peerId : string)
| channel_message (now : N) (data : option Frame) (peerId : string)
| key_exchange_timer (now : N) (peerId : string)
| call_sendMessage (iv : bytes) (content : string)
| call_selectPeer (created : option RTCSessionDescriptionInit) (peer : Peer.t)
| call_disconnectPeer (peerId : string)
| call_sendTypingIndicator (typing : bool)
| unmount.

Section WithPlatform.
Context {C : SubtleCrypto} {P : RTCPlatform} {J : MessageCodec}.

Definition handler (i : Input) : Eff (WebRTCManager.World SecureChatProvider.t) unit :=
  match i with
  | call_connect constructed =>
      WebRTCManager.connect SecureChatProvider.callbacks constructed
  | relay_opens now => WebRTCManager.socket_onopen SecureChatProvider.callbacks now
  | relay_closes => WebRTCManager.socket_onclose SecureChatProvider.callbacks
  | relay_message created now message =>
      WebRTCManager.handleSignalingMessage SecureChatProvider.callbacks created now message
  | discovery_timer now => WebRTCManager.sendDiscoveryPing now
  | connection_state_changes peerId state =>
      WebRTCManager.onconnectionstatechange SecureChatProvider.callbacks peerId state
  | ice_timer peerId state =>
      WebRTCManager.ice_disconnected_timer SecureChatProvider.callbacks peerId state
  | channel_arrives channel peerId => WebRTCManager.ondatachannel channel peerId
  | channel_opens peerId => WebRTCManager.channel_opens peerId
  | channel_closes peerId => WebRTCManager.channel_onclose peerId
  | channel_message now data peerId =>
      WebRTCManager.handleDataChannelMessage SecureChatProvider.callbacks now data peerId
  | key_exchange_timer now peerId =>
      WebRTCManager.performKeyExchange SecureChatProvider.callbacks now peerId
  | call_sendMessage iv content => SecureChatProvider.sendMessage iv content
  | call_selectPeer created peer => SecureChatProvider.selectPeer created peer
  | call_disconnectPeer peerId => SecureChatProvider.disconnectPeer peerId
  | call_sendTypingIndicator typing => SecureChatProvider.sendTypingIndicator typing
  | unmount => WebRTCManager.disconnect
  end.

(** One turn of the loop: a handler run to its end, the promises it awaits
    being settled by then; what it throws goes to its caller. What another
    handler does while this one waits on a promise, and a second run of the
    provider's effect, are not among the inputs. *)
Definition step (w : WebRTCManager.World SecureChatProvider.t) (i : Input)
  : WebRTCManager.World SecureChatProvider.t :=
  state_of (handler i w).

Definition run (inputs : list Input) (w : WebRTCManager.World SecureChatProvider.t)
  : WebRTCManager.World SecureChatProvider.t :=
  fold_left step inputs w.

(** The provider once [initializeServices] has built the manager around an
    initialized encryption service. *)
Definition start (kp : EncryptionService.CryptoKeyPair) (nodeId username : string)
    (debug : bool) (logLevel : SecureChatProvider.LogLevel)
    (ids : list string) (now : N) : WebRTCManager.World SecureChatProvider.t :=
  {| WebRTCManager.mgr :=
       WebRTCManager.new nodeId username
         (state_of (EncryptionService.initialize (Some kp) EncryptionService.new));
     WebRTCManager.app :=
       SecureChatProvider.mounted nodeId username debug logLevel ids now |}.

End WithPlatform.
End EventLoop.

(** ** Vocabulary of the properties *)

(** A computation keeps an invariant of the state, whether it returns or
    throws. *)
Definition preserves {S A : Type} (I : S -> Prop) (m : Eff S A) : Prop :=
  forall s : S, I s -> I (state_of (m s)).

(** A computation leaves a component of the state as it was. *)
Definition keeps {S A V : Type} (v : S -> V) (m : Eff S A) : Prop :=
  forall s : S, v (state_of (m s)) = v s.

(** The codec gives back the content it was given. *)
Definition codec_keeps_content (J : MessageCodec) : Prop :=
  forall md : MessageData,
    exists md' : MessageData,
      decodeMessageData (encodeMessageData md) = Some md' /\
      md_content md' = md_content md.

Section Invariants.
Context {C : SubtleCrypto}.

(** No peer has an empty candidate queue. *)
Definition noEmptyQueue {App : Type} (w : WebRTCManager.World App) : Prop :=
  forall peerId : string,
    WebRTCManager.pendingIceCandidates (WebRTCManager.mgr w) !! peerId <> Some [].

(** A service that holds a key holds a key pair. *)
Definition keysNeedPair (es : EncryptionService.t) : Prop :=
  (exists peerId : string, is_Some (EncryptionService.sharedKeys es !! peerId)) ->
  is_Some (EncryptionService.keyPair es).

End Invariants.

(** The directory lists a peer id once. *)
Definition distinctIds (a : SecureChatProvider.t) : Prop :=
  NoDup (map Peer.id (SecureChatProvider.peers a)).

(** ** Two managers joined by a session channel *)

Module Network.
Section WithPlatform.
Context {C : SubtleCrypto} {P : RTCPlatform} {J : MessageCodec}.

(** A node is a manager whose callbacks append the event to a log. *)
Definition record (e : Event) (_ : WebRTCManager.t) (log : list Event) : list Event :=
  log ++ [e].

Definition recorder : Event -> WebRTCManager.t -> Eff (list Event) unit :=
  WebRTCManager.returning record.

Definition Node : Type := WebRTCManager.World (list Event).

Record Net : Type := {
  nodeA : Node;
  nodeB : Node
}.

Inductive Side : Type := SideA | SideB.

(** The ids under which the two nodes know each other. *)
Variables idA idB : string.

(** The first frame the node handed to the channel it keeps for [peer] and
    that is still in flight. An ordered channel delivers in this order. *)
Definition takeFrame (peer : string) (n : Node) : option (Frame * Node) :=
  match WebRTCManager.dataChannels (WebRTCManager.mgr n) !! peer with
  | Some dc =>
      match RTCDataChannel.sent dc with
      | f :: rest =>
          Some (f, {| WebRTCManager.mgr :=
                        WebRTCManager.set_dataChannels
                          (insert peer {| RTCDataChannel.readyState := RTCDataChannel.readyState dc;
                                          RTCDataChannel.sent := rest |})
                          (WebRTCManager.mgr n);
                      WebRTCManager.app := WebRTCManager.app n |})
      | [] => None
      end
  | None => None
  end.

(** One delivery: the frame leaves the sender's channel and the receiver's
    [onmessage] handler runs on it at time [now]. *)
Definition deliver (to : Side) (now : N) (net : Net) : option Net :=
  match to with
  | SideB =>
      match takeFrame idB (nodeA net) with
      | Some (f, a') =>
          Some {| nodeA := a';
                  nodeB := state_of
                    (WebRTCManager.handleDataChannelMessage recorder now (Some f) idA (nodeB net)) |}
      | None => None
      end
  | SideA =>
      match takeFrame idA (nodeB net) with
      | Some (f, b') =>
          Some {| nodeA := state_of
                    (WebRTCManager.handleDataChannelMessage recorder now (Some f) idB (nodeA net));
                  nodeB := b' |}
      | None => None
      end
  end.

(** A schedule: who receives next, and when. *)
Fixpoint run (schedule : list (Side * N)) (net : Net) : option Net :=
  match schedule with
  | [] => Some net
  | (to, now) :: rest =>
      match deliver to now net with
      | Some net' => run rest net'
      | None => None
      end
  end.

Definition inFlight (peer : string) (n : Node) : list Frame :=
  match WebRTCManager.dataChannels (WebRTCManager.mgr n) !! peer with
  | Some dc => RTCDataChannel.sent dc
  | None => []
  end.

Definition quiescent (net : Net) : Prop :=
  inFlight idB (nodeA net) = [] /\ inFlight idA (nodeB net) = [].

(** Both key-exchange timers fire before either side has received anything. *)
Definition crossed (nowA nowB : N) (a0 b0 : Node) : Net :=
  {| nodeA := state_of (WebRTCManager.performKeyExchange recorder nowA idB a0);
     nodeB := state_of (WebRTCManager.performKeyExchange recorder nowB idA b0) |}.

(** A node whose channel to [peer] is open and idle, with its key pair
    generated and no key yet for [peer]. *)
Definition readyFor (me peer : string) (kp : EncryptionService.CryptoKeyPair) (n : Node)
  : Prop :=
  WebRTCManager.nodeId (WebRTCManager.mgr n) = me /\
  EncryptionService.keyPair (WebRTCManager.encryptionService (WebRTCManager.mgr n)) = Some kp /\
  EncryptionService.sharedKeys (WebRTCManager.encryptionService (WebRTCManager.mgr n)) !! peer = None /\
  WebRTCManager.dataChannels (WebRTCManager.mgr n) !! peer =
    Some {| RTCDataChannel.readyState := DcOpen; RTCDataChannel.sent := [] |}.

(** The key-exchange frame a node sends. *)
Definition kxFrame (me : string) (kp : EncryptionService.CryptoKeyPair)
    (isResponse : bool) (t : N) : Frame :=
  key_exchange (exportKey (EncryptionService.publicKey kp)) me isResponse t.

(** What a node has handed to the channel once it has handled [k] frames of
    the peer: its own opening frame, then its response. *)
Definition kxFrames (me : string) (kp : EncryptionService.CryptoKeyPair) (k : nat)
    (t0 t1 : N) : list Frame :=
  match k with
  | 0 => [kxFrame me kp false t0]
  | _ => [kxFrame me kp false t0; kxFrame me kp true t1]
  end.

Definition kxKeys (peer : string) (key : CryptoKey) (keys0 : gmap string CryptoKey)
    (k : nat) : gmap string CryptoKey :=
  match k with
  | 0 => keys0
  | _ => <[peer := key]> keys0
  end.

(** The state of a node of the crossed exchange that has handled [k] frames
    of [peer], [j] of its own frames having been delivered. *)
Record KxState (me : string) (kp : EncryptionService.CryptoKeyPair) (peer : string)
    (peerKey : PublicKey) (keys0 : gmap string CryptoKey) (log0 : list Event)
    (k j : nat) (n : Node) : Prop := {
  kx_id : WebRTCManager.nodeId (WebRTCManager.mgr n) = me;
  kx_pair :
    EncryptionService.keyPair (WebRTCManager.encryptionService (WebRTCManager.mgr n)) = Some kp;
  kx_fresh : keys0 !! peer = None;
  kx_keys :
    EncryptionService.sharedKeys (WebRTCManager.encryptionService (WebRTCManager.mgr n)) =
      kxKeys peer (deriveKey peerKey (EncryptionService.privateKey kp)) keys0 k;
  kx_chan : exists t0 t1 : N,
    WebRTCManager.dataChannels (WebRTCManager.mgr n) !! peer =
      Some {| RTCDataChannel.readyState := DcOpen;
              RTCDataChannel.sent := drop j (kxFrames me kp k t0 t1) |};
  kx_taken : j <= length (kxFrames me kp k 0 0);
  kx_log : WebRTCManager.app n = log0 ++ repeat (EncryptionEstablished peer) k
}.

Definition established (peer : string) (log : list Event) : nat :=
  length (List.filter (fun e => match e with
                           | EncryptionEstablished p => bool_decide (p = peer)
                           | _ => false
                           end) log).

End WithPlatform.
End Network.

(** ** A small platform on which the model runs

    Diffie-Hellman in the multiplicative group modulo 257 with generator 3;
    a one-byte key, which the toy cipher puts in front of the data as the
    tag. It has the shape of the interface and none of its security. *)

Module Demo.

Definition toGroup (b : byte) : N := Byte.to_N b + 1.

Definition ofGroup (n : N) : byte :=
  match Byte.of_N (n - 1) with
  | Some b => b
  | None => "000"%byte
  end.

Definition dhPublic (priv : N) : byte := ofGroup ((3 ^ priv) mod 257).

Definition dhDerive (pub : byte) (priv : N) : byte :=
  ofGroup ((toGroup pub ^ priv) mod 257).

#[global] Instance crypto : SubtleCrypto := {|
  PrivateKey := N;
  PublicKey := byte;
  CryptoKey := byte;
  exportKey := fun pk => [pk];
  importKey := fun bs => match bs with [b] => Some b | _ => None end;
  deriveKey := dhDerive;
  aesGcmEncrypt := fun k iv m => Some (k :: m);
  aesGcmDecrypt := fun k iv c =>
    match c with
    | tag :: m => if Byte.eqb tag k then Some m else None
    | [] => None
    end
|}.

#[global] Instance platform : RTCPlatform := {|
  descriptionOk := fun d => negb (String.eqb (sdp d) "");
  candidateOk := fun c => negb (String.eqb (candidate c) "")
|}.

(** A stand-in for JSON that keeps the content, the one field the receiver
    reads. *)
#[global] Instance codec : MessageCodec := {|
  encodeMessageData := fun md => list_byte_of_string (md_content md);
  decodeMessageData := fun bs =>
    Some {| md_content := string_of_list_byte bs; md_timestamp := 0; md_sender := "" |}
|}.

Definition keyPairOf (priv : N) : EncryptionService.CryptoKeyPair :=
  {| EncryptionService.privateKey := priv; EncryptionService.publicKey := dhPublic priv |}.

(** An initialized encryption service. *)
Definition service (priv : N) : EncryptionService.t :=
  state_of (EncryptionService.initialize (Some (keyPairOf priv)) EncryptionService.new).

Definition iv12 : bytes := repeat "000"%byte 12.

(** A node with private key [priv] whose channel to [peer] has opened. *)
Definition node (me : string) (priv : N) (peer : string) : Network.Node :=
  state_of (WebRTCManager.channel_opens peer
    (state_of (WebRTCManager.ondatachannel RTCDataChannel.new peer
       {| WebRTCManager.mgr := WebRTCManager.new me me (service priv);
          WebRTCManager.app := @nil Event |}))).

Definition hello : bytes := list_byte_of_string "hello".

(** A session of the provider: the peer is discovered and selected, the
    answer arrives, the channel opens, the peer's key-exchange frame is
    handled. *)
Definition offerSdp : RTCSessionDescriptionInit := {| sdpType := SdpOffer; sdp := "v=0 offer" |}.
Definition answerSdp : RTCSessionDescriptionInit := {| sdpType := SdpAnswer; sdp := "v=0 answer" |}.

Definition bob : Peer.t :=
  {| Peer.id := "bob"; Peer.name := "Bob"; Peer.online := true;
     Peer.connectionState := PcDisconnected; Peer.encryptionEstablished := false |}.

Definition mounted : WebRTCManager.World SecureChatProvider.t :=
  {| WebRTCManager.mgr := WebRTCManager.new "alice" "Alice" (service 5);
     WebRTCManager.app :=
       SecureChatProvider.mounted "alice" "Alice" false SecureChatProvider.LogInfo
         ["m1"; "m2"; "m3"] 1000 |}.

Definition discovered : WebRTCManager.World SecureChatProvider.t :=
  state_of (WebRTCManager.handleSignalingMessage SecureChatProvider.callbacks None 1000
              (peer_discovered "bob" "Bob") mounted).

Definition selected : WebRTCManager.World SecureChatProvider.t :=
  state_of (SecureChatProvider.selectPeer (Some offerSdp) bob discovered).

Definition answered : WebRTCManager.World SecureChatProvider.t :=
  state_of (WebRTCManager.handleSignalingMessage SecureChatProvider.callbacks None 1001
              (answer "bob" answerSdp) selected).

Definition opened : WebRTCManager.World SecureChatProvider.t :=
  state_of (WebRTCManager.channel_opens "bob" answered).

Definition keyed : WebRTCManager.World SecureChatProvider.t :=
  state_of (WebRTCManager.handleDataChannelMessage SecureChatProvider.callbacks 1002
              (Some (key_exchange [dhPublic 7] "bob" false 1002)) "bob" opened).

End Demo.

(** * Properties *)

(** ** The monad *)

Lemma bind_Ok {S A B} (m : Eff S A) (k : A -> Eff S B) (s s' : S) (a : A) :
  m s = (Ok a, s') -> bind m k s = k a s'.
Proof. intros H. unfold bind. now rewrite H. Qed.

Lemma bind_Throw {S A B} (m : Eff S A) (k : A -> Eff S B) (s s' : S) (e : Error) :
  m s = (Throw e, s') -> bind m k s = (Throw e, s').
Proof. intros H. unfold bind. now rewrite H. Qed.

Lemma tryCatch_Ok {S A} (body : Eff S A) (h : Error -> Eff S A) (s s' : S) (a : A) :
  body s = (Ok a, s') -> tryCatch body h s = (Ok a, s').
Proof. intros H. unfold tryCatch. now rewrite H. Qed.

Lemma tryCatch_Throw {S A} (body : Eff S A) (h : Error -> Eff S A) (s s' : S) (e : Error) :
  body s = (Throw e, s') -> tryCatch body h s = h e s'.
Proof. intros H. unfold tryCatch. now rewrite H. Qed.

(** ** The demo platform keeps the platform's promises *)

Lemma demo_import_export : import_export_law Demo.crypto.
Proof. intros pk. reflexivity. Qed.

Lemma demo_aead_correct : aead_correct Demo.crypto.
Proof.
  intros k iv m c H. cbn in H. injection H as <-. cbn.
  now rewrite (byte_dec_lb (eq_refl k)).
Qed.

(** ** EncryptionService *)

Section EncryptionServiceProperties.
Context {C : SubtleCrypto}.

Lemma hasSharedKey_true (es : EncryptionService.t) (peerId : string) :
  EncryptionService.hasSharedKey peerId es = true <->
  is_Some (EncryptionService.sharedKeys es !! peerId).
Proof. unfold EncryptionService.hasSharedKey. apply bool_decide_eq_true. Qed.

Lemma hasSharedKey_false (es : EncryptionService.t) (peerId : string) :
  EncryptionService.hasSharedKey peerId es = false <->
  EncryptionService.sharedKeys es !! peerId = None.
Proof.
  unfold EncryptionService.hasSharedKey. rewrite bool_decide_eq_false.
  rewrite eq_None_not_Some. reflexivity.
Qed.

(** A successful [establishSharedKey] leaves a key pair and a key for the peer. *)
Lemma establishSharedKey_ok (es es1 : EncryptionService.t) (peerId : string) (pk : bytes) :
  EncryptionService.establishSharedKey peerId pk es = (Ok tt, es1) ->
  is_Some (EncryptionService.keyPair es1) /\
  is_Some (EncryptionService.sharedKeys es1 !! peerId).
Proof.
  unfold EncryptionService.establishSharedKey, bind, gets, logAndRethrow, tryCatch.
  destruct es as [kp keys]; cbn.
  destruct kp as [kp|]; [|discriminate].
  destruct (EncryptionService.hasSharedKey peerId _) eqn:Hhas.
  - intros [= <-]. cbn. split; [eauto|]. now apply hasSharedKey_true in Hhas.
  - destruct (importKey pk); cbn; [|discriminate].
    intros [= <-]. cbn. split; [eauto|]. rewrite lookup_insert_eq. eauto.
Qed.

(** With a key pair and a key for the peer, [establishSharedKey] returns at
    once. *)
Lemma establishSharedKey_skip (es : EncryptionService.t) (peerId : string) (pk : bytes) :
  is_Some (EncryptionService.keyPair es) ->
  is_Some (EncryptionService.sharedKeys es !! peerId) ->
  EncryptionService.establishSharedKey peerId pk es = (Ok tt, es).
Proof.
  intros [kp Hkp] Hkey.
  unfold EncryptionService.establishSharedKey, bind, gets.
  rewrite Hkp. apply hasSharedKey_true in Hkey. now rewrite Hkey.
Qed.

(** C6. Once [establishSharedKey] has returned for a peer id, a second call
    for that id, with whatever public key, returns without an error and
    leaves the service, hence the stored key, as it was. *)
Theorem establishSharedKey_twice
    (es es1 : EncryptionService.t) (peerId : string) (pk1 pk2 : bytes) :
  EncryptionService.establishSharedKey peerId pk1 es = (Ok tt, es1) ->
  EncryptionService.establishSharedKey peerId pk2 es1 = (Ok tt, es1) /\
  is_Some (EncryptionService.sharedKeys es1 !! peerId).
Proof.
  intros H. apply establishSharedKey_ok in H as [Hkp Hkey].
  split; [now apply establishSharedKey_skip | exact Hkey].
Qed.

(** C7. Without a stored key for the peer id, [encrypt] and [decrypt] both
    throw the no-key error and leave the service, hence the key map, as it
    was. *)
Theorem encrypt_decrypt_without_key
    (es : EncryptionService.t) (peerId : string) (iv plaintext ciphertext nonce : bytes) :
  EncryptionService.sharedKeys es !! peerId = None ->
  EncryptionService.encrypt iv plaintext peerId es = (Throw (NoKeyError peerId), es) /\
  EncryptionService.decrypt ciphertext nonce peerId es = (Throw (NoKeyError peerId), es).
Proof.
  intros H. unfold EncryptionService.encrypt, EncryptionService.decrypt, bind, gets.
  now rewrite H.
Qed.

(** [encrypt] with a stored key: the platform's answer, with the nonce. *)
Lemma encrypt_with_key
    (es : EncryptionService.t) (peerId : string) (k : CryptoKey) (iv m : bytes) :
  EncryptionService.sharedKeys es !! peerId = Some k ->
  EncryptionService.encrypt iv m peerId es =
    (match aesGcmEncrypt k iv m with
     | Some c => Ok (c, iv)
     | None => Throw EncryptionError
     end, es).
Proof.
  intros H. unfold EncryptionService.encrypt, bind, gets, logAndRethrow, tryCatch.
  rewrite H. now destruct (aesGcmEncrypt k iv m).
Qed.

Lemma decrypt_with_key
    (es : EncryptionService.t) (peerId : string) (k : CryptoKey) (iv c : bytes) :
  EncryptionService.sharedKeys es !! peerId = Some k ->
  EncryptionService.decrypt c iv peerId es =
    (match aesGcmDecrypt k iv c with
     | Some m => Ok m
     | None => Throw DecryptionError
     end, es).
Proof.
  intros H. unfold EncryptionService.decrypt, bind, gets, logAndRethrow, tryCatch.
  rewrite H. now destruct (aesGcmDecrypt k iv c).
Qed.

(** C4. For a peer with a stored key and any payload [m]: [encrypt] returns
    a ciphertext and a nonce with which [decrypt] for the same peer returns
    [m]; the only other outcome is that the platform's encryption itself
    rejected. *)
Theorem decrypt_encrypt
    (es : EncryptionService.t) (peerId : string) (k : CryptoKey) (iv m : bytes) :
  aead_correct C ->
  EncryptionService.sharedKeys es !! peerId = Some k ->
  match EncryptionService.encrypt iv m peerId es with
  | (Ok (ciphertext, nonce), es') =>
      EncryptionService.decrypt ciphertext nonce peerId es' = (Ok m, es')
  | (Throw e, _) => e = EncryptionError /\ aesGcmEncrypt k iv m = None
  end.
Proof.
  intros Hlaw Hk. rewrite (encrypt_with_key es peerId k iv m Hk).
  destruct (aesGcmEncrypt k iv m) as [c|] eqn:E; [|easy].
  rewrite (decrypt_with_key es peerId k iv c Hk).
  now rewrite (Hlaw k iv m c E).
Qed.

End EncryptionServiceProperties.

Lemma establishSharedKey_twice_witness :
  let es := state_of (EncryptionService.establishSharedKey "bob" [Demo.dhPublic 7]
                        (Demo.service 5)) in
  EncryptionService.establishSharedKey "bob" [Demo.dhPublic 9] es = (Ok tt, es) /\
  is_Some (EncryptionService.sharedKeys es !! "bob").
Proof.
  apply (establishSharedKey_twice (Demo.service 5) _ "bob" [Demo.dhPublic 7]).
  reflexivity.
Defined.

Lemma encrypt_decrypt_without_key_witness :
  EncryptionService.encrypt Demo.iv12 Demo.hello "bob" (Demo.service 5)
    = (Throw (NoKeyError "bob"), Demo.service 5) /\
  EncryptionService.decrypt Demo.hello Demo.iv12 "bob" (Demo.service 5)
    = (Throw (NoKeyError "bob"), Demo.service 5).
Proof.
  apply encrypt_decrypt_without_key. reflexivity.
Defined.

Lemma decrypt_encrypt_witness :
  let es := state_of (EncryptionService.establishSharedKey "bob" [Demo.dhPublic 7]
                        (Demo.service 5)) in
  EncryptionService.decrypt (Demo.dhDerive (Demo.dhPublic 7) 5 :: Demo.hello) Demo.iv12 "bob" es
    = (Ok Demo.hello, es).
Proof.
  exact (decrypt_encrypt
           (state_of (EncryptionService.establishSharedKey "bob" [Demo.dhPublic 7]
                        (Demo.service 5)))
           "bob" (Demo.dhDerive (Demo.dhPublic 7) 5) Demo.iv12 Demo.hello
           demo_aead_correct eq_refl).
Defined.

(** ** WebRTCManager: teardown and disconnect *)

Ltac eff_unfold :=
  unfold WebRTCManager.onMgr, WebRTCManager.emit, WebRTCManager.liftES,
    WebRTCManager.onPc, WebRTCManager.onDc in *;
  unfold WebRTCManager.returning in *;
  unfold logAndSwallow, logAndRethrow in *;
  unfold tryCatch, bind, gets, modify, ret, throw in *.

Ltac mgr_unfold :=
  unfold WebRTCManager.set_encryptionService, WebRTCManager.set_signalingSocket,
    WebRTCManager.set_peerConnections, WebRTCManager.set_dataChannels,
    WebRTCManager.set_pendingIceCandidates, WebRTCManager.set_connectionStates,
    WebRTCManager.set_discoveryInterval, EncryptionService.set_sharedKeys,
    EncryptionService.set_keyPair in *.

Section ManagerProperties.
Context {C : SubtleCrypto} {P : RTCPlatform} {J : MessageCodec}.
Context {App : Type} (cb : Event -> WebRTCManager.t -> App -> App).

(** What [handlePeerDisconnected] computes, in closed form: the callback
    comes last, and what it throws the method throws. *)
Lemma handlePeerDisconnected_run (run : Event -> WebRTCManager.t -> Eff App unit)
    (peerId : string) (w : WebRTCManager.World App) :
  let m' := WebRTCManager.teardown peerId (WebRTCManager.mgr w) in
  WebRTCManager.handlePeerDisconnected run peerId w =
    (result_of (run (PeerDisconnected peerId) m' (WebRTCManager.app w)),
     {| WebRTCManager.mgr := m';
        WebRTCManager.app := state_of (run (PeerDisconnected peerId) m' (WebRTCManager.app w)) |}).
Proof.
  cbv zeta.
  unfold WebRTCManager.handlePeerDisconnected, WebRTCManager.teardown,
    EncryptionService.removeSharedKey.
  destruct w as [m a]. eff_unfold. cbn.
  destruct (WebRTCManager.peerConnections m !! peerId) as [pc|] eqn:Hpc; cbn.
  - rewrite Hpc. mgr_unfold. cbn. rewrite delete_insert_eq.
    now destruct (run _ _ a).
  - mgr_unfold. cbn. rewrite (delete_id _ _ Hpc).
    now destruct (run _ _ a).
Qed.

Lemma handlePeerDisconnected_eq (peerId : string) (w : WebRTCManager.World App) :
  WebRTCManager.handlePeerDisconnected (WebRTCManager.returning cb) peerId w =
    (Ok tt,
     {| WebRTCManager.mgr := WebRTCManager.teardown peerId (WebRTCManager.mgr w);
        WebRTCManager.app :=
          cb (PeerDisconnected peerId)
             (WebRTCManager.teardown peerId (WebRTCManager.mgr w))
             (WebRTCManager.app w) |}).
Proof. now rewrite handlePeerDisconnected_run. Qed.

Lemma teardown_absent (peerId : string) (m : WebRTCManager.t) :
  WebRTCManager.absent peerId (WebRTCManager.teardown peerId m).
Proof.
  unfold WebRTCManager.absent, WebRTCManager.teardown. cbn.
  repeat split; apply lookup_delete_eq.
Qed.

Lemma teardown_other (peerId other : string) (m : WebRTCManager.t) :
  other <> peerId ->
  WebRTCManager.sameSession other m (WebRTCManager.teardown peerId m).
Proof.
  intros Hne. unfold WebRTCManager.sameSession, WebRTCManager.teardown. cbn.
  repeat split; symmetry; now apply lookup_delete_ne.
Qed.

(** C3. [handlePeerDisconnected] is one transition of the manager: it
    returns a manager from which the peer's connection, channel, candidate
    queue, connection state and shared key are all gone, the sessions of the
    other peers being as before, and the peer-disconnected callback is the
    last thing it runs, on that very manager. *)
Theorem handlePeerDisconnected_atomic (peerId : string) (w : WebRTCManager.World App) :
  exists m' : WebRTCManager.t,
    WebRTCManager.handlePeerDisconnected (WebRTCManager.returning cb) peerId w =
      (Ok tt, {| WebRTCManager.mgr := m';
                 WebRTCManager.app := cb (PeerDisconnected peerId) m' (WebRTCManager.app w) |}) /\
    WebRTCManager.peerConnections m' !! peerId = None /\
    WebRTCManager.dataChannels m' !! peerId = None /\
    WebRTCManager.pendingIceCandidates m' !! peerId = None /\
    WebRTCManager.connectionStates m' !! peerId = None /\
    EncryptionService.sharedKeys (WebRTCManager.encryptionService m') !! peerId = None /\
    (forall other : string, other <> peerId ->
       WebRTCManager.sameSession other (WebRTCManager.mgr w) m').
Proof.
  exists (WebRTCManager.teardown peerId (WebRTCManager.mgr w)).
  split; [apply handlePeerDisconnected_eq|].
  pose proof (teardown_absent peerId (WebRTCManager.mgr w)) as (H1 & H2 & H3 & H4 & H5).
  repeat split; try assumption; now apply teardown_other.
Qed.

(** C10. [disconnect] empties the four maps of the manager and leaves the
    encryption service untouched: every key stored before is stored after. *)
Theorem disconnect_keeps_shared_keys (w : WebRTCManager.World App) :
  let w' := state_of (WebRTCManager.disconnect w) in
  result_of (WebRTCManager.disconnect w) = Ok tt /\
  WebRTCManager.peerConnections (WebRTCManager.mgr w') = ∅ /\
  WebRTCManager.dataChannels (WebRTCManager.mgr w') = ∅ /\
  WebRTCManager.pendingIceCandidates (WebRTCManager.mgr w') = ∅ /\
  WebRTCManager.connectionStates (WebRTCManager.mgr w') = ∅ /\
  WebRTCManager.encryptionService (WebRTCManager.mgr w') =
    WebRTCManager.encryptionService (WebRTCManager.mgr w) /\
  (forall (peerId : string) (k : CryptoKey),
     EncryptionService.sharedKeys (WebRTCManager.encryptionService (WebRTCManager.mgr w)) !! peerId
       = Some k ->
     EncryptionService.sharedKeys (WebRTCManager.encryptionService (WebRTCManager.mgr w')) !! peerId
       = Some k).
Proof.
  destruct w as [[me name es so pcs dcs pend sts [|]] a];
    unfold WebRTCManager.disconnect, state_of, result_of;
    eff_unfold; mgr_unfold; cbn;
    destruct so; cbn; repeat split; auto.
Qed.

End ManagerProperties.

(** ** WebRTCManager: a message under another key *)

Section DecryptProperties.
Context {C : SubtleCrypto} {P : RTCPlatform} {J : MessageCodec}.
Context {App : Type} (cb : Event -> WebRTCManager.t -> Eff App unit).

(** C8, amended. A ciphertext [encrypt] made for peer A is handed to
    [decrypt] for peer B: whenever the platform's AES-GCM decryption rejects
    it under the key stored for B, the call throws the decryption error and
    leaves the service as it was; [handleEncryptedMessage] then swallows the
    error, runs no callback -- no message is delivered -- and leaves the
    manager and the application state unchanged. Decryption inverting
    encryption, the platform rejects only where the key stored for B is not
    the key stored for A. *)
Theorem decrypt_under_different_key
    (w : WebRTCManager.World App) (peerA peerB : string) (kA kB : CryptoKey)
    (iv m c nonce : bytes) :
  let es := WebRTCManager.encryptionService (WebRTCManager.mgr w) in
  EncryptionService.sharedKeys es !! peerA = Some kA ->
  EncryptionService.sharedKeys es !! peerB = Some kB ->
  EncryptionService.encrypt iv m peerA es = (Ok (c, nonce), es) ->
  aesGcmDecrypt kB nonce c = None ->
  EncryptionService.decrypt c nonce peerB es = (Throw DecryptionError, es) /\
  WebRTCManager.handleEncryptedMessage cb c nonce peerB w = (Ok tt, w) /\
  (aead_correct C -> kA <> kB).
Proof.
  intros es HA HB Henc Hrej.
  rewrite (encrypt_with_key es peerA kA iv m HA) in Henc.
  destruct (aesGcmEncrypt kA iv m) as [c'|] eqn:E; [|discriminate].
  injection Henc as <- <-.
  assert (Hdec : EncryptionService.decrypt c' iv peerB es = (Throw DecryptionError, es)).
  { rewrite (decrypt_with_key es peerB kB iv c' HB). now rewrite Hrej. }
  split; [exact Hdec|]. split.
  - unfold WebRTCManager.handleEncryptedMessage. eff_unfold.
    subst es. rewrite Hdec.
    destruct w as [[me name es so pcs dcs pend sts di] a]. reflexivity.
  - intros Hcorrect ->. rewrite (Hcorrect kB iv m c' E) in Hrej. discriminate.
Qed.

End DecryptProperties.

(** C8 as stated fails: two peer ids whose sessions were set up from the
    same public key hold the same key, and a ciphertext made for the one is
    decrypted for the other. *)
Lemma decrypt_for_other_peer_counterexample :
  let es := state_of (EncryptionService.establishSharedKey "mallory" [Demo.dhPublic 7]
              (state_of (EncryptionService.establishSharedKey "alice" [Demo.dhPublic 7]
                 (Demo.service 5)))) in
  let c := Demo.dhDerive (Demo.dhPublic 7) 5 :: Demo.hello in
  "alice" <> "mallory" /\
  EncryptionService.encrypt Demo.iv12 Demo.hello "alice" es = (Ok (c, Demo.iv12), es) /\
  EncryptionService.decrypt c Demo.iv12 "mallory" es = (Ok Demo.hello, es) /\
  result_of (EncryptionService.decrypt c Demo.iv12 "mallory" es) <> Throw DecryptionError.
Proof.
  cbv zeta. split; [discriminate|]. split; [reflexivity|]. split; [reflexivity|].
  discriminate.
Qed.

Lemma decrypt_under_different_key_witness :
  let w := {| WebRTCManager.mgr :=
                WebRTCManager.new "carol" "Carol"
                  (state_of (EncryptionService.establishSharedKey "bob" [Demo.dhPublic 9]
                     (state_of (EncryptionService.establishSharedKey "alice" [Demo.dhPublic 7]
                        (Demo.service 5)))));
              WebRTCManager.app := @nil Event |} in
  let es := WebRTCManager.encryptionService (WebRTCManager.mgr w) in
  let c := Demo.dhDerive (Demo.dhPublic 7) 5 :: Demo.hello in
  EncryptionService.decrypt c Demo.iv12 "bob" es = (Throw DecryptionError, es) /\
  WebRTCManager.handleEncryptedMessage Network.recorder c Demo.iv12 "bob" w = (Ok tt, w) /\
  Demo.dhDerive (Demo.dhPublic 7) 5 <> Demo.dhDerive (Demo.dhPublic 9) 5.
Proof.
  cbv zeta.
  destruct (decrypt_under_different_key Network.recorder
              {| WebRTCManager.mgr :=
                   WebRTCManager.new "carol" "Carol"
                     (state_of (EncryptionService.establishSharedKey "bob" [Demo.dhPublic 9]
                        (state_of (EncryptionService.establishSharedKey "alice"
                                     [Demo.dhPublic 7] (Demo.service 5)))));
                 WebRTCManager.app := @nil Event |}
              "alice" "bob"
              (Demo.dhDerive (Demo.dhPublic 7) 5) (Demo.dhDerive (Demo.dhPublic 9) 5)
              Demo.iv12 Demo.hello (Demo.dhDerive (Demo.dhPublic 7) 5 :: Demo.hello)
              Demo.iv12 eq_refl eq_refl eq_refl eq_refl)
    as (Hdec & Hmsg & Hne).
  split; [exact Hdec|]. split; [exact Hmsg|]. exact (Hne demo_aead_correct).
Defined.

(** ** WebRTCManager: the queue of early ICE candidates *)

Section CandidateProperties.
Context {C : SubtleCrypto} {P : RTCPlatform} {J : MessageCodec}.
Context {App : Type} (cb : Event -> WebRTCManager.t -> App -> App).

(** A candidate for a peer without a connection object is discarded. *)
Lemma handleIceCandidate_unknown_peer
    (w : WebRTCManager.World App) (peerId : string) (c : RTCIceCandidateInit) :
  WebRTCManager.peerConnections (WebRTCManager.mgr w) !! peerId = None ->
  WebRTCManager.handleIceCandidate peerId c w = (Ok tt, w).
Proof.
  intros H. unfold WebRTCManager.handleIceCandidate. eff_unfold. now rewrite H.
Qed.

(** Before the remote description, a candidate goes to the end of the queue. *)
Lemma handleIceCandidate_enqueue
    (w : WebRTCManager.World App) (peerId : string) (pc : RTCPeerConnection.t)
    (c : RTCIceCandidateInit) :
  WebRTCManager.peerConnections (WebRTCManager.mgr w) !! peerId = Some pc ->
  RTCPeerConnection.remoteDescription pc = None ->
  WebRTCManager.handleIceCandidate peerId c w =
    (Ok tt,
     {| WebRTCManager.mgr :=
          WebRTCManager.set_pendingIceCandidates
            (insert peerId (WebRTCManager.queued peerId (WebRTCManager.mgr w) ++ [c]))
            (WebRTCManager.mgr w);
        WebRTCManager.app := WebRTCManager.app w |}).
Proof.
  intros Hpc Hrd. destruct w as [[me name es so pcs dcs pend sts di] a]. cbn in *.
  unfold WebRTCManager.handleIceCandidate, WebRTCManager.queued.
  eff_unfold. mgr_unfold. cbn. rewrite Hpc, Hrd. cbn.
  destruct (pend !! peerId) as [q|] eqn:E; cbn.
  - now rewrite (alter_alt_Some _ _ _ _ E).
  - now rewrite alter_insert_eq.
Qed.

(** The same for a sequence of candidates, in arrival order. *)
Lemma handleIceCandidate_sequence
    (cs : list RTCIceCandidateInit) (w : WebRTCManager.World App)
    (peerId : string) (pc : RTCPeerConnection.t) :
  WebRTCManager.peerConnections (WebRTCManager.mgr w) !! peerId = Some pc ->
  RTCPeerConnection.remoteDescription pc = None ->
  exists w1 : WebRTCManager.World App,
    WebRTCManager.forEach cs (WebRTCManager.handleIceCandidate peerId) w = (Ok tt, w1) /\
    WebRTCManager.peerConnections (WebRTCManager.mgr w1) =
      WebRTCManager.peerConnections (WebRTCManager.mgr w) /\
    WebRTCManager.pendingIceCandidates (WebRTCManager.mgr w1) !! peerId =
      match cs with
      | [] => WebRTCManager.pendingIceCandidates (WebRTCManager.mgr w) !! peerId
      | _ => Some (WebRTCManager.queued peerId (WebRTCManager.mgr w) ++ cs)
      end /\
    WebRTCManager.app w1 = WebRTCManager.app w.
Proof.
  revert w. induction cs as [|c cs IH]; intros w Hpc Hrd.
  - exists w. cbn. auto.
  - cbn [WebRTCManager.forEach]. unfold bind at 1.
    rewrite (handleIceCandidate_enqueue w peerId pc c Hpc Hrd).
    set (w' := {| WebRTCManager.mgr := _; WebRTCManager.app := _ |}).
    destruct (IH w') as (w1 & Hrun & Hpcs & Hq & Happ); [exact Hpc|exact Hrd|].
    exists w1. split; [exact Hrun|]. split; [rewrite Hpcs; reflexivity|].
    split; [|rewrite Happ; reflexivity].
    rewrite Hq. subst w'. unfold WebRTCManager.queued. cbn.
    rewrite lookup_insert_eq. cbn.
    destruct cs; [reflexivity|]. now rewrite <- app_assoc.
Qed.

(** The loop of [processPendingIceCandidates]: each candidate is handed to
    [addIceCandidate], in order, a rejection not stopping the loop. *)
Lemma flush_loop
    (q : list RTCIceCandidateInit) (w : WebRTCManager.World App)
    (peerId : string) (pc : RTCPeerConnection.t) :
  WebRTCManager.peerConnections (WebRTCManager.mgr w) !! peerId = Some pc ->
  is_Some (RTCPeerConnection.remoteDescription pc) ->
  WebRTCManager.forEach q
      (fun c => logAndSwallow
         (WebRTCManager.onPc peerId (RTCPeerConnection.addIceCandidate c))) w =
    (Ok tt,
     {| WebRTCManager.mgr :=
          WebRTCManager.set_peerConnections
            (insert peerId (RTCPeerConnection.afterCandidates q pc))
            (WebRTCManager.mgr w);
        WebRTCManager.app := WebRTCManager.app w |}).
Proof.
  revert w pc. induction q as [|c q IH]; intros w pc Hpc Hrd.
  - destruct w as [[me name es so pcs dcs pend sts di] a]. cbn in *.
    mgr_unfold. cbn. f_equal. f_equal. f_equal.
    unfold RTCPeerConnection.afterCandidates. cbn. rewrite app_nil_r.
    destruct pc. cbn. symmetry. now apply insert_id.
  - cbn [WebRTCManager.forEach]. unfold bind at 1.
    unfold logAndSwallow at 1, tryCatch, WebRTCManager.onPc at 1.
    rewrite Hpc. unfold RTCPeerConnection.addIceCandidate at 1.
    rewrite (bool_decide_eq_true_2 _ Hrd). cbn [andb].
    set (pc' := {| RTCPeerConnection.connectionState := _ |}).
    set (w' := {| WebRTCManager.mgr := _; WebRTCManager.app := _ |}).
    destruct (candidateOk c) eqn:Hok; cbn -[WebRTCManager.forEach].
    all: rewrite (IH w' pc') by (subst w' pc'; cbn; [apply lookup_insert_eq || exact Hrd ..]).
    all: subst w' pc'; destruct w as [[me name es so pcs dcs pend sts di] a]; cbn.
    all: mgr_unfold; cbn; rewrite insert_insert_eq.
    all: unfold RTCPeerConnection.afterCandidates; cbn; rewrite Hok, <- app_assoc; reflexivity.
Qed.

(** [processPendingIceCandidates] once a remote description is in place. *)
Lemma processPendingIceCandidates_flush
    (w : WebRTCManager.World App) (peerId : string) (pc : RTCPeerConnection.t) :
  WebRTCManager.peerConnections (WebRTCManager.mgr w) !! peerId = Some pc ->
  is_Some (RTCPeerConnection.remoteDescription pc) ->
  WebRTCManager.pendingIceCandidates (WebRTCManager.mgr w) !! peerId <> Some [] ->
  exists w2 : WebRTCManager.World App,
    WebRTCManager.processPendingIceCandidates peerId w = (Ok tt, w2) /\
    WebRTCManager.peerConnections (WebRTCManager.mgr w2) !! peerId =
      Some (RTCPeerConnection.afterCandidates
              (WebRTCManager.queued peerId (WebRTCManager.mgr w)) pc) /\
    WebRTCManager.pendingIceCandidates (WebRTCManager.mgr w2) !! peerId = None /\
    WebRTCManager.app w2 = WebRTCManager.app w.
Proof.
  intros Hpc Hrd Hne. unfold WebRTCManager.processPendingIceCandidates, WebRTCManager.queued.
  unfold bind at 1, gets at 1.
  destruct (WebRTCManager.pendingIceCandidates (WebRTCManager.mgr w) !! peerId)
    as [[|c q]|] eqn:E; [congruence| |]; cbn [default Nat.ltb Nat.leb length].
  - erewrite bind_Ok by (apply (flush_loop (c :: q) w peerId pc Hpc Hrd)).
    eexists. split; [reflexivity|].
    destruct w as [[me name es so pcs dcs pend sts di] a]. cbn.
    split; [apply lookup_insert_eq|]. split; [apply lookup_delete_eq|reflexivity].
  - exists w. split; [reflexivity|]. split; [|auto].
    rewrite Hpc. f_equal. unfold RTCPeerConnection.afterCandidates. cbn.
    rewrite app_nil_r. now destruct pc.
Qed.

Lemma handleAnswer_flush
    (w : WebRTCManager.World App) (peerId : string) (pc : RTCPeerConnection.t)
    (a : RTCSessionDescriptionInit) :
  WebRTCManager.peerConnections (WebRTCManager.mgr w) !! peerId = Some pc ->
  RTCPeerConnection.signalingState pc = HaveLocalOffer ->
  sdpType a = SdpAnswer ->
  descriptionOk a = true ->
  WebRTCManager.pendingIceCandidates (WebRTCManager.mgr w) !! peerId <> Some [] ->
  exists (w2 : WebRTCManager.World App) (pc2 : RTCPeerConnection.t),
    WebRTCManager.handleAnswer (WebRTCManager.returning cb) peerId a w = (Ok tt, w2) /\
    WebRTCManager.peerConnections (WebRTCManager.mgr w2) !! peerId = Some pc2 /\
    RTCPeerConnection.remoteDescription pc2 = Some a /\
    RTCPeerConnection.iceCandidates pc2 =
      RTCPeerConnection.iceCandidates pc ++
      map (fun c => (c, candidateOk c)) (WebRTCManager.queued peerId (WebRTCManager.mgr w)) /\
    WebRTCManager.pendingIceCandidates (WebRTCManager.mgr w2) !! peerId = None /\
    WebRTCManager.app w2 = WebRTCManager.app w.
Proof.
  intros Hpc Hsig Hty Hok Hne.
  destruct (RTCPeerConnection.setRemoteDescription a pc) as [r pc1] eqn:Hset.
  assert (Hpc1 : r = Ok tt /\ RTCPeerConnection.remoteDescription pc1 = Some a /\
                 RTCPeerConnection.iceCandidates pc1 = RTCPeerConnection.iceCandidates pc).
  { unfold RTCPeerConnection.setRemoteDescription in Hset.
    rewrite Hok, Hty, Hsig in Hset. injection Hset as <- <-. auto. }
  destruct Hpc1 as (-> & Hrd1 & Hic1).
  set (w1 := {| WebRTCManager.mgr :=
                  WebRTCManager.set_peerConnections (insert peerId pc1) (WebRTCManager.mgr w);
                WebRTCManager.app := WebRTCManager.app w |}).
  destruct (processPendingIceCandidates_flush w1 peerId pc1) as (w2 & Hrun & Hpc2 & Hq2 & Happ).
  { subst w1. cbn. apply lookup_insert_eq. }
  { rewrite Hrd1. eauto. }
  { subst w1. destruct w as [[me name es so pcs dcs pend sts di] a0]. exact Hne. }
  exists w2, (RTCPeerConnection.afterCandidates
                (WebRTCManager.queued peerId (WebRTCManager.mgr w1)) pc1).
  split.
  { unfold WebRTCManager.handleAnswer. apply tryCatch_Ok.
    unfold bind at 1, gets at 1. rewrite Hpc.
    rewrite bool_decide_eq_true_2 by exact Hsig.
    erewrite bind_Ok; [exact Hrun|].
    unfold WebRTCManager.onPc. rewrite Hpc, Hset. reflexivity. }
  split; [exact Hpc2|]. split; [exact Hrd1|]. split.
  { cbn. rewrite Hic1. subst w1.
    destruct w as [[me name es so pcs dcs pend sts di] a0]. reflexivity. }
  split; [exact Hq2|]. rewrite Happ. reflexivity.
Qed.

Lemma handleOffer_flush
    (w : WebRTCManager.World App) (peerId : string)
    (o a : RTCSessionDescriptionInit) :
  sdpType o = SdpOffer ->
  descriptionOk o = true ->
  sdpType a = SdpAnswer ->
  descriptionOk a = true ->
  WebRTCManager.pendingIceCandidates (WebRTCManager.mgr w) !! peerId <> Some [] ->
  exists (w2 : WebRTCManager.World App) (pc2 : RTCPeerConnection.t),
    WebRTCManager.handleOffer (WebRTCManager.returning cb) (Some a) peerId o w = (Ok tt, w2) /\
    WebRTCManager.peerConnections (WebRTCManager.mgr w2) !! peerId = Some pc2 /\
    RTCPeerConnection.remoteDescription pc2 = Some o /\
    RTCPeerConnection.iceCandidates pc2 =
      map (fun c => (c, candidateOk c)) (WebRTCManager.queued peerId (WebRTCManager.mgr w)) /\
    WebRTCManager.pendingIceCandidates (WebRTCManager.mgr w2) !! peerId = None /\
    WebRTCManager.app w2 = WebRTCManager.app w.
Proof.
  intros Hto Hoo Hta Hoa Hne.
  destruct (RTCPeerConnection.setRemoteDescription o RTCPeerConnection.new) as [r pc1] eqn:Hset.
  assert (Hpc1 : r = Ok tt /\ RTCPeerConnection.remoteDescription pc1 = Some o /\
                 RTCPeerConnection.iceCandidates pc1 = [] /\
                 RTCPeerConnection.signalingState pc1 = HaveRemoteOffer).
  { unfold RTCPeerConnection.setRemoteDescription in Hset.
    rewrite Hoo, Hto in Hset. cbn in Hset. injection Hset as <- <-. auto. }
  destruct Hpc1 as (-> & Hrd1 & Hic1 & Hsig1).
  set (w0 := {| WebRTCManager.mgr :=
                  WebRTCManager.set_peerConnections (insert peerId RTCPeerConnection.new)
                    (WebRTCManager.mgr w);
                WebRTCManager.app := WebRTCManager.app w |}).
  set (w1 := {| WebRTCManager.mgr :=
                  WebRTCManager.set_peerConnections (insert peerId pc1) (WebRTCManager.mgr w0);
                WebRTCManager.app := WebRTCManager.app w0 |}).
  destruct (processPendingIceCandidates_flush w1 peerId pc1) as (w2 & Hrun & Hpc2 & Hq2 & Happ).
  { subst w1. cbn. apply lookup_insert_eq. }
  { rewrite Hrd1. eauto. }
  { subst w1 w0. destruct w as [[me name es so pcs dcs pend sts di] a0]. exact Hne. }
  set (pc2 := RTCPeerConnection.afterCandidates
                (WebRTCManager.queued peerId (WebRTCManager.mgr w1)) pc1) in *.
  destruct (RTCPeerConnection.setLocalDescription a pc2) as [r3 pc3] eqn:Hloc.
  assert (Hpc3 : r3 = Ok tt /\
                 RTCPeerConnection.remoteDescription pc3 = RTCPeerConnection.remoteDescription pc2 /\
                 RTCPeerConnection.iceCandidates pc3 = RTCPeerConnection.iceCandidates pc2).
  { unfold RTCPeerConnection.setLocalDescription in Hloc.
    rewrite Hoa, Hta in Hloc. subst pc2. cbn in Hloc. rewrite Hsig1 in Hloc.
    injection Hloc as <- <-. auto. }
  destruct Hpc3 as (-> & Hrd3 & Hic3).
  eexists _, pc3. split.
  { unfold WebRTCManager.handleOffer. apply tryCatch_Ok.
    unfold WebRTCManager.createPeerConnection.
    erewrite bind_Ok by reflexivity.
    erewrite bind_Ok by reflexivity. fold w0.
    erewrite bind_Ok; cycle 1.
    { unfold WebRTCManager.onPc. subst w0. cbn. rewrite lookup_insert_eq, Hset.
      reflexivity. }
    erewrite bind_Ok by exact Hrun.
    erewrite bind_Ok; cycle 1.
    { unfold WebRTCManager.onPc. rewrite Hpc2, Hloc. reflexivity. }
    reflexivity. }
  destruct w2 as [[me name es so pcs dcs pend sts di] a2]. cbn in *.
  split; [apply lookup_insert_eq|].
  split; [rewrite Hrd3; exact Hrd1|].
  split.
  { rewrite Hic3. subst pc2. cbn. rewrite Hic1. cbn. subst w1 w0.
    destruct w as [[me' name' es' so' pcs' dcs' pend' sts' di'] a0]. reflexivity. }
  split; [exact Hq2|].
  rewrite Happ. reflexivity.
Qed.

(** No handler leaves an empty queue behind: [handleIceCandidate] creates
    an entry only to push on it, and the other writers delete. *)
Lemma handleIceCandidate_no_empty_queue
    (w : WebRTCManager.World App) (senderId peerId : string) (c : RTCIceCandidateInit) :
  WebRTCManager.pendingIceCandidates (WebRTCManager.mgr w) !! peerId <> Some [] ->
  WebRTCManager.pendingIceCandidates
    (WebRTCManager.mgr (state_of (WebRTCManager.handleIceCandidate senderId c w))) !! peerId
    <> Some [].
Proof.
  intros Hne.
  destruct (WebRTCManager.peerConnections (WebRTCManager.mgr w) !! senderId)
    as [pc|] eqn:Hpc.
  - destruct (RTCPeerConnection.remoteDescription pc) as [d|] eqn:Hrd.
    + unfold WebRTCManager.handleIceCandidate. eff_unfold. rewrite Hpc, Hrd, Hpc.
      destruct (RTCPeerConnection.addIceCandidate c pc) as [[[]|e] pc'];
        destruct w as [[me name es so pcs dcs pend sts di] a]; exact Hne.
    + rewrite (handleIceCandidate_enqueue w senderId pc c Hpc Hrd).
      destruct w as [[me name es so pcs dcs pend sts di] a]. cbn in *.
      destruct (decide (senderId = peerId)) as [->|Hdiff].
      * rewrite lookup_insert_eq. intros [= Heq]. now apply app_eq_nil in Heq as [_ ?].
      * now rewrite lookup_insert_ne.
  - now rewrite (handleIceCandidate_unknown_peer w senderId c Hpc).
Qed.

Lemma teardown_no_empty_queue (m : WebRTCManager.t) (gone peerId : string) :
  WebRTCManager.pendingIceCandidates m !! peerId <> Some [] ->
  WebRTCManager.pendingIceCandidates (WebRTCManager.teardown gone m) !! peerId <> Some [].
Proof.
  intros Hne. cbn. destruct (decide (gone = peerId)) as [->|Hdiff].
  - now rewrite lookup_delete_eq.
  - now rewrite lookup_delete_ne.
Qed.

(** C2, amended. For a peer that has a connection object without a remote
    description: every incoming candidate is appended to the peer's queue;
    when the remote description is then applied -- by [handleAnswer] on the
    side that sent the offer, or by [handleOffer], which starts from a fresh
    connection object -- [addIceCandidate] is called on every queued candidate
    in arrival order, none left out, and the queue entry is removed. *)
Theorem early_candidates_flushed_in_order
    (w : WebRTCManager.World App) (peerId : string) (pc : RTCPeerConnection.t)
    (cs : list RTCIceCandidateInit) :
  WebRTCManager.peerConnections (WebRTCManager.mgr w) !! peerId = Some pc ->
  RTCPeerConnection.remoteDescription pc = None ->
  WebRTCManager.pendingIceCandidates (WebRTCManager.mgr w) !! peerId <> Some [] ->
  let queue := WebRTCManager.queued peerId (WebRTCManager.mgr w) ++ cs in
  exists w1 : WebRTCManager.World App,
    WebRTCManager.forEach cs (WebRTCManager.handleIceCandidate peerId) w = (Ok tt, w1) /\
    WebRTCManager.queued peerId (WebRTCManager.mgr w1) = queue /\
    (forall a : RTCSessionDescriptionInit,
       RTCPeerConnection.signalingState pc = HaveLocalOffer ->
       sdpType a = SdpAnswer ->
       descriptionOk a = true ->
       exists (w2 : WebRTCManager.World App) (pc2 : RTCPeerConnection.t),
         WebRTCManager.handleAnswer (WebRTCManager.returning cb) peerId a w1 = (Ok tt, w2) /\
         WebRTCManager.peerConnections (WebRTCManager.mgr w2) !! peerId = Some pc2 /\
         RTCPeerConnection.remoteDescription pc2 = Some a /\
         RTCPeerConnection.iceCandidates pc2 =
           RTCPeerConnection.iceCandidates pc ++ map (fun c => (c, candidateOk c)) queue /\
         WebRTCManager.pendingIceCandidates (WebRTCManager.mgr w2) !! peerId = None) /\
    (forall o a : RTCSessionDescriptionInit,
       sdpType o = SdpOffer ->
       descriptionOk o = true ->
       sdpType a = SdpAnswer ->
       descriptionOk a = true ->
       exists (w2 : WebRTCManager.World App) (pc2 : RTCPeerConnection.t),
         WebRTCManager.handleOffer
             (WebRTCManager.returning cb) (Some a) peerId o w1 = (Ok tt, w2) /\
         WebRTCManager.peerConnections (WebRTCManager.mgr w2) !! peerId = Some pc2 /\
         RTCPeerConnection.remoteDescription pc2 = Some o /\
         RTCPeerConnection.iceCandidates pc2 = map (fun c => (c, candidateOk c)) queue /\
         WebRTCManager.pendingIceCandidates (WebRTCManager.mgr w2) !! peerId = None).
Proof.
  intros Hpc Hrd Hne queue.
  destruct (handleIceCandidate_sequence cs w peerId pc Hpc Hrd)
    as (w1 & Hrun & Hpcs & Hq & Happ).
  assert (Hq1 : WebRTCManager.queued peerId (WebRTCManager.mgr w1) = queue).
  { unfold WebRTCManager.queued in *. rewrite Hq. subst queue.
    destruct cs; [now rewrite app_nil_r | reflexivity]. }
  assert (Hne1 : WebRTCManager.pendingIceCandidates (WebRTCManager.mgr w1) !! peerId
                 <> Some []).
  { rewrite Hq. destruct cs as [|c cs']; [exact Hne|].
    intros [= Heq]. now apply app_eq_nil in Heq as [_ ?]. }
  assert (Hpc1 : WebRTCManager.peerConnections (WebRTCManager.mgr w1) !! peerId = Some pc)
    by (now rewrite Hpcs).
  exists w1. split; [exact Hrun|]. split; [exact Hq1|]. split.
  - intros a Hsig Hty Hok.
    destruct (handleAnswer_flush w1 peerId pc a Hpc1 Hsig Hty Hok Hne1)
      as (w2 & pc2 & H1 & H2 & H3 & H4 & H5 & _).
    exists w2, pc2. rewrite Hq1 in H4. auto.
  - intros o a Hto Hoo Hta Hoa.
    destruct (handleOffer_flush w1 peerId o a Hto Hoo Hta Hoa Hne1)
      as (w2 & pc2 & H1 & H2 & H3 & H4 & H5 & _).
    exists w2, pc2. rewrite Hq1 in H4. auto.
Qed.

End CandidateProperties.

(** C2 as stated fails for a peer without a connection object: a candidate
    that arrives before the peer's offer is neither queued nor applied once
    the offer's description is in place. *)
Lemma candidate_before_offer_counterexample :
  let w0 := {| WebRTCManager.mgr := WebRTCManager.new "alice" "Alice" (Demo.service 5);
               WebRTCManager.app := @nil Event |} in
  let c := {| candidate := "candidate:1 1 udp 2122260223 192.0.2.1 54321 typ host";
              sdpMLineIndex := 0 |} in
  let o := {| sdpType := SdpOffer; sdp := "v=0 offer" |} in
  let a := {| sdpType := SdpAnswer; sdp := "v=0 answer" |} in
  let w1 := state_of (WebRTCManager.handleIceCandidate "bob" c w0) in
  let w2 := state_of (WebRTCManager.handleOffer Network.recorder (Some a) "bob" o w1) in
  WebRTCManager.pendingIceCandidates (WebRTCManager.mgr w1) !! "bob" = None /\
  RTCPeerConnection.remoteDescription <$>
    WebRTCManager.peerConnections (WebRTCManager.mgr w2) !! "bob" = Some (Some o) /\
  RTCPeerConnection.iceCandidates <$>
    WebRTCManager.peerConnections (WebRTCManager.mgr w2) !! "bob" = Some [].
Proof. vm_compute. auto. Qed.

Lemma early_candidates_flushed_in_order_witness :
  let o := {| sdpType := SdpOffer; sdp := "v=0 offer" |} in
  let a := {| sdpType := SdpAnswer; sdp := "v=0 answer" |} in
  let c1 := {| candidate := "candidate:1 1 udp 2122260223 192.0.2.1 54321 typ host";
               sdpMLineIndex := 0 |} in
  let c2 := {| candidate := ""; sdpMLineIndex := 0 |} in
  let c3 := {| candidate := "candidate:2 1 udp 1686052607 198.51.100.7 40000 typ srflx";
               sdpMLineIndex := 0 |} in
  let w := state_of (WebRTCManager.connectToPeer Network.recorder (Some o) "bob"
            {| WebRTCManager.mgr := WebRTCManager.new "alice" "Alice" (Demo.service 5);
               WebRTCManager.app := @nil Event |}) in
  exists w1 w2 pc2,
    WebRTCManager.forEach [c1; c2; c3] (WebRTCManager.handleIceCandidate "bob") w = (Ok tt, w1) /\
    WebRTCManager.queued "bob" (WebRTCManager.mgr w1) = [c1; c2; c3] /\
    WebRTCManager.handleAnswer Network.recorder "bob" a w1 = (Ok tt, w2) /\
    WebRTCManager.peerConnections (WebRTCManager.mgr w2) !! "bob" = Some pc2 /\
    RTCPeerConnection.iceCandidates pc2 = [(c1, true); (c2, false); (c3, true)] /\
    WebRTCManager.pendingIceCandidates (WebRTCManager.mgr w2) !! "bob" = None.
Proof.
  intros o a c1 c2 c3 w.
  destruct (early_candidates_flushed_in_order Network.record w "bob"
              {| RTCPeerConnection.connectionState := PcNew;
                 RTCPeerConnection.iceConnectionState := IceNew;
                 RTCPeerConnection.signalingState := HaveLocalOffer;
                 RTCPeerConnection.localDescription := Some o;
                 RTCPeerConnection.remoteDescription := None;
                 RTCPeerConnection.iceCandidates := [] |}
              [c1; c2; c3])
    as (w1 & Hrun & Hq & Hanswer & _).
  - reflexivity.
  - reflexivity.
  - vm_compute. discriminate.
  - destruct (Hanswer a) as (w2 & pc2 & H1 & H2 & _ & H4 & H5); try reflexivity.
    exists w1, w2, pc2. repeat split; assumption.
Defined.

(** ** The crossed key exchange *)

Section KeyExchangeProperties.
Context {C : SubtleCrypto} {P : RTCPlatform} {J : MessageCodec}.
Hypothesis Hlaw : import_export_law C.

Lemma isOpen_open (l : list Frame) :
  RTCDataChannel.isOpen {| RTCDataChannel.readyState := DcOpen; RTCDataChannel.sent := l |}
    = true.
Proof. reflexivity. Qed.

Section Handshake.
Context {App : Type} (cb : Event -> WebRTCManager.t -> App -> App).

(** [performKeyExchange] with an open channel, a key pair and no key for the
    peer: the opening frame goes out, no callback runs. *)
Lemma performKeyExchange_sends
    (w : WebRTCManager.World App) (peer : string) (kp : EncryptionService.CryptoKeyPair)
    (l : list Frame) (now : N) :
  EncryptionService.keyPair (WebRTCManager.encryptionService (WebRTCManager.mgr w)) = Some kp ->
  EncryptionService.sharedKeys (WebRTCManager.encryptionService (WebRTCManager.mgr w)) !! peer
    = None ->
  WebRTCManager.dataChannels (WebRTCManager.mgr w) !! peer =
    Some {| RTCDataChannel.readyState := DcOpen; RTCDataChannel.sent := l |} ->
  WebRTCManager.performKeyExchange (WebRTCManager.returning cb) now peer w =
    (Ok tt,
     {| WebRTCManager.mgr :=
          WebRTCManager.set_dataChannels
            (insert peer
               {| RTCDataChannel.readyState := DcOpen;
                  RTCDataChannel.sent :=
                    l ++ [Network.kxFrame (WebRTCManager.nodeId (WebRTCManager.mgr w)) kp
                            false now] |})
            (WebRTCManager.mgr w);
        WebRTCManager.app := WebRTCManager.app w |}).
Proof.
  destruct w as [[me name [kpo keys] so pcs dcs pend sts di] a]. cbn.
  intros -> Hkey Hdc.
  unfold WebRTCManager.performKeyExchange, WebRTCManager.channelIsOpen,
    EncryptionService.hasSharedKey, EncryptionService.getPublicKey.
  eff_unfold. mgr_unfold. cbn. rewrite Hdc, isOpen_open. cbn. rewrite Hkey. cbn.
  rewrite Hdc. reflexivity.
Qed.

(** [handleKeyExchange] when a key is stored: only the callback runs. *)
Lemma handleKeyExchange_again
    (w : WebRTCManager.World App) (peer : string) (pk : bytes) (isResponse : bool) (now : N) :
  is_Some (EncryptionService.sharedKeys
             (WebRTCManager.encryptionService (WebRTCManager.mgr w)) !! peer) ->
  WebRTCManager.handleKeyExchange (WebRTCManager.returning cb) now pk isResponse peer w =
    (Ok tt,
     {| WebRTCManager.mgr := WebRTCManager.mgr w;
        WebRTCManager.app :=
          cb (EncryptionEstablished peer) (WebRTCManager.mgr w) (WebRTCManager.app w) |}).
Proof.
  intros Hkey. apply hasSharedKey_true in Hkey.
  unfold WebRTCManager.handleKeyExchange. eff_unfold. now rewrite Hkey.
Qed.

(** [handleKeyExchange] on the peer's opening frame, no key being stored:
    the key is derived and stored, the response goes out, the callback runs. *)
Lemma handleKeyExchange_first
    (w : WebRTCManager.World App) (peer : string) (kp : EncryptionService.CryptoKeyPair)
    (pk : bytes) (peerKey : PublicKey) (l : list Frame) (now : N) :
  EncryptionService.keyPair (WebRTCManager.encryptionService (WebRTCManager.mgr w)) = Some kp ->
  EncryptionService.sharedKeys (WebRTCManager.encryptionService (WebRTCManager.mgr w)) !! peer
    = None ->
  importKey pk = Some peerKey ->
  WebRTCManager.dataChannels (WebRTCManager.mgr w) !! peer =
    Some {| RTCDataChannel.readyState := DcOpen; RTCDataChannel.sent := l |} ->
  let m' :=
    WebRTCManager.set_dataChannels
      (insert peer
         {| RTCDataChannel.readyState := DcOpen;
            RTCDataChannel.sent :=
              l ++ [Network.kxFrame (WebRTCManager.nodeId (WebRTCManager.mgr w)) kp true now] |})
      (WebRTCManager.set_encryptionService
         (EncryptionService.set_sharedKeys
            (insert peer (deriveKey peerKey (EncryptionService.privateKey kp))))
         (WebRTCManager.mgr w)) in
  WebRTCManager.handleKeyExchange (WebRTCManager.returning cb) now pk false peer w =
    (Ok tt,
     {| WebRTCManager.mgr := m';
        WebRTCManager.app := cb (EncryptionEstablished peer) m' (WebRTCManager.app w) |}).
Proof.
  destruct w as [[me name [kpo keys] so pcs dcs pend sts di] a]. cbn.
  intros -> Hkey Himp Hdc.
  unfold WebRTCManager.handleKeyExchange, WebRTCManager.channelIsOpen,
    EncryptionService.hasSharedKey, EncryptionService.getPublicKey,
    EncryptionService.establishSharedKey.
  eff_unfold. mgr_unfold. cbn. rewrite Hkey. cbn.
  unfold EncryptionService.hasSharedKey. cbn. rewrite Hkey. cbn. rewrite Himp. cbn.
  rewrite Hdc, isOpen_open. cbn. rewrite Hdc. reflexivity.
Qed.

End Handshake.

(** The timer of [performKeyExchange] on a ready node: the opening frame. *)
Lemma kx_start
    (me peer : string) (kp : EncryptionService.CryptoKeyPair) (peerKey : PublicKey)
    (now : N) (n : Network.Node) :
  Network.readyFor me peer kp n ->
  Network.KxState me kp peer peerKey
    (EncryptionService.sharedKeys (WebRTCManager.encryptionService (WebRTCManager.mgr n)))
    (WebRTCManager.app n) 0 0
    (state_of (WebRTCManager.performKeyExchange Network.recorder now peer n)).
Proof.
  intros (Hid & Hkp & Hkey & Hdc).
  unfold Network.recorder.
  rewrite (performKeyExchange_sends Network.record n peer kp [] now Hkp Hkey Hdc).
  destruct n as [[me' name [kpo keys] so pcs dcs pend sts di] a]. cbn in *. subst.
  split; cbn; auto.
  - exists now, 0%N. rewrite lookup_insert_eq. reflexivity.
  - now rewrite app_nil_r.
Qed.

(** Handling the next key-exchange frame of the peer. *)
Lemma kx_handle
    (me peer sender : string) (kp : EncryptionService.CryptoKeyPair) (peerKey : PublicKey)
    (keys0 : gmap string CryptoKey) (log0 : list Event) (k j : nat)
    (isResponse : bool) (t now : N) (n : Network.Node) :
  Network.KxState me kp peer peerKey keys0 log0 k j n ->
  k <= 1 ->
  (k = 0 -> isResponse = false) ->
  Network.KxState me kp peer peerKey keys0 log0 (S k) j
    (state_of (WebRTCManager.handleDataChannelMessage Network.recorder now
                 (Some (key_exchange (exportKey peerKey) sender isResponse t)) peer n)).
Proof.
  intros [Hid Hkp Hfresh Hkeys (t0 & t1 & Hdc) Hj Hlog] Hk Hresp.
  unfold WebRTCManager.handleDataChannelMessage, logAndSwallow.
  destruct k as [|[|k]]; [| |lia].
  - rewrite (Hresp eq_refl). cbn in Hkeys, Hdc, Hj, Hlog.
    erewrite tryCatch_Ok; cycle 1.
    { eapply handleKeyExchange_first; eauto. now rewrite Hkeys. }
    destruct n as [[me' name [kpo keys] so pcs dcs pend sts di] a]. cbn in *. subst.
    split; cbn; auto.
    + exists t0, now. rewrite lookup_insert_eq. do 2 f_equal.
      destruct j as [|[|j]]; [reflexivity|reflexivity|lia].
    + unfold Network.record. now rewrite app_nil_r.
  - cbn in Hkeys, Hdc, Hj, Hlog.
    erewrite tryCatch_Ok; cycle 1.
    { eapply handleKeyExchange_again. rewrite Hkeys, lookup_insert_eq. eauto. }
    destruct n as [[me' name [kpo keys] so pcs dcs pend sts di] a]. cbn in *. subst.
    split; cbn; auto.
    + exists t0, t1. exact Hdc.
    + unfold Network.record. now rewrite <- app_assoc.
Qed.

(** Taking the next frame out of a node's channel. *)
Lemma kx_take
    (me peer : string) (kp : EncryptionService.CryptoKeyPair) (peerKey : PublicKey)
    (keys0 : gmap string CryptoKey) (log0 : list Event) (k j : nat) (n : Network.Node) :
  Network.KxState me kp peer peerKey keys0 log0 k j n ->
  (j < length (Network.kxFrames me kp k 0 0) ->
   exists (t : N) (n' : Network.Node),
     Network.takeFrame peer n = Some (Network.kxFrame me kp (bool_decide (j = 1)) t, n') /\
     Network.KxState me kp peer peerKey keys0 log0 k (S j) n') /\
  (j = length (Network.kxFrames me kp k 0 0) -> Network.takeFrame peer n = None).
Proof.
  intros [Hid Hkp Hfresh Hkeys (t0 & t1 & Hdc) Hj Hlog].
  unfold Network.takeFrame. rewrite Hdc. cbn [RTCDataChannel.sent RTCDataChannel.readyState].
  destruct n as [[me' name [kpo keys] so pcs dcs pend sts di] a]. cbn in *. subst.
  split.
  - intros Hlt.
    destruct k as [|k]; cbn in *.
    + destruct j as [|j]; [|lia]. cbn.
      eexists _, _. split; [reflexivity|].
      split; cbn; auto.
      exists t0, t1. rewrite lookup_insert_eq. reflexivity.
    + destruct j as [|[|j]]; [| |lia]; cbn.
      * eexists _, _. split; [reflexivity|].
        split; cbn; auto.
        exists t0, t1. rewrite lookup_insert_eq. reflexivity.
      * eexists _, _. split; [reflexivity|].
        split; cbn; auto.
        exists t0, t1. rewrite lookup_insert_eq. reflexivity.
  - intros ->. destruct k; reflexivity.
Qed.

Lemma kxFrames_length (me : string) (kp : EncryptionService.CryptoKeyPair) (k : nat)
    (t0 t1 : N) :
  length (Network.kxFrames me kp k t0 t1) = if decide (k = 0) then 1 else 2.
Proof. now destruct k. Qed.

(** One frame travels from a sender to a receiver. *)
Lemma kx_transfer
    (me peer : string) (kp kp' : EncryptionService.CryptoKeyPair) (peerKey : PublicKey)
    (keys0 keys0' : gmap string CryptoKey) (log0 log0' : list Event) (k j : nat)
    (now : N) (s r : Network.Node) :
  Network.KxState me kp peer peerKey keys0 log0 k j s ->
  Network.KxState peer kp' me (EncryptionService.publicKey kp) keys0' log0' j k r ->
  (j < length (Network.kxFrames me kp k 0 0) ->
   exists (f : Frame) (s' : Network.Node),
     Network.takeFrame peer s = Some (f, s') /\
     Network.KxState me kp peer peerKey keys0 log0 k (S j) s' /\
     Network.KxState peer kp' me (EncryptionService.publicKey kp) keys0' log0' (S j) k
       (state_of (WebRTCManager.handleDataChannelMessage Network.recorder now (Some f) me r))) /\
  (j = length (Network.kxFrames me kp k 0 0) -> Network.takeFrame peer s = None).
Proof.
  intros Hs Hr. destruct (kx_take _ _ _ _ _ _ _ _ _ Hs) as [Htake Hnone].
  split; [|exact Hnone].
  intros Hlt. destruct (Htake Hlt) as (t & s' & Hf & Hs').
  exists (Network.kxFrame me kp (bool_decide (j = 1)) t), s'.
  split; [exact Hf|]. split; [exact Hs'|].
  unfold Network.kxFrame. apply kx_handle; [exact Hr| |].
  - rewrite kxFrames_length in Hlt. case_decide; lia.
  - now intros ->.
Qed.

Section Crossed.
Variables idA idB : string.
Variables kpA kpB : EncryptionService.CryptoKeyPair.
Variables keysA keysB : gmap string CryptoKey.
Variables logA logB : list Event.

Local Abbreviation invA := (Network.KxState idA kpA idB (EncryptionService.publicKey kpB) keysA logA).
Local Abbreviation invB := (Network.KxState idB kpB idA (EncryptionService.publicKey kpA) keysB logB).

Lemma net_deliver (kA kB : nat) (to : Network.Side) (now : N) (net : Network.Net) :
  invA kA kB (Network.nodeA net) ->
  invB kB kA (Network.nodeB net) ->
  match Network.deliver idA idB to now net, to with
  | Some net', Network.SideA =>
      invA (S kA) kB (Network.nodeA net') /\ invB kB (S kA) (Network.nodeB net')
  | Some net', Network.SideB =>
      invA kA (S kB) (Network.nodeA net') /\ invB (S kB) kA (Network.nodeB net')
  | None, Network.SideA => kA = length (Network.kxFrames idB kpB kB 0 0)
  | None, Network.SideB => kB = length (Network.kxFrames idA kpA kA 0 0)
  end.
Proof.
  intros HA HB. destruct to; unfold Network.deliver.
  - destruct (kx_transfer _ _ _ _ _ _ _ _ _ _ _ now _ _ HB HA) as [Hgo Hstop].
    pose proof (Network.kx_taken _ _ _ _ _ _ _ _ _ HB) as Hle.
    destruct (decide (kA = length (Network.kxFrames idB kpB kB 0 0))) as [Heq|Hne].
    + now rewrite (Hstop Heq).
    + destruct Hgo as (f & b' & -> & Hb' & Ha'); [lia|]. cbn. auto.
  - destruct (kx_transfer _ _ _ _ _ _ _ _ _ _ _ now _ _ HA HB) as [Hgo Hstop].
    pose proof (Network.kx_taken _ _ _ _ _ _ _ _ _ HA) as Hle.
    destruct (decide (kB = length (Network.kxFrames idA kpA kA 0 0))) as [Heq|Hne].
    + now rewrite (Hstop Heq).
    + destruct Hgo as (f & a' & -> & Ha' & Hb'); [lia|]. cbn. auto.
Qed.

Lemma net_run (schedule : list (Network.Side * N)) (kA kB : nat) (net net' : Network.Net) :
  invA kA kB (Network.nodeA net) ->
  invB kB kA (Network.nodeB net) ->
  Network.run idA idB schedule net = Some net' ->
  exists kA' kB' : nat,
    invA kA' kB' (Network.nodeA net') /\ invB kB' kA' (Network.nodeB net') /\
    kA' + kB' = kA + kB + length schedule.
Proof.
  revert kA kB net. induction schedule as [|[to now] rest IH]; intros kA kB net HA HB Hrun.
  - injection Hrun as <-. exists kA, kB. auto with lia.
  - cbn in Hrun. pose proof (net_deliver kA kB to now net HA HB) as Hstep.
    destruct (Network.deliver idA idB to now net) as [net1|]; [|discriminate].
    destruct to; destruct Hstep as [HA1 HB1];
      destruct (IH _ _ net1 HA1 HB1 Hrun) as (kA' & kB' & HA' & HB' & Hsum');
      exists kA', kB'; cbn; auto with lia.
Qed.

(** From the crossed start, the schedule A, B, A, B runs to the end. *)
Lemma net_alternate (net : Network.Net) :
  invA 0 0 (Network.nodeA net) ->
  invB 0 0 (Network.nodeB net) ->
  exists net' : Network.Net,
    Network.run idA idB
      [(Network.SideA, 0%N); (Network.SideB, 0%N); (Network.SideA, 0%N); (Network.SideB, 0%N)]
      net = Some net' /\
    invA 2 2 (Network.nodeA net') /\ invB 2 2 (Network.nodeB net').
Proof.
  intros HA HB. cbn [Network.run].
  pose proof (net_deliver 0 0 Network.SideA 0%N net HA HB) as H1.
  destruct (Network.deliver idA idB Network.SideA 0%N net) as [net1|]; [|discriminate].
  destruct H1 as [HA1 HB1].
  pose proof (net_deliver 1 0 Network.SideB 0%N net1 HA1 HB1) as H2.
  destruct (Network.deliver idA idB Network.SideB 0%N net1) as [net2|]; [|discriminate].
  destruct H2 as [HA2 HB2].
  pose proof (net_deliver 1 1 Network.SideA 0%N net2 HA2 HB2) as H3.
  destruct (Network.deliver idA idB Network.SideA 0%N net2) as [net3|]; [|discriminate].
  destruct H3 as [HA3 HB3].
  pose proof (net_deliver 2 1 Network.SideB 0%N net3 HA3 HB3) as H4.
  destruct (Network.deliver idA idB Network.SideB 0%N net3) as [net4|]; [|discriminate].
  destruct H4 as [HA4 HB4].
  exists net4. auto.
Qed.

Lemma net_bound (kA kB : nat) (net : Network.Net) :
  invA kA kB (Network.nodeA net) ->
  invB kB kA (Network.nodeB net) ->
  kA <= 2 /\ kB <= 2.
Proof.
  intros HA HB.
  pose proof (Network.kx_taken _ _ _ _ _ _ _ _ _ HA) as H1.
  pose proof (Network.kx_taken _ _ _ _ _ _ _ _ _ HB) as H2.
  rewrite kxFrames_length in H1, H2. repeat case_decide; lia.
Qed.

Lemma net_quiescent (kA kB : nat) (net : Network.Net) :
  invA kA kB (Network.nodeA net) ->
  invB kB kA (Network.nodeB net) ->
  Network.quiescent idA idB net <-> kA = 2 /\ kB = 2.
Proof.
  intros HA HB.
  destruct (Network.kx_chan _ _ _ _ _ _ _ _ _ HA) as (t0 & t1 & Ha).
  destruct (Network.kx_chan _ _ _ _ _ _ _ _ _ HB) as (u0 & u1 & Hb).
  pose proof (Network.kx_taken _ _ _ _ _ _ _ _ _ HA) as H1.
  pose proof (Network.kx_taken _ _ _ _ _ _ _ _ _ HB) as H2.
  unfold Network.quiescent, Network.inFlight. rewrite Ha, Hb. cbn.
  destruct kA as [|[|[|kA]]], kB as [|[|[|kB]]]; cbn in *; try lia;
    split; intros [? ?]; try discriminate; auto; lia.
Qed.

End Crossed.

(** C1, amended. Two peers whose key-exchange timers both fire before
    either has received the other's frame: the frames in flight can all be
    delivered, at most four deliveries are ever possible, and whatever the
    order of delivery, once nothing is in flight each side holds exactly one
    key for the other peer, added to the keys it had, and has run the
    encryption-established callback twice: once on the peer's opening frame,
    when it stores the key and answers, and once more on the peer's
    response, which finds the key stored. No response is answered. *)
Theorem crossed_key_exchange_converges
    (idA idB : string) (kpA kpB : EncryptionService.CryptoKeyPair)
    (a0 b0 : Network.Node) (nowA nowB : N) :
  Network.readyFor idA idB kpA a0 ->
  Network.readyFor idB idA kpB b0 ->
  let net0 := Network.crossed idA idB nowA nowB a0 b0 in
  let keysOf (n : Network.Node) :=
    EncryptionService.sharedKeys (WebRTCManager.encryptionService (WebRTCManager.mgr n)) in
  (exists (schedule : list (Network.Side * N)) (net : Network.Net),
     Network.run idA idB schedule net0 = Some net /\ Network.quiescent idA idB net) /\
  (forall (schedule : list (Network.Side * N)) (net : Network.Net),
     Network.run idA idB schedule net0 = Some net ->
     length schedule <= 4 /\
     (Network.quiescent idA idB net ->
      length schedule = 4 /\
      keysOf (Network.nodeA net) =
        <[idB := deriveKey (EncryptionService.publicKey kpB) (EncryptionService.privateKey kpA)]>
          (keysOf a0) /\
      keysOf (Network.nodeB net) =
        <[idA := deriveKey (EncryptionService.publicKey kpA) (EncryptionService.privateKey kpB)]>
          (keysOf b0) /\
      WebRTCManager.app (Network.nodeA net) =
        WebRTCManager.app a0 ++ [EncryptionEstablished idB; EncryptionEstablished idB] /\
      WebRTCManager.app (Network.nodeB net) =
        WebRTCManager.app b0 ++ [EncryptionEstablished idA; EncryptionEstablished idA])).
Proof.
  intros Ha Hb net0 keysOf.
  pose proof (kx_start idA idB kpA (EncryptionService.publicKey kpB) nowA a0 Ha) as HA0.
  pose proof (kx_start idB idA kpB (EncryptionService.publicKey kpA) nowB b0 Hb) as HB0.
  split.
  - destruct (net_alternate idA idB kpA kpB _ _ _ _ net0 HA0 HB0) as (net & Hrun & HA & HB).
    eexists _, net. split; [exact Hrun|].
    now apply (net_quiescent idA idB kpA kpB _ _ _ _ 2 2 net HA HB).
  - intros schedule net Hrun.
    destruct (net_run idA idB kpA kpB _ _ _ _ schedule 0 0 net0 net HA0 HB0 Hrun)
      as (kA & kB & HA & HB & Hsum).
    pose proof (net_bound idA idB kpA kpB _ _ _ _ kA kB net HA HB) as [HkA HkB].
    split; [lia|].
    intros Hq. apply (net_quiescent idA idB kpA kpB _ _ _ _ kA kB net HA HB) in Hq as [-> ->].
    split; [lia|].
    split; [exact (Network.kx_keys _ _ _ _ _ _ _ _ _ HA)|].
    split; [exact (Network.kx_keys _ _ _ _ _ _ _ _ _ HB)|].
    split; [exact (Network.kx_log _ _ _ _ _ _ _ _ _ HA)|].
    exact (Network.kx_log _ _ _ _ _ _ _ _ _ HB).
Qed.

End KeyExchangeProperties.

(** C1 as stated fails on the count of events: in the crossed exchange each
    side runs the encryption-established callback twice, not once. *)
Lemma crossed_key_exchange_counterexample :
  let net0 := Network.crossed "alice" "bob" 100 101
                (Demo.node "alice" 5 "bob") (Demo.node "bob" 7 "alice") in
  match Network.run "alice" "bob"
          [(Network.SideA, 200%N); (Network.SideB, 201%N);
           (Network.SideB, 202%N); (Network.SideA, 203%N)] net0 with
  | Some net =>
      Network.quiescent "alice" "bob" net /\
      Network.established "bob" (WebRTCManager.app (Network.nodeA net)) = 2 /\
      Network.established "alice" (WebRTCManager.app (Network.nodeB net)) = 2 /\
      Network.established "bob" (WebRTCManager.app (Network.nodeA net)) <> 1
  | None => False
  end.
Proof. vm_compute. repeat split; discriminate. Qed.

Lemma crossed_key_exchange_converges_witness :
  exists (schedule : list (Network.Side * N)) (net : Network.Net),
    Network.run "alice" "bob" schedule
      (Network.crossed "alice" "bob" 100 101
         (Demo.node "alice" 5 "bob") (Demo.node "bob" 7 "alice")) = Some net /\
    Network.quiescent "alice" "bob" net.
Proof.
  refine (proj1 (crossed_key_exchange_converges demo_import_export
                   "alice" "bob" (Demo.keyPairOf 5) (Demo.keyPairOf 7)
                   (Demo.node "alice" 5 "bob") (Demo.node "bob" 7 "alice") 100 101 _ _)).
  - repeat split; reflexivity.
  - repeat split; reflexivity.
Defined.

(** ** The provider's logging *)

(** When [log] throws: [debug] being on, for a [verbose] message at level
    [verbose], and for a [silent] message, which the code never logs. The
    state is never touched. *)
Lemma log_cases (level : SecureChatProvider.LogLevel) (a : SecureChatProvider.t) :
  SecureChatProvider.log level a =
    (if SecureChatProvider.debug a &&
        (bool_decide (level = SecureChatProvider.LogSilent) ||
         bool_decide (level = SecureChatProvider.LogVerbose) &&
         bool_decide (SecureChatProvider.logLevel a = SecureChatProvider.LogVerbose))
     then Throw TypeError else Ok tt, a).
Proof.
  unfold SecureChatProvider.log, SecureChatProvider.console, bind, gets, ret, throw.
  destruct (SecureChatProvider.debug a); cbn; [|reflexivity].
  destruct level, (SecureChatProvider.logLevel a); reflexivity.
Qed.

Lemma log_info (a : SecureChatProvider.t) :
  SecureChatProvider.log SecureChatProvider.LogInfo a = (Ok tt, a).
Proof. rewrite log_cases. cbn. now rewrite andb_false_r. Qed.

Lemma liftApp_log_info {C : SubtleCrypto} (w : WebRTCManager.World SecureChatProvider.t) :
  SecureChatProvider.liftApp (SecureChatProvider.log SecureChatProvider.LogInfo) w = (Ok tt, w).
Proof. unfold SecureChatProvider.liftApp. rewrite log_info. now destruct w. Qed.

(** ** Sending a message *)

Section SendProperties.
Context {C : SubtleCrypto} {P : RTCPlatform} {J : MessageCodec}.

(** The manager's [sendMessage], case by case. *)
Lemma manager_sendMessage_cases {App : Type}
    (w : WebRTCManager.World App) (now : N) (iv : bytes) (peerId content : string) :
  let me := WebRTCManager.nodeId (WebRTCManager.mgr w) in
  let plaintext :=
    encodeMessageData {| md_content := content; md_timestamp := now; md_sender := me |} in
  WebRTCManager.sendMessage now iv peerId content w =
    match WebRTCManager.dataChannels (WebRTCManager.mgr w) !! peerId with
    | Some dc =>
        if RTCDataChannel.isOpen dc then
          match EncryptionService.sharedKeys
                  (WebRTCManager.encryptionService (WebRTCManager.mgr w)) !! peerId with
          | None => (Throw (NoKeyError peerId), w)
          | Some k =>
              match aesGcmEncrypt k iv plaintext with
              | None => (Throw EncryptionError, w)
              | Some c =>
                  (Ok tt,
                   {| WebRTCManager.mgr :=
                        WebRTCManager.set_dataChannels
                          (insert peerId
                             {| RTCDataChannel.readyState := DcOpen;
                                RTCDataChannel.sent :=
                                  RTCDataChannel.sent dc ++ [encrypted_message c iv me] |})
                          (WebRTCManager.mgr w);
                      WebRTCManager.app := WebRTCManager.app w |})
              end
          end
        else (Throw (ChannelError peerId), w)
    | None => (Throw (ChannelError peerId), w)
    end.
Proof.
  destruct w as [[me name [kpo keys] so pcs dcs pend sts di] a]. cbn.
  unfold WebRTCManager.sendMessage, WebRTCManager.channelIsOpen, EncryptionService.encrypt.
  eff_unfold. mgr_unfold. cbn.
  destruct (dcs !! peerId) as [[st l]|] eqn:Hdc; cbn; [|reflexivity].
  unfold RTCDataChannel.isOpen. cbn.
  destruct st; try reflexivity.
  rewrite !(bool_decide_eq_true_2 (DcOpen = DcOpen) eq_refl). cbn.
  destruct (keys !! peerId) as [k|]; cbn; [|reflexivity].
  destruct (aesGcmEncrypt k iv _); cbn; [|reflexivity].
  rewrite Hdc. reflexivity.
Qed.

(** The provider's [sendMessage] with a selected peer: the message is
    appended, then the manager sends. *)
Lemma provider_sendMessage_selected
    (w : WebRTCManager.World SecureChatProvider.t) (iv : bytes) (content : string)
    (peer : Peer.t) :
  let a := WebRTCManager.app w in
  SecureChatProvider.selectedPeer a = Some peer ->
  SecureChatProvider.webrtcManagerRef a = true ->
  SecureChatProvider.sendMessage iv content w =
    WebRTCManager.sendMessage (SecureChatProvider.clock a) iv (Peer.id peer) content
      {| WebRTCManager.mgr := WebRTCManager.mgr w;
         WebRTCManager.app :=
           SecureChatProvider.setMessages
             (fun prev => prev ++
                [{| Message.id := fst (SecureChatProvider.createSecureId a);
                    Message.content := content;
                    Message.sender := SecureChatProvider.nodeIdRef a;
                    Message.senderName := SecureChatProvider.username a;
                    Message.timestamp := SecureChatProvider.clock a;
                    Message.encrypted := true;
                    Message.isOwn := true |}])
             (snd (SecureChatProvider.createSecureId a)) |}.
Proof.
  intros a Hsel Href. subst a.
  unfold SecureChatProvider.sendMessage, SecureChatProvider.onApp.
  unfold bind at 1, gets at 1. rewrite Hsel.
  unfold bind at 1, gets at 1. rewrite Href.
  erewrite bind_Ok by apply liftApp_log_info.
  erewrite bind_Ok by reflexivity.
  erewrite bind_Ok by reflexivity.
  erewrite bind_Ok by reflexivity.
  unfold bind at 1.
  destruct (SecureChatProvider.createSecureId (WebRTCManager.app w)) as [newId a1] eqn:Hid.
  erewrite bind_Ok by reflexivity. cbn [fst snd WebRTCManager.mgr WebRTCManager.app].
  unfold SecureChatProvider.createSecureId in Hid.
  destruct (SecureChatProvider.secureIds (WebRTCManager.app w));
    injection Hid as <- <-; reflexivity.
Qed.

(** C5, amended. [sendMessage] throws when no peer is selected (or the
    manager is not set), changing nothing. With a selected peer it appends
    one message of its own to the log and then hands over to the manager:
    the call throws when the peer's channel is missing or not open, when no
    key is stored for the peer, or when the platform's encryption rejects;
    otherwise it returns and the encrypted payload has gone out on the peer's
    channel. The [encryptionEstablished] flag of the selected peer is not
    read. *)
Theorem sendMessage_outcomes
    (w : WebRTCManager.World SecureChatProvider.t) (iv : bytes) (content : string) :
  let a := WebRTCManager.app w in
  let m := WebRTCManager.mgr w in
  let r := SecureChatProvider.sendMessage iv content w in
  ((SecureChatProvider.selectedPeer a = None \/ SecureChatProvider.webrtcManagerRef a = false) ->
   r = (Throw NoPeerSelectedError, w)) /\
  (forall peer : Peer.t,
     SecureChatProvider.selectedPeer a = Some peer ->
     SecureChatProvider.webrtcManagerRef a = true ->
     let own :=
       {| Message.id := fst (SecureChatProvider.createSecureId a);
          Message.content := content;
          Message.sender := SecureChatProvider.nodeIdRef a;
          Message.senderName := SecureChatProvider.username a;
          Message.timestamp := SecureChatProvider.clock a;
          Message.encrypted := true;
          Message.isOwn := true |} in
     let plaintext :=
       encodeMessageData {| md_content := content;
                            md_timestamp := SecureChatProvider.clock a;
                            md_sender := WebRTCManager.nodeId m |} in
     let key := EncryptionService.sharedKeys (WebRTCManager.encryptionService m)
                  !! Peer.id peer in
     SecureChatProvider.messages (WebRTCManager.app (state_of r)) =
       SecureChatProvider.messages a ++ [own] /\
     match WebRTCManager.dataChannels m !! Peer.id peer with
     | Some dc =>
         if RTCDataChannel.isOpen dc then
           match key with
           | None => result_of r = Throw (NoKeyError (Peer.id peer))
           | Some k =>
               match aesGcmEncrypt k iv plaintext with
               | None => result_of r = Throw EncryptionError
               | Some c =>
                   result_of r = Ok tt /\
                   WebRTCManager.dataChannels (WebRTCManager.mgr (state_of r)) !! Peer.id peer =
                     Some {| RTCDataChannel.readyState := DcOpen;
                             RTCDataChannel.sent :=
                               RTCDataChannel.sent dc ++
                               [encrypted_message c iv (WebRTCManager.nodeId m)] |}
               end
           end
         else result_of r = Throw (ChannelError (Peer.id peer))
     | None => result_of r = Throw (ChannelError (Peer.id peer))
     end).
Proof.
  intros a m r. subst a m r. split.
  - intros H. unfold SecureChatProvider.sendMessage. eff_unfold.
    destruct H as [-> | ->]; [reflexivity|].
    now destruct (SecureChatProvider.selectedPeer (WebRTCManager.app w)).
  - intros peer Hsel Href own plaintext key.
    rewrite (provider_sendMessage_selected w iv content peer Hsel Href).
    rewrite manager_sendMessage_cases. cbn [WebRTCManager.mgr WebRTCManager.app].
    assert (Hmsgs : SecureChatProvider.messages
                      (snd (SecureChatProvider.createSecureId (WebRTCManager.app w))) =
                    SecureChatProvider.messages (WebRTCManager.app w)).
    { unfold SecureChatProvider.createSecureId.
      now destruct (SecureChatProvider.secureIds (WebRTCManager.app w)). }
    subst own plaintext key.
    destruct (WebRTCManager.dataChannels (WebRTCManager.mgr w) !! Peer.id peer) as [dc|];
      [destruct (RTCDataChannel.isOpen dc);
       [destruct (EncryptionService.sharedKeys _ !! Peer.id peer) as [k|];
        [destruct (aesGcmEncrypt k iv _)|]|]|];
      cbn; rewrite ?Hmsgs; repeat split; try reflexivity.
    destruct w as [[me name es so pcs dcs pend sts di] a0]. cbn. apply lookup_insert_eq.
Qed.

End SendProperties.

(** C5 as stated fails on the flag: the selected peer is the object that
    was selected, and the later encryption-established callback updates the
    directory only; [sendMessage] goes through while the flag of the selected
    peer is still false. *)
Lemma sendMessage_flag_counterexample :
  SecureChatProvider.peers (WebRTCManager.app Demo.discovered) = [Demo.bob] /\
  Peer.encryptionEstablished <$>
    SecureChatProvider.selectedPeer (WebRTCManager.app Demo.keyed) = Some false /\
  result_of (SecureChatProvider.sendMessage Demo.iv12 "hello" Demo.keyed) = Ok tt.
Proof. vm_compute. auto. Qed.

Lemma sendMessage_outcomes_witness :
  let r := SecureChatProvider.sendMessage Demo.iv12 "hello" Demo.keyed in
  SecureChatProvider.messages (WebRTCManager.app (state_of r)) =
    [{| Message.id := "m1"; Message.content := "hello"; Message.sender := "alice";
        Message.senderName := "Alice"; Message.timestamp := 1000;
        Message.encrypted := true; Message.isOwn := true |}] /\
  result_of r = Ok tt /\
  WebRTCManager.dataChannels (WebRTCManager.mgr (state_of r)) !! "bob" =
    Some {| RTCDataChannel.readyState := DcOpen;
            RTCDataChannel.sent :=
              [key_exchange [Demo.dhPublic 5] "alice" true 1002;
               encrypted_message (Demo.dhDerive (Demo.dhPublic 7) 5 :: Demo.hello)
                 Demo.iv12 "alice"] |}.
Proof.
  pose proof (proj2 (sendMessage_outcomes Demo.keyed Demo.iv12 "hello") Demo.bob
                eq_refl eq_refl) as [Hlog Hout].
  split; [exact Hlog|]. exact Hout.
Defined.

(** ** The peer directory *)

Section DirectoryProperties.
Context {C : SubtleCrypto} {P : RTCPlatform} {J : MessageCodec}.

Lemma mapPeer_ids (peerId : string) (f : Peer.t -> Peer.t) (l : list Peer.t) :
  (forall p, Peer.id (f p) = Peer.id p) ->
  map Peer.id (SecureChatProvider.mapPeer peerId f l) = map Peer.id l.
Proof.
  intros Hf. unfold SecureChatProvider.mapPeer. rewrite map_map.
  apply map_ext. intros p. now destruct (SecureChatProvider.hasId peerId p).
Qed.



(** The provider's peer-disconnected callback logs at [info] and returns. *)
Lemma callbacks_PeerDisconnected {M : Type} (peerId : string) (m : M)
    (a : SecureChatProvider.t) :
  SecureChatProvider.callbacks (PeerDisconnected peerId) m a =
    (Ok tt,
     SecureChatProvider.setPeers (SecureChatProvider.mapPeer peerId (fun p =>
       {| Peer.id := Peer.id p; Peer.name := Peer.name p; Peer.online := false;
          Peer.connectionState := PcDisconnected;
          Peer.encryptionEstablished := false |})) a).
Proof.
  unfold SecureChatProvider.callbacks.
  erewrite bind_Ok by apply log_info. reflexivity.
Qed.

(** Its connection-state callback logs at [verbose], and throws there when
    the provider runs with [debug] at level [verbose]. *)
Lemma callbacks_PeerConnectionStateChanged {M : Type} (peerId : string)
    (state : RTCPeerConnectionState) (m : M) (a : SecureChatProvider.t) :
  SecureChatProvider.callbacks (PeerConnectionStateChanged peerId state) m a =
    if SecureChatProvider.debug a &&
       bool_decide (SecureChatProvider.logLevel a = SecureChatProvider.LogVerbose)
    then (Throw TypeError, a)
    else
      (Ok tt,
       SecureChatProvider.setPeers (SecureChatProvider.mapPeer peerId (fun p =>
         {| Peer.id := Peer.id p; Peer.name := Peer.name p; Peer.online := Peer.online p;
            Peer.connectionState := state;
            Peer.encryptionEstablished := Peer.encryptionEstablished p |})) a).
Proof.
  unfold SecureChatProvider.callbacks. unfold bind at 1. rewrite log_cases. cbn.
  now destruct (_ && _).
Qed.

Lemma provider_handlePeerDisconnected (peerId : string)
    (w : WebRTCManager.World SecureChatProvider.t) :
  WebRTCManager.handlePeerDisconnected SecureChatProvider.callbacks peerId w =
    (Ok tt,
     {| WebRTCManager.mgr := WebRTCManager.teardown peerId (WebRTCManager.mgr w);
        WebRTCManager.app :=
          SecureChatProvider.setPeers (SecureChatProvider.mapPeer peerId (fun p =>
            {| Peer.id := Peer.id p; Peer.name := Peer.name p; Peer.online := false;
               Peer.connectionState := PcDisconnected;
               Peer.encryptionEstablished := false |})) (WebRTCManager.app w) |}).
Proof.
  rewrite handlePeerDisconnected_run. cbv zeta.
  now rewrite callbacks_PeerDisconnected.
Qed.




End DirectoryProperties.



(** * Further properties of the code *)

(** ** EncryptionService: failures, rotation, cleanup *)

Section EncryptionServiceMore.
Context {C : SubtleCrypto}.

(** [establishSharedKey], case by case. *)
Lemma establishSharedKey_cases (es : EncryptionService.t) (peerId : string) (pk : bytes) :
  EncryptionService.establishSharedKey peerId pk es =
    match EncryptionService.keyPair es with
    | None => (Throw NotInitializedError, es)
    | Some kp =>
        if EncryptionService.hasSharedKey peerId es then (Ok tt, es)
        else
          match importKey pk with
          | None => (Throw KeyImportError, es)
          | Some pub =>
              (Ok tt,
               EncryptionService.set_sharedKeys
                 (insert peerId (deriveKey pub (EncryptionService.privateKey kp))) es)
          end
    end.
Proof.
  unfold EncryptionService.establishSharedKey, bind, gets, logAndRethrow, tryCatch.
  destruct (EncryptionService.keyPair es) as [kp|]; [|reflexivity].
  destruct (EncryptionService.hasSharedKey peerId es); [reflexivity|].
  now destruct (importKey pk).
Qed.

(** X1. [establishSharedKey] either throws -- the service is not
    initialized, or the peer's public key does not import -- and leaves the
    service exactly as it was, or returns with a key stored for the peer, the
    key pair and the keys of all other peers being untouched. *)
Theorem establishSharedKey_all_or_nothing
    (es : EncryptionService.t) (peerId : string) (pk : bytes) :
  match EncryptionService.establishSharedKey peerId pk es with
  | (Ok _, es') =>
      is_Some (EncryptionService.sharedKeys es' !! peerId) /\
      EncryptionService.keyPair es' = EncryptionService.keyPair es /\
      (forall other : string, other <> peerId ->
         EncryptionService.sharedKeys es' !! other = EncryptionService.sharedKeys es !! other)
  | (Throw e, es') =>
      es' = es /\
      ((e = NotInitializedError /\ EncryptionService.keyPair es = None) \/
       (e = KeyImportError /\ importKey pk = None))
  end.
Proof.
  rewrite establishSharedKey_cases.
  destruct (EncryptionService.keyPair es) as [kp|] eqn:Hkp; [|auto].
  destruct (EncryptionService.hasSharedKey peerId es) eqn:Hhas.
  - apply hasSharedKey_true in Hhas. auto.
  - destruct (importKey pk) as [pub|] eqn:Himp; [|auto].
    cbn. rewrite lookup_insert_eq. repeat split; eauto.
    intros other Hne. now apply lookup_insert_ne.
Qed.

(** X2. Rotation: after [rotateKey], the next [establishSharedKey] for the
    peer stores the key derived from the public key it is given, replacing
    what was stored; the other peers' keys stay. *)
Theorem rotateKey_then_establish
    (es : EncryptionService.t) (peerId : string) (pk : bytes)
    (kp : EncryptionService.CryptoKeyPair) (pub : PublicKey) :
  EncryptionService.keyPair es = Some kp ->
  importKey pk = Some pub ->
  let r := (EncryptionService.rotateKey peerId ;;
            EncryptionService.establishSharedKey peerId pk) es in
  result_of r = Ok tt /\
  EncryptionService.sharedKeys (state_of r) =
    <[peerId := deriveKey pub (EncryptionService.privateKey kp)]>
      (EncryptionService.sharedKeys es) /\
  EncryptionService.keyPair (state_of r) = Some kp.
Proof.
  intros Hkp Himp r. subst r.
  unfold EncryptionService.rotateKey, EncryptionService.removeSharedKey.
  erewrite bind_Ok by reflexivity.
  rewrite establishSharedKey_cases. destruct es as [kpo keys]. cbn in *. subst kpo.
  unfold EncryptionService.hasSharedKey. cbn.
  rewrite lookup_delete_eq. cbn. rewrite Himp. cbn.
  repeat split. apply insert_delete_eq.
Qed.

(** X3. After [cleanup] the service is as new: it holds no key for any
    peer, and every operation fails -- [getPublicKey] and
    [establishSharedKey] as not initialized, [encrypt] and [decrypt] for want
    of a key. *)
Theorem cleanup_forgets_everything
    (es : EncryptionService.t) (peerId : string) (pk iv data : bytes) :
  let es' := state_of (EncryptionService.cleanup es) in
  es' = EncryptionService.new /\
  EncryptionService.hasSharedKey peerId es' = false /\
  result_of (EncryptionService.getPublicKey es') = Throw NotInitializedError /\
  result_of (EncryptionService.establishSharedKey peerId pk es') = Throw NotInitializedError /\
  result_of (EncryptionService.encrypt iv data peerId es') = Throw (NoKeyError peerId) /\
  result_of (EncryptionService.decrypt data iv peerId es') = Throw (NoKeyError peerId).
Proof. cbv zeta. repeat split. Qed.

(** [removeSharedKey] takes the peer's key and nothing else. *)
Lemma removeSharedKey_eq (es : EncryptionService.t) (peerId : string) :
  EncryptionService.removeSharedKey peerId es =
    (Ok tt, EncryptionService.set_sharedKeys (delete peerId) es).
Proof. reflexivity. Qed.

(** X4. A service that holds a key holds a key pair: true of a new
    service, and kept by every method, whatever it is given and whether it
    returns or throws. *)
Theorem keysNeedPair_invariant :
  keysNeedPair EncryptionService.new /\
  (forall generated, preserves keysNeedPair (EncryptionService.initialize generated)) /\
  preserves keysNeedPair EncryptionService.getPublicKey /\
  (forall peerId pk, preserves keysNeedPair (EncryptionService.establishSharedKey peerId pk)) /\
  (forall iv m peerId, preserves keysNeedPair (EncryptionService.encrypt iv m peerId)) /\
  (forall c iv peerId, preserves keysNeedPair (EncryptionService.decrypt c iv peerId)) /\
  (forall peerId, preserves keysNeedPair (EncryptionService.removeSharedKey peerId)) /\
  (forall peerId, preserves keysNeedPair (EncryptionService.rotateKey peerId)) /\
  preserves keysNeedPair EncryptionService.cleanup.
Proof.
  assert (Hdel : forall peerId, preserves keysNeedPair (EncryptionService.removeSharedKey peerId)).
  { intros peerId es H [q Hq]. cbn in *. apply H. exists q.
    destruct (decide (peerId = q)) as [->|Hne].
    - rewrite lookup_delete_eq in Hq. now destruct Hq.
    - now rewrite lookup_delete_ne in Hq. }
  repeat apply conj.
  - intros [q Hq]. cbn in Hq. rewrite lookup_empty in Hq. now destruct Hq.
  - intros [kp|] es H; [intros _; cbn; eauto|exact H].
  - intros es H. unfold EncryptionService.getPublicKey, bind, gets.
    now destruct (EncryptionService.keyPair es).
  - intros peerId pk es H. rewrite establishSharedKey_cases.
    destruct (EncryptionService.keyPair es) as [kp|] eqn:Hkp; [|exact H].
    destruct (EncryptionService.hasSharedKey peerId es); [exact H|].
    destruct (importKey pk); [|exact H]. intros _. cbn. rewrite Hkp. eauto.
  - intros iv m peerId es H. unfold EncryptionService.encrypt, bind, gets, logAndRethrow, tryCatch.
    destruct (EncryptionService.sharedKeys es !! peerId) as [k|]; [|exact H].
    now destruct (aesGcmEncrypt k iv m).
  - intros c iv peerId es H. unfold EncryptionService.decrypt, bind, gets, logAndRethrow, tryCatch.
    destruct (EncryptionService.sharedKeys es !! peerId) as [k|]; [|exact H].
    now destruct (aesGcmDecrypt k iv c).
  - exact Hdel.
  - exact Hdel.
  - intros es H [q Hq]. cbn in Hq. rewrite lookup_empty in Hq. now destruct Hq.
Qed.

End EncryptionServiceMore.

Lemma rotateKey_then_establish_witness :
  let es := state_of (EncryptionService.establishSharedKey "bob" [Demo.dhPublic 7]
                        (Demo.service 5)) in
  let r := (EncryptionService.rotateKey "bob" ;;
            EncryptionService.establishSharedKey "bob" [Demo.dhPublic 9]) es in
  result_of r = Ok tt /\
  EncryptionService.sharedKeys (state_of r) =
    <["bob" := Demo.dhDerive (Demo.dhPublic 9) 5]> (EncryptionService.sharedKeys es) /\
  EncryptionService.keyPair (state_of r) = Some (Demo.keyPairOf 5).
Proof.
  exact (rotateKey_then_establish
           (state_of (EncryptionService.establishSharedKey "bob" [Demo.dhPublic 7]
                        (Demo.service 5)))
           "bob" [Demo.dhPublic 9] (Demo.keyPairOf 5) (Demo.dhPublic 9) eq_refl eq_refl).
Defined.

(** ** Invariants: how they pass through the monad *)

Section PreservesRules.
Context {S : Type} (I : S -> Prop).

Lemma preserves_ret {A} (a : A) : preserves I (ret a).
Proof. now intros s H. Qed.

Lemma preserves_throw {A} (e : Error) : preserves I (@throw S A e).
Proof. now intros s H. Qed.

Lemma preserves_gets {A} (f : S -> A) : preserves I (gets f).
Proof. now intros s H. Qed.

Lemma preserves_bind {A B} (m : Eff S A) (k : A -> Eff S B) :
  preserves I m -> (forall a, preserves I (k a)) -> preserves I (bind m k).
Proof.
  intros Hm Hk s H. specialize (Hm s H). unfold bind, state_of in *.
  destruct (m s) as [[a|e] s']; [now apply Hk | exact Hm].
Qed.

Lemma preserves_tryCatch {A} (body : Eff S A) (h : Error -> Eff S A) :
  preserves I body -> (forall e, preserves I (h e)) -> preserves I (tryCatch body h).
Proof.
  intros Hm Hh s H. specialize (Hm s H). unfold tryCatch, state_of in *.
  destruct (body s) as [[a|e] s']; [exact Hm | now apply Hh].
Qed.

Lemma preserves_logAndSwallow (body : Eff S unit) :
  preserves I body -> preserves I (logAndSwallow body).
Proof. intros H. apply preserves_tryCatch; [exact H|]. intros e. apply preserves_ret. Qed.

Lemma preserves_logAndRethrow {A} (body : Eff S A) :
  preserves I body -> preserves I (logAndRethrow body).
Proof. intros H. apply preserves_tryCatch; [exact H|]. intros e. apply preserves_throw. Qed.

Lemma preserves_modify (f : S -> S) :
  (forall s, I s -> I (f s)) -> preserves I (modify f).
Proof. intros Hf s H. now apply Hf. Qed.

End PreservesRules.

Lemma keeps_preserves {S A V} (v : S -> V) (m : Eff S A) :
  keeps v m <-> forall x : V, preserves (fun s => v s = x) m.
Proof.
  split.
  - intros H x s Hs. now rewrite H.
  - intros H s. now apply (H (v s)).
Qed.

Section ManagerRules.
Context {C : SubtleCrypto} {P : RTCPlatform} {J : MessageCodec}.
Context {App : Type} (cb : Event -> WebRTCManager.t -> Eff App unit).
Variable I : WebRTCManager.World App -> Prop.

Lemma preserves_forEach {A} (l : list A) (body : A -> Eff (WebRTCManager.World App) unit) :
  (forall x, preserves I (body x)) -> preserves I (WebRTCManager.forEach l body).
Proof.
  intros H. induction l as [|x l IH]; cbn.
  - apply preserves_ret.
  - apply preserves_bind; [apply H | intros _; exact IH].
Qed.

Lemma preserves_onMgr (f : WebRTCManager.t -> WebRTCManager.t) :
  (forall m a, I {| WebRTCManager.mgr := m; WebRTCManager.app := a |} ->
               I {| WebRTCManager.mgr := f m; WebRTCManager.app := a |}) ->
  preserves I (WebRTCManager.onMgr f).
Proof. intros H [m a] Hw. now apply H. Qed.

Lemma preserves_emit (e : Event) :
  (forall m a, I {| WebRTCManager.mgr := m; WebRTCManager.app := a |} ->
               I {| WebRTCManager.mgr := m; WebRTCManager.app := state_of (cb e m a) |}) ->
  preserves I (WebRTCManager.emit cb e).
Proof.
  intros H [m a] Hw. specialize (H m a Hw).
  unfold WebRTCManager.emit, state_of in *. cbn. now destruct (cb e m a).
Qed.

Lemma preserves_onPc {A} (peerId : string) (op : Eff RTCPeerConnection.t A) :
  (forall m a pc, I {| WebRTCManager.mgr := m; WebRTCManager.app := a |} ->
     I {| WebRTCManager.mgr := WebRTCManager.set_peerConnections (insert peerId pc) m;
          WebRTCManager.app := a |}) ->
  preserves I (WebRTCManager.onPc peerId op).
Proof.
  intros H [m a] Hw. unfold WebRTCManager.onPc, state_of. cbn.
  destruct (WebRTCManager.peerConnections m !! peerId) as [pc|]; [|exact Hw].
  destruct (op pc) as [r pc']. now apply H.
Qed.

Lemma preserves_onDc {A} (peerId : string) (op : Eff RTCDataChannel.t A) :
  (forall m a dc, I {| WebRTCManager.mgr := m; WebRTCManager.app := a |} ->
     I {| WebRTCManager.mgr := WebRTCManager.set_dataChannels (insert peerId dc) m;
          WebRTCManager.app := a |}) ->
  preserves I (WebRTCManager.onDc peerId op).
Proof.
  intros H [m a] Hw. unfold WebRTCManager.onDc, state_of. cbn.
  destruct (WebRTCManager.dataChannels m !! peerId) as [dc|]; [|exact Hw].
  destruct (op dc) as [r dc']. now apply H.
Qed.

Lemma preserves_liftES {A} (op : Eff EncryptionService.t A) :
  (forall m a es, I {| WebRTCManager.mgr := m; WebRTCManager.app := a |} ->
     es = state_of (op (WebRTCManager.encryptionService m)) ->
     I {| WebRTCManager.mgr := WebRTCManager.set_encryptionService (fun _ => es) m;
          WebRTCManager.app := a |}) ->
  preserves I (WebRTCManager.liftES op).
Proof.
  intros H [m a] Hw. unfold WebRTCManager.liftES, state_of. cbn.
  destruct (op (WebRTCManager.encryptionService m)) as [r es] eqn:E.
  apply H; [exact Hw|]. now rewrite E.
Qed.

End ManagerRules.

Lemma preserves_liftApp {C : SubtleCrypto} {A}
    (I : WebRTCManager.World SecureChatProvider.t -> Prop)
    (op : Eff SecureChatProvider.t A) :
  (forall m a, I {| WebRTCManager.mgr := m; WebRTCManager.app := a |} ->
               I {| WebRTCManager.mgr := m; WebRTCManager.app := state_of (op a) |}) ->
  preserves I (SecureChatProvider.liftApp op).
Proof.
  intros H [m a] Hw. specialize (H m a Hw).
  unfold SecureChatProvider.liftApp, state_of in *. cbn. now destruct (op a).
Qed.

(** The structure of a handler, taken apart down to the primitive steps;
    [known] closes the parts that have a lemma of their own. *)
Ltac preserves_structure known :=
  repeat first
    [ known
    | apply preserves_ret
    | apply preserves_throw
    | apply preserves_gets
    | apply preserves_bind; [|intros ?]
    | apply preserves_tryCatch; [|intros ?]
    | apply preserves_logAndSwallow
    | apply preserves_logAndRethrow
    | apply preserves_forEach; intros ?
    | match goal with
      | |- preserves _ (match ?x with _ => _ end) => destruct x
      end ].

(** The primitive steps that leave the component [I] looks at alone. *)
Ltac preserves_frame :=
  first
    [ apply preserves_onMgr; intros [? ? [? ?] ? ? ? ? ? ?] ? ?; assumption
    | apply preserves_emit; intros [? ? [? ?] ? ? ? ? ? ?] ? ?; assumption
    | apply preserves_onPc; intros [? ? [? ?] ? ? ? ? ? ?] ? ? ?; assumption
    | apply preserves_onDc; intros [? ? [? ?] ? ? ? ? ? ?] ? ? ?; assumption ].

Ltac unfold_handlers :=
  unfold EventLoop.handler,
    WebRTCManager.handleSignalingMessage, WebRTCManager.handleOffer,
    WebRTCManager.handleAnswer, WebRTCManager.connectToPeer,
    WebRTCManager.handleDataChannelMessage, WebRTCManager.handleKeyExchange,
    WebRTCManager.handleEncryptedMessage, WebRTCManager.performKeyExchange,
    WebRTCManager.sendMessage, WebRTCManager.sendTypingIndicator,
    WebRTCManager.onconnectionstatechange, WebRTCManager.ice_disconnected_timer,
    WebRTCManager.ondatachannel, WebRTCManager.setupDataChannel,
    WebRTCManager.channel_opens, WebRTCManager.channel_onclose,
    WebRTCManager.createPeerConnection, WebRTCManager.disconnectFromPeer,
    WebRTCManager.socket_onopen, WebRTCManager.socket_onclose, WebRTCManager.connect,
    WebRTCManager.startAutoDiscovery, WebRTCManager.sendDiscoveryPing,
    WebRTCManager.sendToSignalingServer, WebRTCManager.disconnect,
    WebRTCManager.handlePeerDisconnected, WebRTCManager.processPendingIceCandidates,
    SecureChatProvider.sendMessage, SecureChatProvider.selectPeer,
    SecureChatProvider.disconnectPeer, SecureChatProvider.sendTypingIndicator,
    SecureChatProvider.onApp.

(** The primitive steps of the provider's own methods. *)
Ltac preserves_app_frame :=
  first
    [ apply preserves_modify; intros [[? ? [? ?] ? ? ? ? ? ?] ?] ?; assumption
    | apply preserves_liftApp; intros [? ? [? ?] ? ? ? ? ? ?] ? ?; assumption
    | apply preserves_liftES; intros [? ? [? ?] ? ? ? ? ? ?] ? ? ? ?; assumption
    | match goal with
      | |- preserves _ (fun w => let '(_, _) := SecureChatProvider.createSecureId _ in _) =>
          intros [[? ? [? ?] ? ? ? ? ? ?] [? ? ? ? ? ? ? ? ? ? ? ? [|? ?] ?]] ?; assumption
      end ].

(** ** The candidate queues are never left empty *)

Section QueueInvariant.
Context {C : SubtleCrypto} {P : RTCPlatform} {J : MessageCodec}.

Lemma queue_delete {App} (peerId : string) :
  preserves (@noEmptyQueue C App)
    (WebRTCManager.onMgr (WebRTCManager.set_pendingIceCandidates (delete peerId))).
Proof.
  apply preserves_onMgr. intros m a H q. cbn.
  destruct (decide (peerId = q)) as [->|Hne].
  - now rewrite lookup_delete_eq.
  - rewrite lookup_delete_ne by assumption. apply (H q).
Qed.

Lemma queue_clear {App} :
  preserves (@noEmptyQueue C App)
    (WebRTCManager.onMgr (WebRTCManager.set_pendingIceCandidates (fun _ => ∅))).
Proof. apply preserves_onMgr. intros m a H q. cbn. now rewrite lookup_empty. Qed.

Lemma queue_handleIceCandidate {App} (senderId : string) (c : RTCIceCandidateInit) :
  preserves (@noEmptyQueue C App) (WebRTCManager.handleIceCandidate senderId c).
Proof. intros w H q. apply handleIceCandidate_no_empty_queue, H. Qed.

Ltac queue_tac :=
  unfold_handlers;
  preserves_structure
    ltac:(first [ preserves_frame | preserves_app_frame
                | apply queue_delete | apply queue_clear
                | apply queue_handleIceCandidate ]).

(** X5. No turn of the event loop leaves a peer with an empty candidate
    queue: from mount on, a queue entry exists only while candidates wait in
    it. *)
Theorem queues_never_empty
    (kp : EncryptionService.CryptoKeyPair) (nodeId username : string)
    (debug : bool) (logLevel : SecureChatProvider.LogLevel)
    (ids : list string) (now : N) (inputs : list EventLoop.Input) :
  noEmptyQueue
    (EventLoop.run inputs (EventLoop.start kp nodeId username debug logLevel ids now)).
Proof.
  assert (Hstep : forall i, preserves noEmptyQueue (EventLoop.handler i)).
  { intros i. destruct i; queue_tac. }
  unfold EventLoop.run.
  assert (H0 : noEmptyQueue (EventLoop.start kp nodeId username debug logLevel ids now)).
  { intros q. cbn. now rewrite lookup_empty. }
  revert H0. generalize (EventLoop.start kp nodeId username debug logLevel ids now).
  induction inputs as [|i inputs IH]; intros w Hw; [exact Hw|].
  cbn. apply IH. now apply Hstep.
Qed.

End QueueInvariant.

(** ** The key-exchange handlers, case by case *)

Section KeyExchangeCases.
Context {C : SubtleCrypto} {P : RTCPlatform} {J : MessageCodec}.
Context {App : Type} (cb : Event -> WebRTCManager.t -> App -> App).

Lemma handleKeyExchange_cases
    (w : WebRTCManager.World App) (now : N) (pk : bytes) (isResponse : bool)
    (peerId : string) :
  let m := WebRTCManager.mgr w in
  let es := WebRTCManager.encryptionService m in
  WebRTCManager.handleKeyExchange (WebRTCManager.returning cb) now pk isResponse peerId w =
    if EncryptionService.hasSharedKey peerId es then
      (Ok tt, {| WebRTCManager.mgr := m;
                 WebRTCManager.app := cb (EncryptionEstablished peerId) m (WebRTCManager.app w) |})
    else
      match EncryptionService.keyPair es, importKey pk with
      | Some kp, Some pub =>
          let m1 :=
            WebRTCManager.set_encryptionService
              (EncryptionService.set_sharedKeys
                 (insert peerId (deriveKey pub (EncryptionService.privateKey kp)))) m in
          let m2 :=
            match WebRTCManager.dataChannels m !! peerId with
            | Some dc =>
                if RTCDataChannel.isOpen dc && negb isResponse then
                  WebRTCManager.set_dataChannels
                    (insert peerId
                       {| RTCDataChannel.readyState := DcOpen;
                          RTCDataChannel.sent :=
                            RTCDataChannel.sent dc ++
                            [Network.kxFrame (WebRTCManager.nodeId m) kp true now] |}) m1
                else m1
            | None => m1
            end in
          (Ok tt, {| WebRTCManager.mgr := m2;
                     WebRTCManager.app :=
                       cb (EncryptionEstablished peerId) m2 (WebRTCManager.app w) |})
      | _, _ => (Ok tt, w)
      end.
Proof.
  destruct w as [[me name [kpo keys] so pcs dcs pend sts di] a]. cbn.
  unfold WebRTCManager.handleKeyExchange, WebRTCManager.channelIsOpen,
    EncryptionService.getPublicKey, EncryptionService.establishSharedKey,
    EncryptionService.hasSharedKey.
  eff_unfold. mgr_unfold. cbn.
  destruct (keys !! peerId) as [k|] eqn:Hkey; cbn; [reflexivity|].
  destruct kpo as [kp|]; cbn; [|reflexivity].
  unfold EncryptionService.hasSharedKey. cbn. rewrite Hkey. cbn.
  destruct (importKey pk) as [pub|]; cbn; [|reflexivity].
  destruct (dcs !! peerId) as [[st l]|] eqn:Hdc; cbn; [|reflexivity].
  unfold RTCDataChannel.isOpen. cbn.
  destruct st; try reflexivity.
  rewrite !(bool_decide_eq_true_2 (DcOpen = DcOpen) eq_refl).
  destruct isResponse; cbn; [reflexivity|].
  rewrite Hdc. reflexivity.
Qed.

Lemma performKeyExchange_cases
    (w : WebRTCManager.World App) (now : N) (peerId : string) :
  let m := WebRTCManager.mgr w in
  let es := WebRTCManager.encryptionService m in
  WebRTCManager.performKeyExchange (WebRTCManager.returning cb) now peerId w =
    match WebRTCManager.dataChannels m !! peerId with
    | Some dc =>
        if RTCDataChannel.isOpen dc then
          if EncryptionService.hasSharedKey peerId es then
            (Ok tt, {| WebRTCManager.mgr := m;
                       WebRTCManager.app :=
                         cb (EncryptionEstablished peerId) m (WebRTCManager.app w) |})
          else
            match EncryptionService.keyPair es with
            | Some kp =>
                (Ok tt,
                 {| WebRTCManager.mgr :=
                      WebRTCManager.set_dataChannels
                        (insert peerId
                           {| RTCDataChannel.readyState := DcOpen;
                              RTCDataChannel.sent :=
                                RTCDataChannel.sent dc ++
                                [Network.kxFrame (WebRTCManager.nodeId m) kp false now] |}) m;
                    WebRTCManager.app := WebRTCManager.app w |})
            | None => (Ok tt, w)
            end
        else (Ok tt, w)
    | None => (Ok tt, w)
    end.
Proof.
  destruct w as [[me name [kpo keys] so pcs dcs pend sts di] a]. cbn.
  unfold WebRTCManager.performKeyExchange, WebRTCManager.channelIsOpen,
    EncryptionService.getPublicKey.
  eff_unfold. mgr_unfold. cbn.
  destruct (dcs !! peerId) as [[st l]|] eqn:Hdc; cbn; [|reflexivity].
  unfold RTCDataChannel.isOpen. cbn.
  destruct st; try reflexivity.
  rewrite !(bool_decide_eq_true_2 (DcOpen = DcOpen) eq_refl). cbn.
  unfold EncryptionService.hasSharedKey. cbn.
  destruct (keys !! peerId) as [k|]; cbn; [reflexivity|].
  destruct kpo as [kp|]; cbn; [|reflexivity].
  rewrite Hdc. reflexivity.
Qed.

(** X6. A key-exchange frame that cannot be used -- its public key does
    not import, or the local service has no key pair -- is dropped: no key is
    stored, nothing is sent, no callback runs, and the handler returns
    normally. *)
Theorem handleKeyExchange_rejects_bad_key
    (w : WebRTCManager.World App) (now : N) (pk : bytes) (isResponse : bool)
    (peerId : string) :
  EncryptionService.sharedKeys
    (WebRTCManager.encryptionService (WebRTCManager.mgr w)) !! peerId = None ->
  importKey pk = None \/
  EncryptionService.keyPair (WebRTCManager.encryptionService (WebRTCManager.mgr w)) = None ->
  WebRTCManager.handleKeyExchange
      (WebRTCManager.returning cb) now pk isResponse peerId w = (Ok tt, w).
Proof.
  intros Hkey Hbad. rewrite handleKeyExchange_cases. cbv zeta.
  apply hasSharedKey_false in Hkey. rewrite Hkey.
  destruct (EncryptionService.keyPair _) as [kp|]; [|reflexivity].
  destruct Hbad as [-> | [=]]. reflexivity.
Qed.

(** X7. The handshake cannot loop: handling a key-exchange frame sends at
    most one frame, on the channel of the sender only, and that frame is
    marked as a response; a frame that is itself a response is never
    answered. *)
Theorem handleKeyExchange_answers_once
    (w : WebRTCManager.World App) (now : N) (pk : bytes) (isResponse : bool)
    (peerId : string) :
  let w' := state_of (WebRTCManager.handleKeyExchange
      (WebRTCManager.returning cb) now pk isResponse peerId w) in
  let before := WebRTCManager.dataChannels (WebRTCManager.mgr w) in
  let after := WebRTCManager.dataChannels (WebRTCManager.mgr w') in
  (forall other : string, other <> peerId -> after !! other = before !! other) /\
  (after !! peerId = before !! peerId \/
   exists (dc : RTCDataChannel.t) (key : bytes) (t : N),
     isResponse = false /\
     before !! peerId = Some dc /\
     after !! peerId =
       Some {| RTCDataChannel.readyState := DcOpen;
               RTCDataChannel.sent :=
                 RTCDataChannel.sent dc ++
                 [key_exchange key (WebRTCManager.nodeId (WebRTCManager.mgr w)) true t] |}).
Proof.
  cbv zeta. rewrite handleKeyExchange_cases. cbv zeta.
  destruct (EncryptionService.hasSharedKey peerId _); [cbn; auto|].
  destruct (EncryptionService.keyPair _) as [kp|]; [|cbn; auto].
  destruct (importKey pk) as [pub|]; [|cbn; auto].
  destruct (WebRTCManager.dataChannels (WebRTCManager.mgr w) !! peerId) as [dc|] eqn:Hdc;
    [|cbn; rewrite Hdc; auto].
  destruct (RTCDataChannel.isOpen dc), isResponse; cbn; rewrite ?Hdc; auto.
  split.
  - intros other Hne. now apply lookup_insert_ne.
  - right. exists dc, (exportKey (EncryptionService.publicKey kp)), now.
    rewrite lookup_insert_eq. auto.
Qed.

End KeyExchangeCases.

Lemma handleKeyExchange_rejects_bad_key_witness :
  let w := Demo.node "alice" 5 "bob" in
  WebRTCManager.handleKeyExchange Network.recorder 10 [] false "bob" w = (Ok tt, w).
Proof.
  apply (handleKeyExchange_rejects_bad_key Network.record
           (Demo.node "alice" 5 "bob") 10 [] false "bob").
  - reflexivity.
  - left. reflexivity.
Defined.

(** ** The directory of the provider *)

Lemma hasId_true (peerId : string) (p : Peer.t) :
  SecureChatProvider.hasId peerId p = true <-> Peer.id p = peerId.
Proof. unfold SecureChatProvider.hasId. apply bool_decide_eq_true. Qed.

Lemma createSecureId_peers (a : SecureChatProvider.t) :
  SecureChatProvider.peers (snd (SecureChatProvider.createSecureId a)) =
    SecureChatProvider.peers a.
Proof.
  unfold SecureChatProvider.createSecureId.
  now destruct (SecureChatProvider.secureIds a).
Qed.

Lemma log_state (level : SecureChatProvider.LogLevel) (a : SecureChatProvider.t) :
  state_of (SecureChatProvider.log level a) = a.
Proof. now rewrite log_cases. Qed.

(** What a callback does to the peer directory, whether it returns or
    throws: the ids, in order. *)
Lemma callbacks_ids {M : Type} (e : Event) (m : M) (a : SecureChatProvider.t) :
  map Peer.id (SecureChatProvider.peers (state_of (SecureChatProvider.callbacks e m a))) =
    match e with
    | PeerDiscovered peerId _ =>
        if existsb (SecureChatProvider.hasId peerId) (SecureChatProvider.peers a)
        then map Peer.id (SecureChatProvider.peers a)
        else map Peer.id (SecureChatProvider.peers a) ++ [peerId]
    | _ => map Peer.id (SecureChatProvider.peers a)
    end.
Proof.
  destruct e;
    [ unfold SecureChatProvider.callbacks;
      try rewrite (bind_Ok _ _ a a tt (log_info a));
      unfold state_of, modify;
      cbn [snd SecureChatProvider.peers SecureChatProvider.setPeers
           SecureChatProvider.setConnectionStatus];
      try reflexivity; try (now apply mapPeer_ids) ..
    | rewrite callbacks_PeerConnectionStateChanged;
      destruct (_ && _); [reflexivity|]; now apply mapPeer_ids ].
  - destruct (existsb _ _); [now apply mapPeer_ids|].
    now rewrite map_app.
  - destruct (SecureChatProvider.createSecureId a) as [i a1] eqn:E. cbn.
    change a1 with (snd (i, a1)). rewrite <- E. now rewrite createSecureId_peers.
  - unfold bind, gets.
    destruct (SecureChatProvider.effectSelectedPeer a) as [p|]; [|reflexivity].
    now destruct (SecureChatProvider.hasId peerId p).
Qed.

Lemma callbacks_distinct {M : Type} (e : Event) (m : M) (a : SecureChatProvider.t) :
  distinctIds a -> distinctIds (state_of (SecureChatProvider.callbacks e m a)).
Proof.
  unfold distinctIds. intros H. rewrite callbacks_ids.
  destruct e; try exact H.
  destruct (existsb _ _) eqn:E; [exact H|].
  apply NoDup_app. split; [exact H|]. split; [|apply NoDup_singleton].
  intros x Hx Hx'. apply list_elem_of_singleton in Hx'. subst x.
  apply list_elem_of_In, in_map_iff in Hx as (q & Hq & Hin).
  assert (existsb (SecureChatProvider.hasId peerId) (SecureChatProvider.peers a) = true).
  { apply existsb_exists. exists q. split; [exact Hin|]. now apply hasId_true. }
  congruence.
Qed.

Lemma mapPeer_elem_inv (peerId : string) (f : Peer.t -> Peer.t) (l : list Peer.t) (q : Peer.t) :
  q ∈ SecureChatProvider.mapPeer peerId f l ->
  exists q0, q0 ∈ l /\
    ((SecureChatProvider.hasId peerId q0 = true /\ q = f q0) \/
     (SecureChatProvider.hasId peerId q0 = false /\ q = q0)).
Proof.
  intros Hin. unfold SecureChatProvider.mapPeer in Hin.
  apply list_elem_of_In, in_map_iff in Hin as (q0 & Hq & Hin).
  exists q0. split; [now apply list_elem_of_In|].
  destruct (SecureChatProvider.hasId peerId q0); auto.
Qed.

(** X8. The encryption flag of the directory has one source. A peer that
    the directory shows as encrypted after a callback of the provider was
    shown as encrypted before it, under the same id, unless the callback is
    the encryption-established callback for that very id: discovery adds a
    peer without the flag, and no other callback raises one, whether it
    returns or throws. *)
Theorem encryption_flag_has_one_source {M : Type}
    (e : Event) (m : M) (a : SecureChatProvider.t) (q : Peer.t) :
  q ∈ SecureChatProvider.peers (state_of (SecureChatProvider.callbacks e m a)) ->
  Peer.encryptionEstablished q = true ->
  (exists q0, q0 ∈ SecureChatProvider.peers a /\ Peer.id q0 = Peer.id q /\
              Peer.encryptionEstablished q0 = true) \/
  e = EncryptionEstablished (Peer.id q).
Proof.
  intros Hin Hflag.
  destruct e;
    [ unfold SecureChatProvider.callbacks in Hin;
      try rewrite (bind_Ok _ _ a a tt (log_info a)) in Hin;
      unfold state_of, modify in Hin;
      cbn [snd SecureChatProvider.peers SecureChatProvider.setPeers
           SecureChatProvider.setConnectionStatus] in Hin ..
    | rewrite callbacks_PeerConnectionStateChanged in Hin ].
  - destruct (existsb _ _).
    + apply mapPeer_elem_inv in Hin as (q0 & Hq0 & [[_ ->]|[_ ->]]); left; exists q0; auto.
    + apply elem_of_app in Hin as [Hin|Hin]; [left; now exists q|].
      apply list_elem_of_singleton in Hin. subst q. discriminate.
  - apply mapPeer_elem_inv in Hin as (q0 & Hq0 & [[_ ->]|[_ ->]]); [discriminate|].
    left. now exists q0.
  - destruct (SecureChatProvider.createSecureId a) as [i a1] eqn:E. cbn in Hin.
    change a1 with (snd (i, a1)) in Hin. rewrite <- E, createSecureId_peers in Hin.
    left. now exists q.
  - left. now exists q.
  - apply mapPeer_elem_inv in Hin as (q0 & Hq0 & [[Hid ->]|[_ ->]]).
    + right. cbn. apply hasId_true in Hid. now rewrite Hid.
    + left. now exists q0.
  - left. now exists q.
  - unfold bind, gets in Hin.
    destruct (SecureChatProvider.effectSelectedPeer a) as [p|]; [|left; now exists q].
    destruct (SecureChatProvider.hasId peerId p); left; now exists q.
  - left. now exists q.
  - destruct (_ && _); [left; now exists q|]. unfold state_of in Hin. cbn in Hin.
    apply mapPeer_elem_inv in Hin as (q0 & Hq0 & [[_ ->]|[_ ->]]); left; exists q0; auto.
Qed.

Lemma encryption_flag_has_one_source_witness :
  let a := WebRTCManager.app Demo.opened in
  let q := {| Peer.id := "bob"; Peer.name := "Bob"; Peer.online := true;
              Peer.connectionState := PcDisconnected;
              Peer.encryptionEstablished := true |} in
  SecureChatProvider.peers
    (state_of (SecureChatProvider.callbacks (EncryptionEstablished "bob") tt a)) = [q] /\
  ((exists q0, q0 ∈ SecureChatProvider.peers a /\ Peer.id q0 = "bob" /\
               Peer.encryptionEstablished q0 = true) \/
   EncryptionEstablished "bob" = EncryptionEstablished "bob").
Proof.
  intros a q. split; [reflexivity|].
  apply (encryption_flag_has_one_source (EncryptionEstablished "bob") tt a q).
  - vm_compute. left.
  - reflexivity.
Defined.

Section ProviderInvariants.
Context {C : SubtleCrypto} {P : RTCPlatform} {J : MessageCodec}.

Ltac app_leaf inv :=
  first
    [ apply preserves_modify;
      intros [[? ? [? ?] ? ? ? ? ? ?] [? ? ? ? ? ? ? ? ? ? ? ? ? ?]] ?; assumption
    | apply preserves_liftApp; intros ? ? ?;
      cbn [WebRTCManager.app] in *; rewrite log_state; assumption
    | match goal with
      | |- preserves _ (fun w => let '(_, _) := SecureChatProvider.createSecureId _ in _) =>
          intros [[? ? [? ?] ? ? ? ? ? ?] [? ? ? ? ? ? ? ? ? ? ? ? [|? ?] ?]] ?; assumption
      end ].

(** *** One entry per peer id *)

Lemma distinct_filter (peerId : string) :
  preserves (fun w : WebRTCManager.World SecureChatProvider.t =>
               distinctIds (WebRTCManager.app w))
    (modify (fun w : WebRTCManager.World SecureChatProvider.t =>
       {| WebRTCManager.mgr := WebRTCManager.mgr w;
          WebRTCManager.app :=
            SecureChatProvider.setPeers (filter (fun p => Peer.id p ≠ peerId))
              (WebRTCManager.app w) |})).
Proof.
  apply preserves_modify. intros [m a] H. unfold distinctIds in *. cbn in *.
  induction (SecureChatProvider.peers a) as [|p l IH]; [exact H|].
  cbn in H. apply NoDup_cons in H as [Hp Hl].
  rewrite filter_cons. case_decide; [|now apply IH].
  cbn. apply NoDup_cons. split; [|now apply IH].
  intros Hin. apply Hp.
  apply list_elem_of_In, in_map_iff in Hin as (q & Hq & Hin).
  apply list_elem_of_In, in_map_iff. exists q. split; [exact Hq|].
  apply list_elem_of_In. apply list_elem_of_In in Hin.
  now apply list_elem_of_filter in Hin as [_ ?].
Qed.

Ltac distinct_emit_leaf :=
  apply preserves_emit; intros ? ? ?; apply callbacks_distinct; assumption.

Lemma distinct_step (i : EventLoop.Input) :
  preserves (fun w : WebRTCManager.World SecureChatProvider.t =>
               distinctIds (WebRTCManager.app w))
    (EventLoop.handler i).
Proof.
  destruct i; unfold_handlers;
    preserves_structure
      ltac:(first [ apply distinct_filter | distinct_emit_leaf | preserves_frame
                  | apply preserves_liftES; intros [? ? [? ?] ? ? ? ? ? ?] ? ? ? ?; assumption
                  | app_leaf distinctIds ]).
Qed.

(** X9. The directory never lists a peer id twice, however often the peer
    is discovered again: true at mount and after every turn of the event
    loop. *)
Theorem directory_ids_distinct
    (kp : EncryptionService.CryptoKeyPair) (nodeId username : string)
    (debug : bool) (logLevel : SecureChatProvider.LogLevel)
    (ids : list string) (now : N) (inputs : list EventLoop.Input) :
  NoDup (map Peer.id
           (SecureChatProvider.peers
              (WebRTCManager.app
                 (EventLoop.run inputs
                    (EventLoop.start kp nodeId username debug logLevel ids now))))).
Proof.
  unfold EventLoop.run.
  assert (H0 : distinctIds
                 (WebRTCManager.app
                    (EventLoop.start kp nodeId username debug logLevel ids now))).
  { apply NoDup_nil_2. }
  revert H0. generalize (EventLoop.start kp nodeId username debug logLevel ids now).
  induction inputs as [|i inputs IH]; intros w Hw; [exact Hw|].
  cbn. apply IH. now apply (distinct_step i w).
Qed.

End ProviderInvariants.

(** ** WebRTCManager: what the handlers do at the edges *)

Lemma logAndSwallow_Ok {S} (body : Eff S unit) (s : S) :
  result_of (logAndSwallow body s) = Ok tt.
Proof.
  unfold logAndSwallow, tryCatch, result_of.
  now destruct (body s) as [[[]|e] s'].
Qed.

Section EdgeProperties.
Context {C : SubtleCrypto} {P : RTCPlatform} {J : MessageCodec}.
Context {App : Type} (cb : Event -> WebRTCManager.t -> App -> App).

Lemma preserves_liftES_readonly {A} (I : WebRTCManager.World App -> Prop)
    (op : Eff EncryptionService.t A) :
  (forall es, state_of (op es) = es) -> preserves I (WebRTCManager.liftES op).
Proof.
  intros Hro [[me name es so pcs dcs pend sts di] a] H.
  unfold WebRTCManager.liftES, state_of. cbn.
  specialize (Hro es). unfold state_of in Hro.
  destruct (op es) as [r es']. cbn in *. now subst es'.
Qed.

Lemma decrypt_readonly (c iv : bytes) (peerId : string) (es : EncryptionService.t) :
  state_of (EncryptionService.decrypt c iv peerId es) = es.
Proof.
  unfold EncryptionService.decrypt, bind, gets, logAndRethrow, tryCatch.
  destruct (EncryptionService.sharedKeys es !! peerId) as [k|]; [|reflexivity].
  now destruct (aesGcmDecrypt k iv c).
Qed.

(** X10. The handler of the channel's messages never throws, whatever
    arrives and whatever the callbacks do; and a frame that is not a key
    exchange -- an encrypted message, readable or not, a typing indicator, an
    unknown or unparsable frame -- leaves the manager as it was: at most a
    callback runs. *)
Theorem handleDataChannelMessage_never_throws
    (run : Event -> WebRTCManager.t -> Eff App unit)
    (w : WebRTCManager.World App) (now : N) (data : option Frame) (peerId : string) :
  let r := WebRTCManager.handleDataChannelMessage run now data peerId w in
  result_of r = Ok tt /\
  ((forall pk sender isResponse t, data <> Some (key_exchange pk sender isResponse t)) ->
   WebRTCManager.mgr (state_of r) = WebRTCManager.mgr w).
Proof.
  cbv zeta. split; [apply logAndSwallow_Ok|].
  intros Hnot.
  assert (Hk : preserves (fun s : WebRTCManager.World App =>
                            WebRTCManager.mgr s = WebRTCManager.mgr w)
                 (WebRTCManager.handleDataChannelMessage run now data peerId)).
  { destruct data as [[pk sender isResponse t| | |]|];
      [now destruct (Hnot pk sender isResponse t)| | | |];
      unfold WebRTCManager.handleDataChannelMessage, WebRTCManager.handleEncryptedMessage;
      preserves_structure
        ltac:(first [ apply preserves_liftES_readonly; apply decrypt_readonly
                    | apply preserves_emit; intros ? ? ?; assumption ]). }
  now apply Hk.
Qed.

(** [handlePeerDisconnected] does not see a connection or a channel that
    was stored for the peer just before. *)
Lemma teardown_insert_pc (peerId : string) (pc : RTCPeerConnection.t) (m : WebRTCManager.t) :
  WebRTCManager.teardown peerId
    (WebRTCManager.set_peerConnections (insert peerId pc) m) =
  WebRTCManager.teardown peerId m.
Proof.
  destruct m. unfold WebRTCManager.teardown. cbn. now rewrite delete_insert_eq.
Qed.

Lemma teardown_insert_dc (peerId : string) (dc : RTCDataChannel.t) (m : WebRTCManager.t) :
  WebRTCManager.teardown peerId
    (WebRTCManager.set_dataChannels (insert peerId dc) m) =
  WebRTCManager.teardown peerId m.
Proof.
  destruct m. unfold WebRTCManager.teardown. cbn. now rewrite delete_insert_eq.
Qed.

(** X11. A negotiation step the platform rejects ends as a teardown of the
    peer: [handleOffer] on an offer that does not parse, [handleAnswer] on an
    answer that does not parse, and [connectToPeer] when no offer can be
    created all return normally and leave exactly what
    [handlePeerDisconnected] leaves -- the peer gone from every structure,
    the peer-disconnected callback run. *)
Theorem rejected_negotiation_is_teardown
    (w : WebRTCManager.World App) (peerId : string) :
  (forall created o,
     descriptionOk o = false ->
     WebRTCManager.handleOffer (WebRTCManager.returning cb) created peerId o w =
       WebRTCManager.handlePeerDisconnected (WebRTCManager.returning cb) peerId w) /\
  (forall pc a,
     WebRTCManager.peerConnections (WebRTCManager.mgr w) !! peerId = Some pc ->
     RTCPeerConnection.signalingState pc = HaveLocalOffer ->
     descriptionOk a = false ->
     WebRTCManager.handleAnswer (WebRTCManager.returning cb) peerId a w =
       WebRTCManager.handlePeerDisconnected (WebRTCManager.returning cb) peerId w) /\
  ((forall pc,
      WebRTCManager.peerConnections (WebRTCManager.mgr w) !! peerId = Some pc ->
      RTCPeerConnection.connectionState pc <> PcConnected) ->
   WebRTCManager.connectToPeer (WebRTCManager.returning cb) None peerId w =
     WebRTCManager.handlePeerDisconnected (WebRTCManager.returning cb) peerId w).
Proof.
  split; [|split].
  - intros created o Hbad. unfold WebRTCManager.handleOffer.
    erewrite tryCatch_Throw; cycle 1.
    { unfold WebRTCManager.createPeerConnection.
      erewrite bind_Ok by reflexivity.
      erewrite bind_Ok by reflexivity.
      eapply bind_Throw. unfold WebRTCManager.onPc. cbn.
      rewrite lookup_insert_eq.
      unfold RTCPeerConnection.setRemoteDescription. rewrite Hbad. reflexivity. }
    rewrite !handlePeerDisconnected_eq. cbn.
    now rewrite !teardown_insert_pc.
  - intros pc a Hpc Hsig Hbad. unfold WebRTCManager.handleAnswer.
    erewrite tryCatch_Throw; cycle 1.
    { unfold bind at 1, gets at 1. rewrite Hpc.
      rewrite bool_decide_eq_true_2 by exact Hsig.
      eapply bind_Throw. unfold WebRTCManager.onPc. rewrite Hpc.
      unfold RTCPeerConnection.setRemoteDescription. rewrite Hbad. reflexivity. }
    rewrite !handlePeerDisconnected_eq. cbn.
    now rewrite !teardown_insert_pc.
  - intros Hnot. unfold WebRTCManager.connectToPeer.
    unfold bind at 1, gets at 1.
    assert (Hbody :
      tryCatch
        (peerConnection <- WebRTCManager.createPeerConnection peerId ;;
         WebRTCManager.onMgr (WebRTCManager.set_peerConnections (insert peerId peerConnection)) ;;
         WebRTCManager.setupDataChannel RTCDataChannel.new peerId ;;
         throw NegotiationError)
        (fun _ => WebRTCManager.handlePeerDisconnected (WebRTCManager.returning cb) peerId) w =
      WebRTCManager.handlePeerDisconnected (WebRTCManager.returning cb) peerId w).
    { erewrite tryCatch_Throw by reflexivity.
      rewrite !handlePeerDisconnected_eq. cbn.
      now rewrite teardown_insert_dc, teardown_insert_pc. }
    destruct (WebRTCManager.peerConnections (WebRTCManager.mgr w) !! peerId)
      as [[[] ? ? ? ? ?]|] eqn:Hpc; try exact Hbody.
    now destruct (Hnot _ eq_refl).
Qed.

(** X12. Calls that come at the wrong moment change nothing:
    [connectToPeer] for a peer whose connection is connected, and
    [handleAnswer] for a peer without a connection or whose connection is not
    waiting for an answer (a second answer, say). *)
Theorem untimely_calls_are_ignored
    (w : WebRTCManager.World App) (peerId : string) :
  (forall created pc,
     WebRTCManager.peerConnections (WebRTCManager.mgr w) !! peerId = Some pc ->
     RTCPeerConnection.connectionState pc = PcConnected ->
     WebRTCManager.connectToPeer (WebRTCManager.returning cb) created peerId w = (Ok tt, w)) /\
  (forall a,
     (forall pc,
        WebRTCManager.peerConnections (WebRTCManager.mgr w) !! peerId = Some pc ->
        RTCPeerConnection.signalingState pc <> HaveLocalOffer) ->
     WebRTCManager.handleAnswer (WebRTCManager.returning cb) peerId a w = (Ok tt, w)).
Proof.
  split.
  - intros created [st ? ? ? ? ?] Hpc Hst. cbn in Hst. subst st.
    unfold WebRTCManager.connectToPeer. unfold bind at 1, gets at 1.
    now rewrite Hpc.
  - intros a Hnot. unfold WebRTCManager.handleAnswer.
    apply tryCatch_Ok. unfold bind at 1, gets at 1.
    destruct (WebRTCManager.peerConnections (WebRTCManager.mgr w) !! peerId)
      as [pc|] eqn:Hpc; [|reflexivity].
    rewrite bool_decide_eq_false_2; [reflexivity|]. now apply Hnot.
Qed.

(** After the remote description, a candidate is handed to the connection
    at once. *)
Lemma handleIceCandidate_immediate
    (w : WebRTCManager.World App) (peerId : string) (pc : RTCPeerConnection.t)
    (c : RTCIceCandidateInit) :
  WebRTCManager.peerConnections (WebRTCManager.mgr w) !! peerId = Some pc ->
  is_Some (RTCPeerConnection.remoteDescription pc) ->
  WebRTCManager.handleIceCandidate peerId c w =
    (Ok tt,
     {| WebRTCManager.mgr :=
          WebRTCManager.set_peerConnections
            (insert peerId (RTCPeerConnection.afterCandidates [c] pc))
            (WebRTCManager.mgr w);
        WebRTCManager.app := WebRTCManager.app w |}).
Proof.
  intros Hpc [d Hrd].
  unfold WebRTCManager.handleIceCandidate, logAndSwallow, tryCatch.
  unfold bind at 1, gets at 1. rewrite Hpc, Hrd.
  unfold WebRTCManager.onPc. rewrite Hpc.
  unfold RTCPeerConnection.addIceCandidate, RTCPeerConnection.afterCandidates.
  rewrite Hrd. cbn. now destruct (candidateOk c).
Qed.

(** X13. Once the remote description is in place, candidates bypass the
    queue: each one is handed to [addIceCandidate] on arrival, in arrival
    order, whether the platform takes it or not, and no queue entry is
    created. *)
Theorem late_candidates_applied_on_arrival
    (cs : list RTCIceCandidateInit) (w : WebRTCManager.World App) (peerId : string)
    (pc : RTCPeerConnection.t) :
  WebRTCManager.peerConnections (WebRTCManager.mgr w) !! peerId = Some pc ->
  is_Some (RTCPeerConnection.remoteDescription pc) ->
  let r := WebRTCManager.forEach cs (WebRTCManager.handleIceCandidate peerId) w in
  result_of r = Ok tt /\
  WebRTCManager.peerConnections (WebRTCManager.mgr (state_of r)) !! peerId =
    Some (RTCPeerConnection.afterCandidates cs pc) /\
  WebRTCManager.pendingIceCandidates (WebRTCManager.mgr (state_of r)) =
    WebRTCManager.pendingIceCandidates (WebRTCManager.mgr w).
Proof.
  revert w pc. induction cs as [|c cs IH]; intros w pc Hpc Hrd; cbv zeta.
  - cbn. split; [reflexivity|]. split; [|reflexivity].
    rewrite Hpc. f_equal. unfold RTCPeerConnection.afterCandidates. cbn.
    rewrite app_nil_r. now destruct pc.
  - cbn [WebRTCManager.forEach].
    rewrite (bind_Ok _ _ _ _ _ (handleIceCandidate_immediate w peerId pc c Hpc Hrd)).
    set (w1 := {| WebRTCManager.mgr := _; WebRTCManager.app := _ |}).
    destruct (IH w1 (RTCPeerConnection.afterCandidates [c] pc)) as (Hr & Hpcs & Hq).
    { subst w1. cbn. apply lookup_insert_eq. }
    { exact Hrd. }
    split; [exact Hr|]. split.
    + rewrite Hpcs. f_equal. unfold RTCPeerConnection.afterCandidates. cbn.
      now rewrite <- app_assoc.
    + rewrite Hq. subst w1. now destruct w as [[]].
Qed.

(** [sendToSignalingServer] without an open socket: nothing happens. *)
Lemma sendToSignalingServer_closed (w : WebRTCManager.World App) (message : Outbound) :
  WebRTCManager.socketIsOpen w = false ->
  WebRTCManager.sendToSignalingServer message w = (Ok tt, w).
Proof.
  destruct w as [[me name es so pcs dcs pend sts di] a].
  unfold WebRTCManager.socketIsOpen, WebRTCManager.sendToSignalingServer. cbn.
  intros H. eff_unfold. mgr_unfold. cbn.
  destruct so as [[st sent]|]; [|reflexivity].
  destruct st; try reflexivity. cbn in H. discriminate.
Qed.

(** X14. While the relay socket is missing or not open, [connectToPeer]
    still sets the session up locally -- a connection holding the local offer,
    a channel -- and returns normally, but the offer goes nowhere: nothing is
    sent, no callback runs, the peer is not torn down. *)
Theorem connectToPeer_without_relay
    (w : WebRTCManager.World App) (peerId : string) (o : RTCSessionDescriptionInit) :
  WebRTCManager.socketIsOpen w = false ->
  WebRTCManager.peerConnections (WebRTCManager.mgr w) !! peerId = None ->
  sdpType o = SdpOffer ->
  descriptionOk o = true ->
  let r := WebRTCManager.connectToPeer (WebRTCManager.returning cb) (Some o) peerId w in
  let m' := WebRTCManager.mgr (state_of r) in
  result_of r = Ok tt /\
  WebRTCManager.app (state_of r) = WebRTCManager.app w /\
  WebRTCManager.signalingSocket m' = WebRTCManager.signalingSocket (WebRTCManager.mgr w) /\
  (exists pc, WebRTCManager.peerConnections m' !! peerId = Some pc /\
              RTCPeerConnection.signalingState pc = HaveLocalOffer /\
              RTCPeerConnection.localDescription pc = Some o) /\
  WebRTCManager.dataChannels m' !! peerId = Some RTCDataChannel.new.
Proof.
  intros Hsock Hpc Hty Hok. cbv zeta.
  destruct (WebRTCManager.connectToPeer
      (WebRTCManager.returning cb) (Some o) peerId w) as [r w'] eqn:E.
  unfold WebRTCManager.connectToPeer in E. unfold bind at 1, gets at 1 in E.
  rewrite Hpc in E.
  erewrite tryCatch_Ok in E; cycle 1.
  { unfold WebRTCManager.createPeerConnection, WebRTCManager.setupDataChannel.
    erewrite bind_Ok by reflexivity.
    erewrite bind_Ok by reflexivity.
    erewrite bind_Ok by reflexivity.
    erewrite bind_Ok; cycle 1.
    { unfold WebRTCManager.onPc. cbn. rewrite lookup_insert_eq.
      unfold RTCPeerConnection.setLocalDescription. rewrite Hok, Hty. cbn. reflexivity. }
    apply sendToSignalingServer_closed.
    destruct w as [[me name es so pcs dcs pend sts di] a]. exact Hsock. }
  injection E as <- <-.
  destruct w as [[me name es so pcs dcs pend sts di] a]. cbn.
  split; [reflexivity|]. split; [reflexivity|]. split; [reflexivity|].
  split; [|apply lookup_insert_eq].
  eexists. rewrite lookup_insert_eq. split; [reflexivity|]. auto.
Qed.

(** X15. Losing the relay does not touch the sessions: when the socket
    closes, every peer keeps its connection, channel, candidate queue,
    connection state and key; the status callback is all that runs. *)
Theorem relay_loss_keeps_sessions (w : WebRTCManager.World App) :
  let r := WebRTCManager.socket_onclose (WebRTCManager.returning cb) w in
  result_of r = Ok tt /\
  (forall peerId : string,
     WebRTCManager.sameSession peerId (WebRTCManager.mgr w) (WebRTCManager.mgr (state_of r))) /\
  WebRTCManager.app (state_of r) =
    cb (ConnectionStatusChanged disconnected) (WebRTCManager.mgr (state_of r))
      (WebRTCManager.app w) /\
  WebRTCManager.socketIsOpen (state_of r) = false.
Proof.
  destruct w as [[me name es so pcs dcs pend sts di] a]. cbv zeta.
  unfold WebRTCManager.socket_onclose, WebRTCManager.sameSession, WebRTCManager.socketIsOpen.
  eff_unfold. mgr_unfold. cbn.
  repeat split. now destruct so.
Qed.

(** [substring(0, n)] counts code units, not bytes: on an id of ASCII
    characters the two agree, on others they do not. *)
Lemma prefix_ascii (n : nat) (s : string) :
  (forall c, In c (list_ascii_of_string s) -> (N_of_ascii c < 128)%N) ->
  JsString.prefix n s = substring 0 n s.
Proof.
  revert s. induction n as [|n IH]; intros [|c s] H; try reflexivity.
  cbn [JsString.prefix substring].
  assert (Hc : (N_of_ascii c <? 192)%N = true).
  { apply N.ltb_lt. specialize (H c (or_introl eq_refl)). lia. }
  rewrite Hc. f_equal. apply IH. intros c' Hc'. apply H. now right.
Qed.

Lemma prefix_code_units :
  JsString.prefix 12 "abcdefghijklmnop" = "abcdefghijkl" /\
  JsString.prefix 12 "ééééééé" = "ééééééé" /\
  String.length (substring 0 12 "ééééééé") = 12 /\
  JsString.prefix 12 "日本語日本語日本語日本語日本語" = "日本語日本語日本語日本語".
Proof. repeat split; reflexivity. Qed.

(** X16. A node's own discovery traffic is not reported: a discovery ping
    carrying its own id is ignored, and so is a pong that comes from itself
    or is addressed to another node -- no reply, no callback. A ping from
    another node is answered by a pong addressed to that node and reported as
    a discovery, under the name given or, failing that, the first twelve
    UTF-16 code units of the id. *)
Theorem discovery_ignores_self
    (w : WebRTCManager.World App) (created : option RTCSessionDescriptionInit) (now : N) :
  let me := WebRTCManager.nodeId (WebRTCManager.mgr w) in
  let myName := WebRTCManager.username (WebRTCManager.mgr w) in
  (forall name t,
     WebRTCManager.handleSignalingMessage
         (WebRTCManager.returning cb) created now (discovery_ping me name t) w
       = (Ok tt, w)) /\
  (forall other name target t,
     other = me \/ target <> me ->
     WebRTCManager.handleSignalingMessage (WebRTCManager.returning cb) created now
       (discovery_pong other name target t) w = (Ok tt, w)) /\
  (forall other name t,
     other <> me ->
     exists w1,
       WebRTCManager.sendToSignalingServer (out_discovery_pong me myName other now) w
         = (Ok tt, w1) /\
       WebRTCManager.handleSignalingMessage
           (WebRTCManager.returning cb) created now (discovery_ping other name t) w =
         (Ok tt,
          {| WebRTCManager.mgr := WebRTCManager.mgr w1;
             WebRTCManager.app :=
               cb (PeerDiscovered other (WebRTCManager.orElse name (JsString.prefix 12 other)))
                  (WebRTCManager.mgr w1) (WebRTCManager.app w1) |})).
Proof.
  cbv zeta. split; [|split].
  - intros name t. unfold WebRTCManager.handleSignalingMessage.
    unfold bind at 1, gets at 1.
    rewrite bool_decide_eq_false_2; [reflexivity|]. intros H. now apply H.
  - intros other name target t H. unfold WebRTCManager.handleSignalingMessage.
    unfold bind at 1, gets at 1.
    destruct H as [-> | Hne].
    + rewrite (bool_decide_eq_false_2 (_ <> _)); [|intros H; now apply H].
      now rewrite andb_false_r.
    + now rewrite (bool_decide_eq_false_2 (target = _)).
  - intros other name t Hne. eexists. split; [reflexivity|].
    unfold WebRTCManager.handleSignalingMessage.
    unfold bind at 1, gets at 1.
    rewrite bool_decide_eq_true_2 by exact Hne.
    erewrite bind_Ok by reflexivity.
    erewrite bind_Ok by reflexivity.
    reflexivity.
Qed.

End EdgeProperties.

(** ** From one peer's [sendMessage] to the other's callback *)

Lemma demo_codec_keeps_content : codec_keeps_content Demo.codec.
Proof.
  intros md. eexists. split; [reflexivity|]. cbn.
  apply string_of_list_byte_of_string.
Qed.

Section Delivery.
Context {C : SubtleCrypto} {P : RTCPlatform} {J : MessageCodec}.

(** [handleEncryptedMessage], case by case. *)
Lemma handleEncryptedMessage_cases {App : Type} (cb : Event -> WebRTCManager.t -> App -> App)
    (w : WebRTCManager.World App) (c iv : bytes) (peerId : string) :
  WebRTCManager.handleEncryptedMessage (WebRTCManager.returning cb) c iv peerId w =
    match EncryptionService.sharedKeys
            (WebRTCManager.encryptionService (WebRTCManager.mgr w)) !! peerId with
    | Some k =>
        match aesGcmDecrypt k iv c with
        | Some plaintext =>
            match decodeMessageData plaintext with
            | Some md =>
                (Ok tt,
                 {| WebRTCManager.mgr := WebRTCManager.mgr w;
                    WebRTCManager.app :=
                      cb (MessageReceived (md_content md) peerId true)
                         (WebRTCManager.mgr w) (WebRTCManager.app w) |})
            | None => (Ok tt, w)
            end
        | None => (Ok tt, w)
        end
    | None => (Ok tt, w)
    end.
Proof.
  destruct w as [[me name [kpo keys] so pcs dcs pend sts di] a]. cbn.
  unfold WebRTCManager.handleEncryptedMessage, EncryptionService.decrypt.
  eff_unfold. mgr_unfold. cbn.
  destruct (keys !! peerId) as [k|]; cbn; [|reflexivity].
  destruct (aesGcmDecrypt k iv c) as [pt|]; cbn; [|reflexivity].
  now destruct (decodeMessageData pt).
Qed.

(** X17. A message travels: when the sender holds for the receiver the key
    the receiver holds for the sender, and the sender's channel is open, what
    [sendMessage] puts on the channel makes the receiver's handler run the
    message-received callback once, with the content that was sent, marked
    encrypted, and attributed to the peer the channel belongs to -- the sender
    fields of the frame and of the plaintext are not consulted. The
    receiver's manager is unchanged. *)
Theorem message_reaches_the_callback {AppS AppR : Type}
    (cb : Event -> WebRTCManager.t -> AppR -> AppR)
    (ws : WebRTCManager.World AppS) (wr : WebRTCManager.World AppR)
    (to from content : string) (k : CryptoKey) (dc : RTCDataChannel.t)
    (now now' : N) (iv c : bytes) :
  aead_correct C ->
  codec_keeps_content J ->
  let me := WebRTCManager.nodeId (WebRTCManager.mgr ws) in
  EncryptionService.sharedKeys
    (WebRTCManager.encryptionService (WebRTCManager.mgr ws)) !! to = Some k ->
  EncryptionService.sharedKeys
    (WebRTCManager.encryptionService (WebRTCManager.mgr wr)) !! from = Some k ->
  WebRTCManager.dataChannels (WebRTCManager.mgr ws) !! to = Some dc ->
  RTCDataChannel.isOpen dc = true ->
  aesGcmEncrypt k iv
    (encodeMessageData {| md_content := content; md_timestamp := now; md_sender := me |})
    = Some c ->
  let sent := WebRTCManager.sendMessage now iv to content ws in
  result_of sent = Ok tt /\
  WebRTCManager.dataChannels (WebRTCManager.mgr (state_of sent)) !! to =
    Some {| RTCDataChannel.readyState := DcOpen;
            RTCDataChannel.sent := RTCDataChannel.sent dc ++ [encrypted_message c iv me] |} /\
  forall claimed : string,
    WebRTCManager.handleDataChannelMessage (WebRTCManager.returning cb) now'
      (Some (encrypted_message c iv claimed)) from wr =
      (Ok tt,
       {| WebRTCManager.mgr := WebRTCManager.mgr wr;
          WebRTCManager.app :=
            cb (MessageReceived content from true) (WebRTCManager.mgr wr)
               (WebRTCManager.app wr) |}).
Proof.
  intros Haead Hcodec me Hks Hkr Hdc Hopen Henc. cbv zeta.
  rewrite manager_sendMessage_cases. cbv zeta. rewrite Hdc, Hopen, Hks.
  fold me. rewrite Henc.
  split; [reflexivity|]. split.
  - unfold state_of. cbn.
    destruct ws as [[? ? ? ? ? ? ? ? ?] ?]. cbn. now rewrite lookup_insert_eq.
  - intros claimed. unfold WebRTCManager.handleDataChannelMessage.
    apply tryCatch_Ok. rewrite handleEncryptedMessage_cases, Hkr.
    rewrite (Haead k iv _ c Henc).
    destruct (Hcodec {| md_content := content; md_timestamp := now; md_sender := me |})
      as (md' & -> & ->).
    reflexivity.
Qed.

End Delivery.

Lemma message_reaches_the_callback_witness :
  let ws := state_of (WebRTCManager.handleDataChannelMessage Network.recorder 1
                        (Some (key_exchange [Demo.dhPublic 7] "bob" true 1)) "bob"
                        (Demo.node "alice" 5 "bob")) in
  let wr := state_of (WebRTCManager.handleDataChannelMessage Network.recorder 1
                        (Some (key_exchange [Demo.dhPublic 5] "alice" true 1)) "alice"
                        (Demo.node "bob" 7 "alice")) in
  let c := Demo.dhDerive (Demo.dhPublic 7) 5 :: Demo.hello in
  WebRTCManager.handleDataChannelMessage Network.recorder 3
    (Some (encrypted_message c Demo.iv12 "mallory")) "alice" wr =
    (Ok tt,
     {| WebRTCManager.mgr := WebRTCManager.mgr wr;
        WebRTCManager.app :=
          [EncryptionEstablished "alice"; MessageReceived "hello" "alice" true] |}).
Proof.
  intros ws wr c.
  exact (proj2 (proj2 (message_reaches_the_callback Network.record ws wr
           "bob" "alice" "hello" (Demo.dhDerive (Demo.dhPublic 7) 5)
           {| RTCDataChannel.readyState := DcOpen; RTCDataChannel.sent := [] |}
           2 3 Demo.iv12 c demo_aead_correct demo_codec_keeps_content
           eq_refl eq_refl eq_refl eq_refl eq_refl)) "mallory").
Defined.

Section AfterHandshake.
Context {C : SubtleCrypto} {P : RTCPlatform} {J : MessageCodec}.

(** X18. The whole path: two peers run the crossed key exchange to the
    end; the key agreement giving both the same key, a message A then sends
    is delivered to B, whose log gains exactly one message-received entry,
    with the content sent, from A, encrypted; and nothing is left in
    flight. *)
Theorem message_after_handshake
    (idA idB content : string) (kpA kpB : EncryptionService.CryptoKeyPair)
    (a0 b0 : Network.Node) (nowA nowB now now' : N)
    (schedule : list (Network.Side * N)) (net : Network.Net) (iv c : bytes) :
  import_export_law C ->
  aead_correct C ->
  codec_keeps_content J ->
  Network.readyFor idA idB kpA a0 ->
  Network.readyFor idB idA kpB b0 ->
  deriveKey (EncryptionService.publicKey kpB) (EncryptionService.privateKey kpA) =
    deriveKey (EncryptionService.publicKey kpA) (EncryptionService.privateKey kpB) ->
  Network.run idA idB schedule (Network.crossed idA idB nowA nowB a0 b0) = Some net ->
  Network.quiescent idA idB net ->
  aesGcmEncrypt
    (deriveKey (EncryptionService.publicKey kpB) (EncryptionService.privateKey kpA)) iv
    (encodeMessageData {| md_content := content; md_timestamp := now; md_sender := idA |})
    = Some c ->
  let a1 := state_of (WebRTCManager.sendMessage now iv idB content (Network.nodeA net)) in
  exists net' : Network.Net,
    Network.deliver idA idB Network.SideB now'
      {| Network.nodeA := a1; Network.nodeB := Network.nodeB net |} = Some net' /\
    WebRTCManager.app (Network.nodeB net') =
      WebRTCManager.app b0 ++
      [EncryptionEstablished idA; EncryptionEstablished idA;
       MessageReceived content idA true] /\
    WebRTCManager.app (Network.nodeA net') = WebRTCManager.app (Network.nodeA net) /\
    Network.quiescent idA idB net'.
Proof.
  intros Hlaw Haead Hcodec Ha Hb Hagree Hrun Hq Henc a1.
  pose proof (kx_start idA idB kpA (EncryptionService.publicKey kpB) nowA a0 Ha) as HA0.
  pose proof (kx_start idB idA kpB (EncryptionService.publicKey kpA) nowB b0 Hb) as HB0.
  destruct (net_run Hlaw idA idB kpA kpB _ _ _ _ schedule 0 0
              (Network.crossed idA idB nowA nowB a0 b0) net HA0 HB0 Hrun)
    as (kA & kB & HA & HB & _).
  pose proof (proj1 (net_quiescent idA idB kpA kpB _ _ _ _ kA kB net HA HB) Hq) as [-> ->].
  destruct HA as [HidA HkpA _ HkeysA (t0 & t1 & HdcA) _ HlogA].
  destruct HB as [HidB HkpB _ HkeysB (u0 & u1 & HdcB) _ HlogB].
  cbn in HkeysA, HkeysB, HdcA, HdcB, HlogA, HlogB.
  assert (Hsend : WebRTCManager.sendMessage now iv idB content (Network.nodeA net) =
    (Ok tt,
     {| WebRTCManager.mgr :=
          WebRTCManager.set_dataChannels
            (insert idB {| RTCDataChannel.readyState := DcOpen;
                           RTCDataChannel.sent := [encrypted_message c iv idA] |})
            (WebRTCManager.mgr (Network.nodeA net));
        WebRTCManager.app := WebRTCManager.app (Network.nodeA net) |})).
  { rewrite manager_sendMessage_cases. cbv zeta.
    rewrite HdcA, isOpen_open, HkeysA. cbn. rewrite lookup_insert_eq, HidA, Henc. reflexivity. }
  assert (Hrecv : WebRTCManager.handleDataChannelMessage Network.recorder now'
                    (Some (encrypted_message c iv idA)) idA (Network.nodeB net) =
    (Ok tt,
     {| WebRTCManager.mgr := WebRTCManager.mgr (Network.nodeB net);
        WebRTCManager.app :=
          WebRTCManager.app (Network.nodeB net) ++ [MessageReceived content idA true] |})).
  { unfold WebRTCManager.handleDataChannelMessage, Network.recorder. apply tryCatch_Ok.
    rewrite handleEncryptedMessage_cases, HkeysB. cbn. rewrite lookup_insert_eq, <- Hagree.
    rewrite (Haead _ iv _ c Henc).
    destruct (Hcodec {| md_content := content; md_timestamp := now; md_sender := idA |})
      as (md' & -> & ->).
    reflexivity. }
  subst a1. rewrite Hsend. unfold state_of. cbn [snd].
  unfold Network.deliver, Network.takeFrame. cbn [Network.nodeA Network.nodeB].
  cbn [WebRTCManager.mgr WebRTCManager.app].
  assert (Hlk : WebRTCManager.dataChannels
            (WebRTCManager.set_dataChannels
               (insert idB {| RTCDataChannel.readyState := DcOpen;
                              RTCDataChannel.sent := [encrypted_message c iv idA] |})
               (WebRTCManager.mgr (Network.nodeA net))) !! idB =
          Some {| RTCDataChannel.readyState := DcOpen;
                  RTCDataChannel.sent := [encrypted_message c iv idA] |}).
  { destruct (Network.nodeA net) as [[? ? ? ? ? ? ? ? ?] ?]. cbn. apply lookup_insert_eq. }
  rewrite Hlk. cbn [RTCDataChannel.sent RTCDataChannel.readyState].
  rewrite Hrecv. cbn [snd].
  eexists. split; [reflexivity|].
  cbn [Network.nodeA Network.nodeB WebRTCManager.app WebRTCManager.mgr].
  split; [rewrite HlogB; cbn; now rewrite <- app_assoc|].
  split; [reflexivity|].
  unfold Network.quiescent, Network.inFlight.
  cbn [Network.nodeA Network.nodeB WebRTCManager.app WebRTCManager.mgr].
  split.
  - destruct (Network.nodeA net) as [[? ? ? ? ? ? ? ? ?] ?]. cbn.
    now rewrite lookup_insert_eq.
  - cbn. now rewrite HdcB.
Qed.

End AfterHandshake.

Lemma message_after_handshake_witness :
  exists net net' : Network.Net,
    Network.run "alice" "bob"
      [(Network.SideA, 200%N); (Network.SideB, 201%N);
       (Network.SideB, 202%N); (Network.SideA, 203%N)]
      (Network.crossed "alice" "bob" 100 101
         (Demo.node "alice" 5 "bob") (Demo.node "bob" 7 "alice")) = Some net /\
    Network.deliver "alice" "bob" Network.SideB 301
      {| Network.nodeA :=
           state_of (WebRTCManager.sendMessage 300 Demo.iv12 "bob" "hello"
                       (Network.nodeA net));
         Network.nodeB := Network.nodeB net |} = Some net' /\
    WebRTCManager.app (Network.nodeB net') =
      [EncryptionEstablished "alice"; EncryptionEstablished "alice";
       MessageReceived "hello" "alice" true].
Proof.
  destruct (Network.run "alice" "bob"
              [(Network.SideA, 200%N); (Network.SideB, 201%N);
               (Network.SideB, 202%N); (Network.SideA, 203%N)]
              (Network.crossed "alice" "bob" 100 101
                 (Demo.node "alice" 5 "bob") (Demo.node "bob" 7 "alice")))
    as [net|] eqn:Hrun; [|vm_compute in Hrun; discriminate].
  destruct (message_after_handshake "alice" "bob" "hello"
              (Demo.keyPairOf 5) (Demo.keyPairOf 7)
              (Demo.node "alice" 5 "bob") (Demo.node "bob" 7 "alice")
              100 101 300 301
              [(Network.SideA, 200%N); (Network.SideB, 201%N);
               (Network.SideB, 202%N); (Network.SideA, 203%N)]
              net Demo.iv12
              (Demo.dhDerive (Demo.dhPublic 7) 5 :: Demo.hello)
              demo_import_export demo_aead_correct demo_codec_keeps_content)
    as (net' & Hd & Hlog & _).
  - repeat split; reflexivity.
  - repeat split; reflexivity.
  - reflexivity.
  - exact Hrun.
  - vm_compute in Hrun. injection Hrun as <-. vm_compute. auto.
  - reflexivity.
  - exists net, net'. auto.
Defined.

Lemma late_candidates_applied_on_arrival_witness :
  let c1 := {| candidate := "candidate:1 1 udp 2122260223 192.0.2.1 54321 typ host";
               sdpMLineIndex := 0 |} in
  let c2 := {| candidate := ""; sdpMLineIndex := 0 |} in
  let w0 := state_of (WebRTCManager.connectToPeer Network.recorder (Some Demo.offerSdp) "bob"
              {| WebRTCManager.mgr := WebRTCManager.new "alice" "Alice" (Demo.service 5);
                 WebRTCManager.app := @nil Event |}) in
  let w := state_of (WebRTCManager.handleAnswer Network.recorder "bob" Demo.answerSdp w0) in
  exists pc : RTCPeerConnection.t,
    WebRTCManager.peerConnections
      (WebRTCManager.mgr
         (state_of (WebRTCManager.forEach [c1; c2]
                      (WebRTCManager.handleIceCandidate "bob") w))) !! "bob" = Some pc /\
    RTCPeerConnection.iceCandidates pc = [(c1, true); (c2, false)] /\
    WebRTCManager.pendingIceCandidates
      (WebRTCManager.mgr
         (state_of (WebRTCManager.forEach [c1; c2]
                      (WebRTCManager.handleIceCandidate "bob") w))) !! "bob" = None.
Proof.
  intros c1 c2 w0 w.
  destruct (late_candidates_applied_on_arrival [c1; c2] w "bob"
              {| RTCPeerConnection.connectionState := PcNew;
                 RTCPeerConnection.iceConnectionState := IceNew;
                 RTCPeerConnection.signalingState := Stable;
                 RTCPeerConnection.localDescription := Some Demo.offerSdp;
                 RTCPeerConnection.remoteDescription := Some Demo.answerSdp;
                 RTCPeerConnection.iceCandidates := [] |})
    as (_ & Hpc & Hq).
  - reflexivity.
  - cbn. eauto.
  - eexists. split; [exact Hpc|]. split; [reflexivity|].
    rewrite Hq. reflexivity.
Defined.

Lemma connectToPeer_without_relay_witness :
  let w := {| WebRTCManager.mgr := WebRTCManager.new "alice" "Alice" (Demo.service 5);
              WebRTCManager.app := @nil Event |} in
  let r := WebRTCManager.connectToPeer Network.recorder (Some Demo.offerSdp) "bob" w in
  result_of r = Ok tt /\
  WebRTCManager.app (state_of r) = [] /\
  WebRTCManager.signalingSocket (WebRTCManager.mgr (state_of r)) = None /\
  WebRTCManager.dataChannels (WebRTCManager.mgr (state_of r)) !! "bob" =
    Some RTCDataChannel.new.
Proof.
  intros w r.
  destruct (connectToPeer_without_relay Network.record w "bob" Demo.offerSdp)
    as (Hr & Ha & Hs & _ & Hdc); [reflexivity..|].
  repeat split; assumption.
Defined.

Section Typing.
Context {C : SubtleCrypto} {P : RTCPlatform} {J : MessageCodec}.

(** X19. Typing indicators need no key. With an open channel,
    [sendTypingIndicator] puts the frame on the channel in the clear and
    touches nothing else, whatever the state of the key exchange; the
    receiver's handler passes the flag to the typing callback under the id of
    the peer the channel belongs to, not the sender written in the frame, and
    leaves its manager as it was. Neither side throws. *)
Theorem typing_indicator_needs_no_key {AppS AppR : Type}
    (cb : Event -> WebRTCManager.t -> AppR -> AppR)
    (ws : WebRTCManager.World AppS) (wr : WebRTCManager.World AppR)
    (to from : string) (typing : bool) (dc : RTCDataChannel.t) (now : N) :
  WebRTCManager.dataChannels (WebRTCManager.mgr ws) !! to = Some dc ->
  RTCDataChannel.isOpen dc = true ->
  let frame := typing_indicator typing (WebRTCManager.nodeId (WebRTCManager.mgr ws)) in
  WebRTCManager.sendTypingIndicator to typing ws =
    (Ok tt,
     {| WebRTCManager.mgr :=
          WebRTCManager.set_dataChannels
            (insert to {| RTCDataChannel.readyState := DcOpen;
                          RTCDataChannel.sent := RTCDataChannel.sent dc ++ [frame] |})
            (WebRTCManager.mgr ws);
        WebRTCManager.app := WebRTCManager.app ws |}) /\
  forall claimed : string,
    WebRTCManager.handleDataChannelMessage (WebRTCManager.returning cb) now
      (Some (typing_indicator typing claimed)) from wr =
      (Ok tt,
       {| WebRTCManager.mgr := WebRTCManager.mgr wr;
          WebRTCManager.app :=
            cb (TypingIndicator from typing) (WebRTCManager.mgr wr)
               (WebRTCManager.app wr) |}).
Proof.
  intros Hdc Hopen frame. split.
  - destruct dc as [st sent]. apply bool_decide_eq_true_1 in Hopen. cbn in Hopen. subst st.
    unfold WebRTCManager.sendTypingIndicator, WebRTCManager.channelIsOpen.
    unfold bind at 1, gets at 1. rewrite Hdc, isOpen_open.
    eff_unfold. cbn. rewrite Hdc. reflexivity.
  - intros claimed. destruct wr as [m a]. reflexivity.
Qed.

End Typing.

Lemma typing_indicator_needs_no_key_witness :
  let ws := Demo.node "alice" 5 "bob" in
  let wr := Demo.node "bob" 7 "alice" in
  EncryptionService.sharedKeys
    (WebRTCManager.encryptionService (WebRTCManager.mgr ws)) = ∅ /\
  Network.inFlight "bob"
    (state_of (WebRTCManager.sendTypingIndicator "bob" true ws)) =
    [typing_indicator true "alice"] /\
  WebRTCManager.app
    (state_of (WebRTCManager.handleDataChannelMessage Network.recorder 1
                 (Some (typing_indicator true "alice")) "alice" wr)) =
    [TypingIndicator "alice" true].
Proof.
  intros ws wr.
  destruct (typing_indicator_needs_no_key Network.record ws wr "bob" "alice" true
              {| RTCDataChannel.readyState := DcOpen; RTCDataChannel.sent := [] |} 1
              eq_refl eq_refl) as [Hs Hr].
  split; [reflexivity|]. split.
  - rewrite Hs. reflexivity.
  - unfold Network.recorder. rewrite (Hr "alice"). reflexivity.
Defined.

Section Selecting.
Context {C : SubtleCrypto} {P : RTCPlatform} {J : MessageCodec}.

Lemma tryCatch_returns {S} (body : Eff S unit) (h : Error -> Eff S unit) (s : S) :
  (forall e s', result_of (h e s') = Ok tt) ->
  result_of (tryCatch body h s) = Ok tt.
Proof.
  intros Hh. unfold tryCatch, result_of in *.
  destruct (body s) as [[[]|e] s']; [reflexivity | apply Hh].
Qed.

(** [connectToPeer] catches what goes wrong, and the provider's
    peer-disconnected callback returns. *)
Lemma connectToPeer_returns
    (created : option RTCSessionDescriptionInit) (peerId : string)
    (w : WebRTCManager.World SecureChatProvider.t) :
  result_of (WebRTCManager.connectToPeer SecureChatProvider.callbacks created peerId w) = Ok tt.
Proof.
  unfold WebRTCManager.connectToPeer. unfold bind at 1, gets at 1.
  destruct (WebRTCManager.peerConnections (WebRTCManager.mgr w) !! peerId)
    as [[[] ? ? ? ? ?]|]; try reflexivity;
    (apply tryCatch_returns; intros e s'; now rewrite provider_handlePeerDisconnected).
Qed.

(** What [selectPeer] shows of the view is not touched by [connectToPeer]. *)
Lemma connectToPeer_view {V : Type} (v : SecureChatProvider.t -> V)
    (created : option RTCSessionDescriptionInit) (peerId : string) :
  (forall (m : WebRTCManager.t) a,
     v (state_of (SecureChatProvider.callbacks (PeerDisconnected peerId) m a)) = v a) ->
  keeps (fun w => v (WebRTCManager.app w))
    (WebRTCManager.connectToPeer SecureChatProvider.callbacks created peerId).
Proof.
  intros Hv. apply keeps_preserves. intros x.
  unfold WebRTCManager.connectToPeer, WebRTCManager.createPeerConnection,
    WebRTCManager.setupDataChannel, WebRTCManager.sendToSignalingServer,
    WebRTCManager.handlePeerDisconnected.
  preserves_structure
    ltac:(first
      [ preserves_frame
      | apply preserves_emit; intros ? ? ?; cbv beta in *;
        cbn [WebRTCManager.app] in *; rewrite Hv; assumption
      | apply preserves_liftES; intros [? ? [? ?] ? ? ? ? ? ?] ? ? ? ?; assumption ]).
Qed.

Lemma selectPeer_eq (created : option RTCSessionDescriptionInit) (peer : Peer.t)
    (w : WebRTCManager.World SecureChatProvider.t) :
  SecureChatProvider.selectPeer created peer w =
    (if SecureChatProvider.webrtcManagerRef (WebRTCManager.app w)
     then WebRTCManager.connectToPeer SecureChatProvider.callbacks created (Peer.id peer)
     else ret tt)
      {| WebRTCManager.mgr := WebRTCManager.mgr w;
         WebRTCManager.app :=
           SecureChatProvider.setIsTyping false
             (SecureChatProvider.setMessages (fun _ => [])
                (SecureChatProvider.setSelectedPeer (Some peer) (WebRTCManager.app w))) |}.
Proof.
  unfold SecureChatProvider.selectPeer.
  erewrite bind_Ok by apply liftApp_log_info. reflexivity.
Qed.

(** X20. [selectPeer] never throws, whatever becomes of the connection
    attempt it starts: afterwards the peer given is the selected one, the
    message list is empty, the typing flag is down, and the directory lists the
    same ids in the same order. *)
Theorem selectPeer_resets_view
    (created : option RTCSessionDescriptionInit) (peer : Peer.t)
    (w : WebRTCManager.World SecureChatProvider.t) :
  let r := SecureChatProvider.selectPeer created peer w in
  let a' := WebRTCManager.app (state_of r) in
  result_of r = Ok tt /\
  SecureChatProvider.selectedPeer a' = Some peer /\
  SecureChatProvider.messages a' = [] /\
  SecureChatProvider.isTyping a' = false /\
  map Peer.id (SecureChatProvider.peers a') =
    map Peer.id (SecureChatProvider.peers (WebRTCManager.app w)).
Proof.
  cbv zeta. rewrite selectPeer_eq.
  destruct (SecureChatProvider.webrtcManagerRef (WebRTCManager.app w)).
  - split; [apply connectToPeer_returns|].
    split; [|split; [|split]].
    + rewrite (connectToPeer_view SecureChatProvider.selectedPeer); [reflexivity|].
      intros m a. now rewrite callbacks_PeerDisconnected.
    + rewrite (connectToPeer_view SecureChatProvider.messages); [reflexivity|].
      intros m a. now rewrite callbacks_PeerDisconnected.
    + rewrite (connectToPeer_view SecureChatProvider.isTyping); [reflexivity|].
      intros m a. now rewrite callbacks_PeerDisconnected.
    + rewrite (connectToPeer_view (fun a => map Peer.id (SecureChatProvider.peers a))).
      * reflexivity.
      * intros m a. apply (callbacks_ids (PeerDisconnected (Peer.id peer))).
  - repeat split; reflexivity.
Qed.

End Selecting.
